(** * posenet-datagen-isaac: the pose-sampling and capture pipeline of main.py

    A shallow embedding of [DataGenEnv] (src/main.py) and of the script's
    driver, with the properties of the pipeline stated over it.

    Conventions of the embedding.
    - Probabilities, thresholds and camera intrinsics are exact rationals
      ([Q]); poses live over the real numbers ([R]), the idealisation of the
      floating-point vectors and quaternions of the engine. Where the
      storage of a number as a C float decides what the code does (the
      equality test of line 290), the numbers a C float can hold are
      singled out by the predicate [float32].
    - The engine (isaacgym), numpy's generator and the file system are
      effects: a program is a function of a [World] holding the generator's
      stream of unit samples, the number of samples consumed, and the trace
      of engine calls, file writes and printed lines in the order they were
      issued. What the program reads (the command line, the configuration,
      the stable-pose arrays) is given to it as arguments.
    - A Python exception is a [Raised] result; the world that comes with it
      is the world at the moment the exception left the program. *)

From Stdlib Require Import List String Ascii Bool Arith ZArith Lia.
From Stdlib Require Import QArith Qround Qreals.
From Stdlib Require Import Reals Lra.
From Stdlib Require Import Decimal DecimalNat DecimalString.
From Stdlib Require Import Sorting.Sorted.
Import ListNotations.

Set Implicit Arguments.

(* ------------------------------------------------------------------ *)
(** ** Python lists and numpy arrays *)

Module py.

(** [range(n)] *)
Definition range (n : nat) : list nat := seq 0 n.

(** [a[:stop]]: a negative [stop] counts from the end of the list. *)
Definition slice_to {A : Type} (a : list A) (stop : Z) : list A :=
  if (0 <=? stop)%Z then firstn (Z.to_nat stop) a
  else firstn (List.length a - Z.to_nat (- stop)) a.

(** [int(x)] on a number: truncation toward zero. *)
Definition int (x : Q) : Z :=
  if Qle_bool 0 x then Qfloor x else Qceiling x.

(** [str(n)] on a non-negative integer. *)
Definition str (n : nat) : string := NilEmpty.string_of_uint (Nat.to_uint n).

Fixpoint zeros (n : nat) : string :=
  match n with
  | O => EmptyString
  | S n' => String "0"%char (zeros n')
  end.

(** ["%0<width>d" % n] on a non-negative integer: the decimal digits of
    [n], padded on the left with zeros up to [width] characters and never
    cut. *)
Definition format_0d (width n : nat) : string :=
  (zeros (width - String.length (str n)) ++ str n)%string.

End py.

Module os_path.

Fixpoint ends_with_sep (a : string) : bool :=
  match a with
  | EmptyString => false
  | String c EmptyString => Ascii.eqb c "/"
  | String _ a' => ends_with_sep a'
  end.

(** [os.path.join(a, b)] on POSIX paths: [b] alone when it is absolute,
    else [a] and [b] with one separator between them, none being added
    when [a] is empty or ends with one. *)
Definition join (a b : string) : string :=
  if String.prefix "/" b then b
  else if (String.eqb a "" || ends_with_sep a)%bool then (a ++ b)%string
  else (a ++ "/" ++ b)%string.

End os_path.

Module np.

Definition Qlt_bool (x y : Q) : bool := negb (Qle_bool y x).

(** [a > c], elementwise. *)
Definition greater (a : list Q) (c : Q) : list bool :=
  map (fun x => Qlt_bool c x) a.

(** [a[mask]] for a boolean mask. *)
Fixpoint select {A : Type} (a : list A) (mask : list bool) : list A :=
  match a, mask with
  | x :: a', b :: mask' => if b then x :: select a' mask' else select a' mask'
  | _, _ => []
  end.

(** [np.sum(a)] *)
Definition sum (a : list Q) : Q := fold_right Qplus 0%Q a.

(** [a / s], elementwise. *)
Definition divide (a : list Q) (s : Q) : list Q := map (fun x => (x / s)%Q) a.

(** [np.arctan2(y, x)]: the angle of the point (x, y), in (-pi, pi]. *)
Definition arctan2 (y x : R) : R :=
  if Rlt_dec 0 x then atan (y / x)
  else if Rlt_dec x 0 then
         (if Rle_dec 0 y then atan (y / x) + PI else atan (y / x) - PI)%R
  else if Rlt_dec 0 y then (PI / 2)%R
  else if Rlt_dec y 0 then (- (PI / 2))%R
  else 0%R.

End np.

(* ------------------------------------------------------------------ *)
(** ** gymapi vectors, quaternions and transforms; scipy's yaw rotation *)

Module gymapi.

Record Vec3 : Type := mkVec3 { x : R; y : R; z : R }.

(** Component order (x, y, z, w): [w] is the scalar part. *)
Record Quat : Type := mkQuat { qx : R; qy : R; qz : R; w : R }.

Record Transform : Type := mkTransform { p : Vec3; r : Quat }.

(** [a + b] on vectors. *)
Definition add (a b : Vec3) : Vec3 :=
  mkVec3 (x a + x b) (y a + y b) (z a + z b).

(** [a * b]: the Hamilton product. *)
Definition mul (a b : Quat) : Quat :=
  mkQuat (w a * qx b + qx a * w b + qy a * qz b - qz a * qy b)
         (w a * qy b - qx a * qz b + qy a * w b + qz a * qx b)
         (w a * qz b + qx a * qy b - qy a * qx b + qz a * w b)
         (w a * w b - qx a * qx b - qy a * qy b - qz a * qz b).

Definition conjugate (a : Quat) : Quat :=
  mkQuat (- qx a) (- qy a) (- qz a) (w a).

(** [q.rotate(v)]: the vector part of [q * (v, 0) * conjugate(q)]. *)
Definition rotate (q : Quat) (v : Vec3) : Vec3 :=
  let t := mul (mul q (mkQuat (x v) (y v) (z v) 0)) (conjugate q) in
  mkVec3 (qx t) (qy t) (qz t).

Definition magnitude (a : Quat) : R :=
  sqrt (qx a * qx a + qy a * qy a + qz a * qz a + w a * w a).

(** [q.normalize()] *)
Definition normalize (a : Quat) : Quat :=
  let m := magnitude a in
  mkQuat (qx a / m) (qy a / m) (qz a / m) (w a / m).

Definition identity : Quat := mkQuat 0 0 0 1.

Record CameraProperties : Type := mkCameraProperties {
  width : Z;
  height : Z;
  horizontal_fov : R;
  far_plane : R
}.

End gymapi.

Module scipy.

(** [R.from_euler('z', angle, degrees=False).as_quat()], already wrapped
    in a [gymapi.Quat] as line 294 does. *)
Definition from_euler_z (angle : R) : gymapi.Quat :=
  gymapi.mkQuat 0 0 (sin (angle / 2)) (cos (angle / 2)).

End scipy.

(* ------------------------------------------------------------------ *)
(** ** Effects: exceptions, the world, and the program monad *)

Inductive exn : Type :=
| ValueError (msg : string)
| NameError (name : string)
| IndexError (msg : string).

Inductive result (A : Type) : Type :=
| Ok (a : A)
| Raised (e : exn).

Arguments Ok {A} a.
Arguments Raised {A} e.

Inductive image_type : Type := IMAGE_DEPTH | IMAGE_SEGMENTATION.

(** What the engine hands back for one camera: the buffer's content is the
    engine's business, the model keeps which sensor it came from. *)
Record buffer : Type := mkBuffer { buf_env : nat; buf_type : image_type }.

(** The arrays the export step saves. *)
Inductive ndarray : Type :=
| depth_f32_negated (b : buffer)   (* np.array(b, float32) * -1 *)
| mask_bool (b : buffer)            (* np.array(b, bool8) *)
| pose_f32 (v : list R).            (* the 7 components of a pose *)

(** One entry of the trace: a call on the engine, a write to disk, or a
    line printed. *)
Inductive event : Type :=
| acquire_gym
| dump_config (path : string)       (* yaml.dump(cfg, f), f opened on path *)
| create_sim
| add_ground
| create_viewer
| viewer_camera_look_at
| subscribe_viewer_keyboard_event (action : string)
| prepare_sim
| load_asset (file : string)
| print_creating (num_envs : nat)   (* line 229 *)
| create_env (env_idx : nat)
| create_actor (env_idx : nat) (pose : gymapi.Transform)
| set_rigid_body_segmentation_id (env_idx : nat) (seg_id : nat)
| create_camera_sensor (env_idx : nat) (props : gymapi.CameraProperties)
| set_camera_transform (env_idx : nat)
| set_rigid_transform (env_idx : nat) (t : gymapi.Transform)
| set_rigid_linear_velocity (env_idx : nat) (v : gymapi.Vec3)
| set_rigid_angular_velocity (env_idx : nat) (v : gymapi.Vec3)
| set_actor_rigid_body_properties (env_idx : nat)  (* gravity disabled *)
| clear_lines
| simulate
| fetch_results
| step_graphics
| draw_viewer
| render_all_camera_sensors
| get_camera_image (env_idx : nat) (ty : image_type)
| makedirs (path : string)
| save (path : string) (a : ndarray)
| print_progress (step_idx : nat) (num_of_data : nat).

Record World : Type := mkWorld {
  samples : nat -> Q;   (* numpy's generator: its stream of unit samples *)
  cursor : nat;         (* how many of them have been consumed *)
  trace : list event    (* oldest first *)
}.

Definition M (A : Type) : Type := World -> result A * World.

Definition ret {A : Type} (a : A) : M A := fun w => (Ok a, w).

Definition raise {A : Type} (e : exn) : M A := fun w => (Raised e, w).

Definition bind {A B : Type} (m : M A) (k : A -> M B) : M B :=
  fun w =>
    match m w with
    | (Ok a, w') => k a w'
    | (Raised e, w') => (Raised e, w')
    end.

Declare Scope prog_scope.
Delimit Scope prog_scope with prog.
Notation "x <- m ;; k" := (bind m (fun x => k))
  (at level 61, m at next level, right associativity) : prog_scope.
Notation "m ;; k" := (bind m (fun _ => k))
  (at level 61, right associativity) : prog_scope.
Open Scope prog_scope.

(** A call on the engine or the file system: it is appended to the trace. *)
Definition emit (e : event) : M unit :=
  fun w => (Ok tt, mkWorld (samples w) (cursor w) (trace w ++ [e])).

(** The next unit sample of the generator, in [0, 1). *)
Definition next_sample : M Q :=
  fun w => (Ok (samples w (cursor w)), mkWorld (samples w) (S (cursor w)) (trace w)).

(** [for a in l: f(a)], collecting what each round produced. *)
Fixpoint forM {A B : Type} (l : list A) (f : A -> M B) : M (list B) :=
  match l with
  | [] => ret []
  | a :: l' => b <- f a ;; bs <- forM l' f ;; ret (b :: bs)
  end.

(** [l[i]] for [i >= 0]. *)
Definition getitem {A : Type} (l : list A) (i : nat) : M A :=
  match nth_error l i with
  | Some a => ret a
  | None => raise (IndexError "list index out of range")
  end.

Module np_random.

(** The integer a unit sample [u] stands for in [randint(high)]. *)
Definition randint_of_sample (high : Z) (u : Q) : Z :=
  Qfloor (u * inject_Z high).

(** [np.random.randint(high)]: uniform over [0, high); an empty range is a
    [ValueError]. *)
Definition randint (high : Z) : M Z :=
  if (high <=? 0)%Z then raise (ValueError "high <= 0")
  else u <- next_sample ;; ret (randint_of_sample high u).

(** [np.random.uniform(low, high)] *)
Definition uniform (low high : R) : M R :=
  u <- next_sample ;; ret (low + (high - low) * Q2R u)%R.

(** The probability that [randint(high)] returns [i]: the length of the
    interval of unit samples that stand for [i]. *)
Definition randint_mass (high i : Z) : Q :=
  if ((0 <=? i) && (i <? high))%Z then (1 / inject_Z high)%Q else 0%Q.

End np_random.

(** [l[i]] for an index that may be negative. *)
Definition getitem_int {A : Type} (l : list A) (i : Z) : M A :=
  let n := Z.of_nat (List.length l) in
  if (0 <=? i)%Z then getitem l (Z.to_nat i)
  else if (- n <=? i)%Z then getitem l (Z.to_nat (n + i))
  else raise (IndexError "list index out of range").

(* ------------------------------------------------------------------ *)
(** ** The stable-pose catalog (main.py, lines 202-204) *)

(** Line 202: the probabilities above the minimum, cut to the maximum
    catalog size. *)
Definition retained_prob (min_stable_pose_prob : Q) (max_num_stable_pose : Z)
    (stable_prob : list Q) : list Q :=
  py.slice_to (np.select stable_prob (np.greater stable_prob min_stable_pose_prob))
              max_num_stable_pose.

(** Lines 202-204: the renormalised probabilities and the poses kept with
    them. The poses are only ever sliced, so their type is left open. *)
Definition filter_catalog {P : Type} (min_stable_pose_prob : Q)
    (max_num_stable_pose : Z) (stable_prob : list Q) (stable_poses : list P)
    : list Q * list P :=
  let object_stable_prob :=
    retained_prob min_stable_pose_prob max_num_stable_pose stable_prob in
  (np.divide object_stable_prob (np.sum object_stable_prob),
   py.slice_to stable_poses (Z.of_nat (List.length object_stable_prob))).

(* ------------------------------------------------------------------ *)
(** ** The camera model (main.py, lines 75-78 and 242-246) *)

Definition entry {A : Type} (d : A) (m : list (list A)) (i j : nat) : A :=
  nth j (nth i m []) d.

(** Lines 76-78. *)
Definition make_camera_matrix (fx fy cx cy : Q) : list (list Q) :=
  [[fx; 0%Q; cx]; [0%Q; fy; cy]; [0%Q; 0%Q; 1%Q]].

(** Lines 242-246. *)
Definition make_camera_props (camera_matrix : list (list Q))
    : gymapi.CameraProperties :=
  gymapi.mkCameraProperties
    (py.int (entry 0%Q camera_matrix 0 2 * 2))
    (py.int (entry 0%Q camera_matrix 1 2 * 2))
    (2 * np.arctan2 (Q2R (entry 0%Q camera_matrix 0 2))
                    (Q2R (entry 0%Q camera_matrix 0 0)) * 180 / PI)%R
    1%R.

(* ------------------------------------------------------------------ *)
(** ** class DataGenEnv *)

Module DataGenEnv.

(** The [simulation] part of the YAML configuration, as [__init__] reads
    it. *)
Record Config : Type := mkConfig {
  cfg_FILE_ZERO_PADDING_NUM : nat;
  cfg_num_envs : nat;
  cfg_num_iters : nat;
  cfg_target_object : string;
  cfg_target_dataset : string;
  cfg_object_rand_pose_range : Q;
  cfg_min_stable_pose_prob : Q;
  cfg_max_num_stable_pose : Z;
  cfg_fx : Q;
  cfg_fy : Q;
  cfg_cx : Q;
  cfg_cy : Q
}.

(** How the script was started: the directory of the script file,
    [os.path.dirname(os.path.abspath(__file__))] of line 81, and the flags
    [--headless] and [--save_results] of the command line. *)
Record Args : Type := mkArgs {
  arg_script_dir : string;
  arg_headless : bool;
  arg_save_results : bool
}.

(** A 4x4 resting transform of stable_poses.npy, row by row. *)
Definition matrix : Type := list (list R).

(** The two arrays loaded at lines 199-200. *)
Record Assets : Type := mkAssets {
  stable_prob : list Q;
  stable_poses : list matrix
}.

(** The attributes of [self] the pipeline reads. Handles are indices: the
    engine numbers the environments in creation order, and the object and
    the camera are the first actor and the first sensor of theirs. *)
Record t : Type := mk {
  FILE_ZERO_PADDING_NUM : nat;
  num_envs : nat;
  num_iters : nat;
  object_rand_pose_range : Q;
  min_stable_pose_prob : Q;
  max_num_stable_pose : Z;
  camera_matrix : list (list Q);
  headless : bool;
  save_results : bool;
  save_dir : string;
  viewer : bool;                       (* [self.viewer] is not [None] *)
  object_stable_prob : list Q;
  object_stable_poses : list gymapi.Transform;
  envs : list nat;
  object_handles : list nat;
  camera_handles : list nat;
  cur_object_stable_poses : list gymapi.Transform
}.

Section Scipy.

(** [R.from_matrix(m).as_quat()] of scipy, wrapped in a [gymapi.Quat]
    (lines 214-216): the conversion is the library's. *)
Variable as_quat : matrix -> gymapi.Quat.

(** [pose[:3,:3]] *)
Definition rotation_part (pose : matrix) : matrix :=
  map (firstn 3) (firstn 3 pose).

(** Lines 209-218, the body of the loop over the retained poses. *)
Definition to_transform (pose : matrix) : gymapi.Transform :=
  gymapi.mkTransform
    (gymapi.mkVec3 (entry 0%R pose 0 3) (entry 0%R pose 1 3) (entry 0%R pose 2 3))
    (as_quat (rotation_part pose)).

(** Lines 232-269, one round of the loop that creates the environments.
    It yields what the round appends to [self.envs],
    [self.cur_object_stable_poses], [self.object_handles] and
    [self.camera_handles]. The camera extrinsic of lines 255-263 is data
    that no later line of the pipeline reads; it is left out. *)
Definition create_envs_body (camera_matrix : list (list Q))
    (object_stable_poses : list gymapi.Transform) (env_idx : nat)
    : M (nat * gymapi.Transform * nat * nat) :=
  emit (create_env env_idx) ;;
  i <- np_random.randint (Z.of_nat (List.length object_stable_poses)) ;;
  object_pose <- getitem_int object_stable_poses i ;;
  emit (create_actor env_idx object_pose) ;;
  emit (set_rigid_body_segmentation_id env_idx 1) ;;
  emit (create_camera_sensor env_idx (make_camera_props camera_matrix)) ;;
  emit (set_camera_transform env_idx) ;;
  ret (env_idx, object_pose, O, O).

(** Lines 173-269. The asset files are already loaded ([assets]). *)
Definition _create_envs (self : t) (target_urdf : string) (assets : Assets)
    : M t :=
  emit (load_asset target_urdf) ;;
  let '(object_stable_prob, object_stable_poses) :=
    filter_catalog (min_stable_pose_prob self) (max_num_stable_pose self)
                   (stable_prob assets) (stable_poses assets) in
  let object_stable_poses := map to_transform object_stable_poses in
  emit (print_creating (num_envs self)) ;;
  rounds <- forM (py.range (num_envs self))
                 (create_envs_body (camera_matrix self) object_stable_poses) ;;
  ret (mk (FILE_ZERO_PADDING_NUM self) (num_envs self) (num_iters self)
          (object_rand_pose_range self) (min_stable_pose_prob self)
          (max_num_stable_pose self) (camera_matrix self) (headless self)
          (save_results self) (save_dir self) (viewer self)
          object_stable_prob object_stable_poses
          (envs self ++ map (fun x => fst (fst (fst x))) rounds)
          (object_handles self ++ map (fun x => snd (fst x)) rounds)
          (camera_handles self ++ map (fun x => snd x) rounds)
          (map (fun x => snd (fst (fst x))) rounds)).

(** Lines 146-166. The engine is taken to hand back a viewer, so the test
    of line 164, which comes after the viewer has been used, fails and
    [quit()] is not called. *)
Definition _create_viewer (headless : bool) : M bool :=
  if headless then ret false
  else
    emit create_viewer ;;
    emit viewer_camera_look_at ;;
    emit (subscribe_viewer_keyboard_event "QUIT") ;;
    emit (subscribe_viewer_keyboard_event "toggle_viewer_sync") ;;
    ret true.

(** Lines 16-107. The command line and the configuration file are already
    read ([args], [cfg]). *)
Definition __init__ (args : Args) (cfg : Config) (assets : Assets) : M t :=
  emit acquire_gym ;;
  let root_dir := (arg_script_dir args ++ "/src")%string in
  let save_dir := os_path.join root_dir (cfg_target_object cfg) in
  emit (makedirs save_dir) ;;
  emit (dump_config (os_path.join save_dir "config_yaml")) ;;
  emit create_sim ;;
  emit add_ground ;;
  viewer <- _create_viewer (arg_headless args) ;;
  let self :=
    mk (cfg_FILE_ZERO_PADDING_NUM cfg) (cfg_num_envs cfg) (cfg_num_iters cfg)
       (cfg_object_rand_pose_range cfg) (cfg_min_stable_pose_prob cfg)
       (cfg_max_num_stable_pose cfg)
       (make_camera_matrix (cfg_fx cfg) (cfg_fy cfg) (cfg_cx cfg) (cfg_cy cfg))
       (arg_headless args) (arg_save_results args) save_dir viewer
       [] [] [] [] [] [] in
  self <- _create_envs self
            (cfg_target_dataset cfg ++ "/" ++ cfg_target_object cfg ++ "/"
             ++ cfg_target_object cfg ++ ".urdf")%string
            assets ;;
  emit prepare_sim ;;
  ret self.

End Scipy.

(** The numbers Python reads for the two literals of line 290. A literal
    is a double: [-0.706636] is -1591202813143289 / 2^51 and [0.000685] is
    6318009845245521 / 2^63, the doubles nearest to the decimals. *)
Definition literal_m0_706636 : R := (- 1591202813143289 / 2 ^ 51)%R.

Definition literal_0_000685 : R := (6318009845245521 / 2 ^ 63)%R.

(** Line 290: the test that marks a symmetric stable pose. [q_stable.w] is
    the number the quaternion stores and [==] is exact. *)
Definition is_symmetric (q_stable : gymapi.Quat) : bool :=
  if Req_dec_T (gymapi.w q_stable) literal_m0_706636 then true
  else if Req_dec_T (gymapi.w q_stable) literal_0_000685 then true
  else false.

(** Lines 297-299. *)
Definition compose (p_stable : gymapi.Vec3) (q_stable : gymapi.Quat)
    (p_random : gymapi.Vec3) (q_random : gymapi.Quat) : gymapi.Transform :=
  let p := gymapi.add (gymapi.rotate q_random p_stable) p_random in
  let q := gymapi.normalize (gymapi.mul q_random q_stable) in
  gymapi.mkTransform p q.

(** Lines 277-311, one round of the loop of [reset_env]. *)
Definition reset_env_body (self : t) (env_idx : nat) : M gymapi.Transform :=
  env <- getitem (envs self) env_idx ;;
  _ <- getitem (object_handles self) env_idx ;;
  t_stable <- getitem (cur_object_stable_poses self) env_idx ;;
  let p_stable := gymapi.p t_stable in
  let q_stable := gymapi.r t_stable in
  let range := Q2R (object_rand_pose_range self) in
  ux <- np_random.uniform (- range) range ;;
  uy <- np_random.uniform (- range) range ;;
  let p_random := gymapi.mkVec3 ux uy 0.0021 in
  _ <- (if is_symmetric q_stable
        then yaw <- np_random.uniform 0 (PI / 2) ;;
             ret (Some (scipy.from_euler_z yaw))
        else ret None) ;;
  yaw <- np_random.uniform 0 (2 * PI) ;;
  let q_random := scipy.from_euler_z yaw in
  let t := compose p_stable q_stable p_random q_random in
  emit (set_rigid_transform env t) ;;
  emit (set_rigid_linear_velocity env (gymapi.mkVec3 0 0 0)) ;;
  emit (set_rigid_angular_velocity env (gymapi.mkVec3 0 0 0)) ;;
  emit (set_actor_rigid_body_properties env) ;;
  ret t.

(** Lines 273-317. *)
Definition reset_env (self : t) : M (list gymapi.Transform) :=
  reset_object_poses <- forM (py.range (num_envs self)) (reset_env_body self) ;;
  (if viewer self then emit clear_lines else ret tt) ;;
  ret reset_object_poses.

(** Lines 367-374. *)
Definition pose_type_conversion (object_poses : list gymapi.Transform)
    : list (list R) :=
  map (fun object_pose =>
         let p := gymapi.p object_pose in
         let q := gymapi.r object_pose in
         [gymapi.x p; gymapi.y p; gymapi.z p;
          gymapi.qx q; gymapi.qy q; gymapi.qz q; gymapi.w q])
      object_poses.

(** Lines 394-415. *)
Definition get_camera_image (self : t) : M (list ndarray * list ndarray) :=
  emit render_all_camera_sensors ;;
  images <- forM (py.range (num_envs self)) (fun i =>
    env <- getitem (envs self) i ;;
    _ <- getitem (camera_handles self) i ;;
    emit (get_camera_image env IMAGE_DEPTH) ;;
    emit (get_camera_image env IMAGE_SEGMENTATION) ;;
    ret (depth_f32_negated (mkBuffer env IMAGE_DEPTH),
         mask_bool (mkBuffer env IMAGE_SEGMENTATION))) ;;
  ret (map fst images, map snd images).

(** Line 356: ["_%0<pad>d.npy" % index]. *)
Definition file_suffix (pad index : nat) : string :=
  ("_" ++ py.format_0d pad index ++ ".npy")%string.

(** Lines 357-362: [os.path.join(self.save_dir, 'data', role + name)]. *)
Definition data_path (save_dir role name : string) : string :=
  (save_dir ++ "/data/" ++ role ++ name)%string.

(** Lines 355-362, one round of the export loop. *)
Definition save_body (self : t) (n_step : nat)
    (depth_images segmasks : list ndarray) (object_poses : list (list R))
    (env_idx : nat) : M unit :=
  let name :=
    file_suffix (FILE_ZERO_PADDING_NUM self) (n_step * num_envs self + env_idx) in
  image <- getitem depth_images env_idx ;;
  emit (save (data_path (save_dir self) "image" name) image) ;;
  mask <- getitem segmasks env_idx ;;
  emit (save (data_path (save_dir self) "mask" name) mask) ;;
  pose <- getitem object_poses env_idx ;;
  emit (save (data_path (save_dir self) "pose" name) (pose_f32 pose)).

(** Lines 328-365. *)
Definition step (self : t) (n_step : nat) : M unit :=
  object_poses <- reset_env self ;;
  let object_poses := pose_type_conversion object_poses in
  emit simulate ;;
  emit fetch_results ;;
  emit step_graphics ;;
  emit draw_viewer ;;
  images <- get_camera_image self ;;
  let '(depth_images, segmasks) := images in
  if save_results self then
    emit (makedirs (save_dir self ++ "/data")%string) ;;
    _ <- forM (py.range (num_envs self))
              (save_body self n_step depth_images segmasks object_poses) ;;
    ret tt
  else ret tt.

End DataGenEnv.

(* ------------------------------------------------------------------ *)
(** ** The script (main.py, lines 420-431) *)

(** The names bound at module level when line 422 runs: the imports, the
    class, and [env] of line 421. [config_file] is a local of
    [DataGenEnv.__init__] (line 40) and is not among them. *)
Definition module_globals : list string :=
  ["os"; "time"; "yaml"; "gymapi"; "gymutil"; "np"; "torch"; "R"; "plt";
   "DataGenEnv"; "env"]%string.

(** Reading a global name: an unbound one is a [NameError]. *)
Definition load_name (name : string) : M unit :=
  if existsb (String.eqb name) module_globals then ret tt
  else raise (NameError name).

(** Lines 427-431. *)
Definition run_iterations (env : DataGenEnv.t) (num_envs : nat) : M unit :=
  _ <- forM (py.range (DataGenEnv.num_iters env)) (fun i =>
         DataGenEnv.step env i ;;
         emit (print_progress i (i * num_envs))) ;;
  ret tt.

(** Lines 420-431. What [yaml.safe_load] would return at line 423 is the
    configuration [__init__] has read already. *)
Definition main (as_quat : DataGenEnv.matrix -> gymapi.Quat)
    (args : DataGenEnv.Args) (cfg : DataGenEnv.Config)
    (assets : DataGenEnv.Assets) : M unit :=
  env <- DataGenEnv.__init__ as_quat args cfg assets ;;
  load_name "config_file" ;;
  let num_envs := DataGenEnv.cfg_num_envs cfg in
  run_iterations env num_envs.

(** The world a run starts from. *)
Definition initial_world (samples : nat -> Q) : World := mkWorld samples 0 [].

(* ------------------------------------------------------------------ *)
(** ** Observations of a trace *)

Definition saved_paths (tr : list event) : list string :=
  flat_map (fun e => match e with save path _ => [path] | _ => [] end) tr.

Definition saved_poses (tr : list event) : list (list R) :=
  flat_map (fun e => match e with save _ (pose_f32 v) => [v] | _ => [] end) tr.

Definition written_transforms (tr : list event) : list (nat * gymapi.Transform) :=
  flat_map (fun e => match e with set_rigid_transform i t => [(i, t)] | _ => [] end) tr.

Definition created_envs (tr : list event) : list nat :=
  flat_map (fun e => match e with create_env i => [i] | _ => [] end) tr.

Definition created_actors (tr : list event) : list nat :=
  flat_map (fun e => match e with create_actor i _ => [i] | _ => [] end) tr.

Definition simulate_calls (tr : list event) : nat :=
  List.length (filter (fun e => match e with simulate => true | _ => false end) tr).

(** Every unit sample of the generator lies in [0, 1). *)
Definition unit_samples (s : nat -> Q) : Prop :=
  forall k, (0 <= s k)%Q /\ (s k < 1)%Q.

(** [self] as [_create_envs] leaves it: one handle and one canonical pose
    per environment. *)
Definition constructed (self : DataGenEnv.t) : Prop :=
  List.length (DataGenEnv.envs self) = DataGenEnv.num_envs self /\
  List.length (DataGenEnv.object_handles self) = DataGenEnv.num_envs self /\
  List.length (DataGenEnv.camera_handles self) = DataGenEnv.num_envs self /\
  List.length (DataGenEnv.cur_object_stable_poses self) = DataGenEnv.num_envs self /\
  DataGenEnv.envs self = py.range (DataGenEnv.num_envs self).

(* ------------------------------------------------------------------ *)
(** ** Properties the catalog is measured against *)

(** Probabilities in descending order, as the stable-pose files are said
    to be. *)
Definition descending (l : list Q) : Prop :=
  StronglySorted (fun a b => (b <= a)%Q) l.

(** The invariant of the retained catalog: the probabilities sum to 1, the
    two arrays have the same positive length, at most the maximum, and the
    pose and the probability at each index come from one entry of the
    input. *)
Definition catalog_invariant {P : Type} (min_prob : Q) (max_num : Z)
    (probs : list Q) (poses : list P) : Prop :=
  let raw := retained_prob min_prob max_num probs in
  let probs' := fst (filter_catalog min_prob max_num probs poses) in
  let poses' := snd (filter_catalog min_prob max_num probs poses) in
  (np.sum probs' == 1)%Q /\
  List.length poses' = List.length probs' /\
  (0 < List.length probs')%nat /\
  (Z.of_nat (List.length probs') <= max_num)%Z /\
  forall i, (i < List.length probs')%nat ->
    exists j p q,
      nth_error probs j = Some p /\ nth_error poses j = Some q /\
      nth_error poses' i = Some q /\
      nth_error probs' i = Some (p / np.sum raw)%Q.

(** The probability that line 235 places the retained pose of index [j]:
    the mass of [j] under [randint(len(self.object_stable_poses))]. *)
Definition placement_mass {P : Type} (object_stable_poses : list P) (j : nat)
    : Q :=
  np_random.randint_mass (Z.of_nat (List.length object_stable_poses))
                         (Z.of_nat j).

(** A draw weighted by the renormalised probabilities: index [j] is placed
    with the probability retained at index [j]. *)
Definition weighted_by_probability {P : Type} (object_stable_prob : list Q)
    (object_stable_poses : list P) : Prop :=
  forall j, (j < List.length object_stable_poses)%nat ->
    (placement_mass object_stable_poses j == nth j object_stable_prob 0)%Q.

(** The filter in the words of the specification: entries below the
    minimum are dropped, so one equal to the minimum stays; then the first
    [max_num] are kept. *)
Definition spec_retained_prob (min_prob : Q) (max_num : Z) (probs : list Q)
    : list Q :=
  firstn (Z.to_nat max_num) (filter (fun p => Qle_bool min_prob p) probs).

(** A pure translation as a 4x4 resting transform. *)
Definition translation (tx ty tz : R) : DataGenEnv.matrix :=
  [[1; 0; 0; tx]; [0; 1; 0; ty]; [0; 0; 1; tz]; [0; 0; 0; 1]]%R.

(** What [_create_envs] does with the generator: it ends without an
    exception having consumed one unit sample per environment; the sample
    of environment [e] alone fixes its canonical pose, the retained pose of
    the index that sample stands for; the samples standing for an index [j]
    are those of [[j/n, (j+1)/n)], an interval of length [1/n], which is
    the mass of every index, [n] being the size of the retained catalog. *)
Definition uniform_pose_draws (as_quat : DataGenEnv.matrix -> gymapi.Quat)
    (self : DataGenEnv.t) (urdf : string) (assets : DataGenEnv.Assets)
    (w : World) : Prop :=
  let cat := filter_catalog (DataGenEnv.min_stable_pose_prob self)
                            (DataGenEnv.max_num_stable_pose self)
                            (DataGenEnv.stable_prob assets)
                            (DataGenEnv.stable_poses assets) in
  let poses := map (DataGenEnv.to_transform as_quat) (snd cat) in
  let n := inject_Z (Z.of_nat (List.length poses)) in
  exists self' w',
    DataGenEnv._create_envs as_quat self urdf assets w = (Ok self', w') /\
    cursor w' = (cursor w + DataGenEnv.num_envs self)%nat /\
    DataGenEnv.object_stable_prob self' = fst cat /\
    DataGenEnv.object_stable_poses self' = poses /\
    List.length (DataGenEnv.cur_object_stable_poses self') =
      DataGenEnv.num_envs self /\
    (forall e, (e < DataGenEnv.num_envs self)%nat ->
       exists i, (i < List.length poses)%nat /\
         nth_error (DataGenEnv.cur_object_stable_poses self') e =
           nth_error poses i /\
         forall j, (j < List.length poses)%nat ->
           (i = j <->
            (inject_Z (Z.of_nat j) / n <= samples w (cursor w + e)%nat)%Q /\
            (samples w (cursor w + e)%nat < inject_Z (Z.of_nat j + 1) / n)%Q)) /\
    (forall j, (j < List.length poses)%nat ->
       (inject_Z (Z.of_nat j + 1) / n - inject_Z (Z.of_nat j) / n == 1 / n)%Q /\
       (placement_mass poses j == 1 / n)%Q).

(** A run that died of the [ValueError] of [randint] on an empty range
    while it was building environment 0: the engine had created that
    environment, and no actor yet. *)
Definition aborts_in_first_env (out : result unit * World) : Prop :=
  fst out = Raised (ValueError "high <= 0") /\
  created_envs (trace (snd out)) = [0%nat] /\
  created_actors (trace (snd out)) = [].

(** The pose one round of [reset_env] composes for the canonical pose
    [t_stable] when the generator stands at sample [c]: samples [c] and
    [c + 1] give the planar offset; the yaw comes from the draw over
    [[0, 2 pi)], which is the third draw of the round, or the fourth when
    the pose is marked symmetric and a draw over [[0, pi/2)] came before. *)
Definition reset_pose (self : DataGenEnv.t) (t_stable : gymapi.Transform)
    (s : nat -> Q) (c : nat) : gymapi.Transform :=
  let range := Q2R (DataGenEnv.object_rand_pose_range self) in
  let ux := (- range + (range - - range) * Q2R (s c))%R in
  let uy := (- range + (range - - range) * Q2R (s (S c)))%R in
  let at_yaw := if DataGenEnv.is_symmetric (gymapi.r t_stable)
                then S (S (S c)) else S (S c) in
  let yaw := (0 + (2 * PI - 0) * Q2R (s at_yaw))%R in
  DataGenEnv.compose (gymapi.p t_stable) (gymapi.r t_stable)
                     (gymapi.mkVec3 ux uy 0.0021) (scipy.from_euler_z yaw).

(** The unit samples one round of [reset_env] consumes. *)
Definition reset_draws (t_stable : gymapi.Transform) : nat :=
  if DataGenEnv.is_symmetric (gymapi.r t_stable) then 4%nat else 3%nat.

(** Every pose [reset_env] writes stands 0.0021 above the canonical pose of
    its environment. *)
Definition height_offset_fixed (self : DataGenEnv.t) (w : World) : Prop :=
  exists poses w',
    DataGenEnv.reset_env self w = (Ok poses, w') /\
    List.length poses = DataGenEnv.num_envs self /\
    written_transforms (trace w') =
      written_transforms (trace w) ++ combine (DataGenEnv.envs self) poses /\
    forall e t t_stable,
      nth_error poses e = Some t ->
      nth_error (DataGenEnv.cur_object_stable_poses self) e = Some t_stable ->
      gymapi.z (gymapi.p t) = (gymapi.z (gymapi.p t_stable) + 0.0021)%R.

(** Reading a string of decimal digits back as a number, leading zeros
    allowed. *)
Definition parse_nat (s : string) : option nat :=
  option_map Nat.of_uint (NilEmpty.uint_of_string s).

(** The three files of the sample of global index [index]. *)
Definition sample_files (save_dir : string) (pad index : nat) : list string :=
  [DataGenEnv.data_path save_dir "image" (DataGenEnv.file_suffix pad index);
   DataGenEnv.data_path save_dir "mask" (DataGenEnv.file_suffix pad index);
   DataGenEnv.data_path save_dir "pose" (DataGenEnv.file_suffix pad index)].

(** ** Inputs for the worked examples *)

Definition example_cfg (min_prob : Q) : DataGenEnv.Config :=
  DataGenEnv.mkConfig 5 4 2 "E2" "dataset" (1 # 10) min_prob 10
                      1000 1000 320 240.

Definition example_args : DataGenEnv.Args :=
  DataGenEnv.mkArgs "/repo/src" true true.

Definition example_assets : DataGenEnv.Assets :=
  DataGenEnv.mkAssets
    [1 # 2; 3 # 10; 1 # 5]%Q
    [translation 0 0 0.01; translation 0 0 0.02; translation 0 0 0.03].

Definition example_as_quat : DataGenEnv.matrix -> gymapi.Quat :=
  fun _ => gymapi.identity.

(** [self] as [__init__] hands it to [_create_envs] (lines 91-95). *)
Definition example_self (min_prob : Q) : DataGenEnv.t :=
  DataGenEnv.mk 5 4 2 (1 # 10) min_prob 10
                (make_camera_matrix 1000 1000 320 240)
                true true "./src/E2" false [] [] [] [] [] [].

Definition half_samples : nat -> Q := fun _ => (1 # 2)%Q.

(** The symmetric stable pose the second literal of line 290 was written
    for, as a [gymapi.Quat] holds it: the scalar part is the C float
    nearest to 0.000685, which is 5884105 / 2^33 (0.00068499997723...; it
    prints as 0.000685), and the first component the C float nearest to
    sqrt(1 - w^2), which is 4194303 / 2^22. *)
Definition symmetric_pose : gymapi.Transform :=
  gymapi.mkTransform
    (gymapi.mkVec3 0 0 0.05)
    (gymapi.mkQuat (4194303 / 2 ^ 22) 0 0 (5884105 / 2 ^ 33)).

(** A scene of one environment whose canonical pose is [symmetric_pose]. *)
Definition symmetric_self : DataGenEnv.t :=
  DataGenEnv.mk 5 1 1 (1 # 10) (1 # 10) 10
                (make_camera_matrix 1000 1000 320 240)
                true true "./src/E2" false
                [1%Q] [symmetric_pose] [0%nat] [0%nat] [0%nat] [symmetric_pose].

(** A scene of two environments, as [_create_envs] leaves it. *)
Definition example_scene : DataGenEnv.t :=
  DataGenEnv.mk 5 2 3 (1 # 10) (1 # 10) 10
                (make_camera_matrix 1000 1000 320 240)
                true true "./src/E2" false
                [1 # 2; 1 # 2]%Q
                [symmetric_pose;
                 gymapi.mkTransform (gymapi.mkVec3 0 0 0.01) gymapi.identity]
                [0; 1]%nat [0; 0]%nat [0; 0]%nat
                [gymapi.mkTransform (gymapi.mkVec3 0 0 0.01) gymapi.identity;
                 symmetric_pose].

(* ------------------------------------------------------------------ *)
(** ** Properties of programs *)

(** A property of the trace that no step of a program breaks, whatever the
    program's outcome. *)
Definition preserves (Pr : list event -> Prop) {A : Type} (m : M A) : Prop :=
  forall w, Pr (trace w) -> Pr (trace (snd (m w))).

(** A trace in which no iteration has begun: no simulation step and no
    file of a sample. *)
Definition no_iteration (tr : list event) : Prop :=
  simulate_calls tr = 0%nat /\ saved_paths tr = [].

(** Events of scene construction. *)
Definition construction_event (e : event) : Prop :=
  match e with
  | simulate | save _ _ => False
  | _ => True
  end.

(* ------------------------------------------------------------------ *)
(** ** The camera extrinsic (main.py, lines 255-263) *)

(** Column [j] of a matrix given row by row. *)
Definition column (j : nat) (m : DataGenEnv.matrix) : list R :=
  map (fun row => nth j row 0%R) m.

(** [np.dot(a, b)] on two-dimensional arrays. *)
Definition np_dot (a b : DataGenEnv.matrix) : DataGenEnv.matrix :=
  map (fun row =>
         map (fun j =>
                fold_right Rplus 0%R
                  (map (fun uv => (fst uv * snd uv)%R)
                       (combine row (column j b))))
             (seq 0 (List.length (hd [] b))))
      a.

(** [m.T] *)
Definition transpose (m : DataGenEnv.matrix) : DataGenEnv.matrix :=
  map (fun j => column j m) (seq 0 (List.length (hd [] m))).

(** [np.eye(n)] *)
Definition np_eye (n : nat) : DataGenEnv.matrix :=
  map (fun i => map (fun j => if Nat.eqb i j then 1%R else 0%R) (seq 0 n))
      (seq 0 n).

(** Line 259. *)
Definition rot_convert : DataGenEnv.matrix :=
  [[0; 0; 1]; [-1; 0; 0]; [0; -1; 0]]%R.

(** Line 251: where the camera is mounted. *)
Definition cam_pose_p : gymapi.Vec3 := gymapi.mkVec3 0 0.16 0.7.

(** Lines 260-263. [rot] is the rotation matrix scipy returns for the
    mount orientation (line 258); the two slice assignments write it, once
    converted, into the upper-left 3x3 block of the identity, and the mount
    position into the first three rows of the last column. *)
Definition camera_extr (rot : DataGenEnv.matrix) : DataGenEnv.matrix :=
  let rot := np_dot rot rot_convert in
  let eye := np_eye 4 in
  let with_rot :=
    map (fun i =>
           map (fun j =>
                  if (Nat.ltb i 3 && Nat.ltb j 3)%bool
                  then entry 0%R rot i j else entry 0%R eye i j)
               (seq 0 4))
        (seq 0 4) in
  let position := [gymapi.x cam_pose_p; gymapi.y cam_pose_p; gymapi.z cam_pose_p] in
  map (fun i =>
         map (fun j =>
                if (Nat.ltb i 3 && Nat.eqb j 3)%bool
                then nth i position 0%R else entry 0%R with_rot i j)
             (seq 0 4))
      (seq 0 4).

(** The upper-left 3x3 block of a 4x4 transform. *)
Definition rotation_block (m : DataGenEnv.matrix) : DataGenEnv.matrix :=
  map (firstn 3) (firstn 3 m).

(* ------------------------------------------------------------------ *)
(** ** visualize.py *)

Module visualize.

Inductive outcome : Type :=
| Done
| FileNotFoundError (path : string).

(** Line 4: [os.path.join(os.getcwd(), "src/E2/data")]. *)
Definition dir (cwd : string) : string := (cwd ++ "/" ++ "src/E2/data")%string.

(** Lines 7-9: [role ++ "_%05d.npy" % file_idx]. *)
Definition file_name (role : string) (file_idx : nat) : string :=
  (role ++ "_" ++ py.format_0d 5 file_idx ++ ".npy")%string.

(** [dir + "/" + name] *)
Definition path_of (cwd role : string) (file_idx : nat) : string :=
  (dir cwd ++ "/" ++ file_name role file_idx)%string.

(** Whether [np.load] finds the file, [files] being the files that
    exist. *)
Definition exists_file (files : list string) (path : string) : bool :=
  existsb (String.eqb path) files.

(** Lines 6-21: for each index the pose, the mask and the depth image are
    loaded in this order, then one figure is shown. The result lists the
    indices whose figure was shown and tells how the loop ended. *)
Fixpoint loop (files : list string) (cwd : string) (indices : list nat)
    : list nat * outcome :=
  match indices with
  | [] => ([], Done)
  | file_idx :: rest =>
      if negb (exists_file files (path_of cwd "pose" file_idx))
      then ([], FileNotFoundError (path_of cwd "pose" file_idx))
      else if negb (exists_file files (path_of cwd "mask" file_idx))
      then ([], FileNotFoundError (path_of cwd "mask" file_idx))
      else if negb (exists_file files (path_of cwd "image" file_idx))
      then ([], FileNotFoundError (path_of cwd "image" file_idx))
      else let '(shown, out) := loop files cwd rest in
           (file_idx :: shown, out)
  end.

(** The script: indices 0 to 99. *)
Definition main (files : list string) (cwd : string) : list nat * outcome :=
  loop files cwd (seq 0 100).

End visualize.

(* ------------------------------------------------------------------ *)
(** ** The calls of one iteration and of scene construction *)

(** Line 372: the 7 components of a pose. *)
Definition pose_vector (t : gymapi.Transform) : list R :=
  [gymapi.x (gymapi.p t); gymapi.y (gymapi.p t); gymapi.z (gymapi.p t);
   gymapi.qx (gymapi.r t); gymapi.qy (gymapi.r t); gymapi.qz (gymapi.r t);
   gymapi.w (gymapi.r t)].

(** What [reset_env] does to environment [e] once it has composed [t]. *)
Definition reset_events (et : nat * gymapi.Transform) : list event :=
  [set_rigid_transform (fst et) (snd et);
   set_rigid_linear_velocity (fst et) (gymapi.mkVec3 0 0 0);
   set_rigid_angular_velocity (fst et) (gymapi.mkVec3 0 0 0);
   set_actor_rigid_body_properties (fst et)].

(** The two reads of the camera of environment [e]. *)
Definition camera_events (e : nat) : list event :=
  [get_camera_image e IMAGE_DEPTH; get_camera_image e IMAGE_SEGMENTATION].

(** The three writes of the sample of environment [e] in iteration
    [n_step], [t] being the pose of that environment. *)
Definition save_events (self : DataGenEnv.t) (n_step : nat)
    (et : nat * gymapi.Transform) : list event :=
  let name := DataGenEnv.file_suffix (DataGenEnv.FILE_ZERO_PADDING_NUM self)
                (n_step * DataGenEnv.num_envs self + fst et) in
  [save (DataGenEnv.data_path (DataGenEnv.save_dir self) "image" name)
        (depth_f32_negated (mkBuffer (fst et) IMAGE_DEPTH));
   save (DataGenEnv.data_path (DataGenEnv.save_dir self) "mask" name)
        (mask_bool (mkBuffer (fst et) IMAGE_SEGMENTATION));
   save (DataGenEnv.data_path (DataGenEnv.save_dir self) "pose" name)
        (pose_f32 (pose_vector (snd et)))].

(** The calls of one iteration that wrote [poses], in order. *)
Definition step_events (self : DataGenEnv.t) (n_step : nat)
    (poses : list gymapi.Transform) : list event :=
  let placed := combine (py.range (DataGenEnv.num_envs self)) poses in
  flat_map reset_events placed ++
  (if DataGenEnv.viewer self then [clear_lines] else []) ++
  [simulate; fetch_results; step_graphics; draw_viewer;
   render_all_camera_sensors] ++
  flat_map camera_events (py.range (DataGenEnv.num_envs self)) ++
  (if DataGenEnv.save_results self
   then makedirs (DataGenEnv.save_dir self ++ "/data")%string ::
        flat_map (save_events self n_step) placed
   else []).

(** The calls that build environment [e] around the pose it was given. *)
Definition construction_events (cm : list (list Q))
    (ep : nat * gymapi.Transform) : list event :=
  [create_env (fst ep); create_actor (fst ep) (snd ep);
   set_rigid_body_segmentation_id (fst ep) 1;
   create_camera_sensor (fst ep) (make_camera_props cm);
   set_camera_transform (fst ep)].

(** The unit samples [reset_env] has consumed before it reaches
    environment [e]. *)
Definition draws_before (self : DataGenEnv.t) (e : nat) : nat :=
  list_sum (map reset_draws (firstn e (DataGenEnv.cur_object_stable_poses self))).

Definition progress_lines (tr : list event) : list (nat * nat) :=
  flat_map (fun e => match e with print_progress i n => [(i, n)] | _ => [] end) tr.

Definition made_dirs (tr : list event) : list string :=
  flat_map (fun e => match e with makedirs path => [path] | _ => [] end) tr.

(** The squared magnitude of a quaternion. *)
Definition norm2 (q : gymapi.Quat) : R :=
  (gymapi.qx q * gymapi.qx q + gymapi.qy q * gymapi.qy q +
   gymapi.qz q * gymapi.qz q + gymapi.w q * gymapi.w q)%R.

(** The scene of the examples, run without [--save_results]. *)
Definition quiet_scene : DataGenEnv.t :=
  DataGenEnv.mk 5 2 3 (1 # 10) (1 # 10) 10
                (make_camera_matrix 1000 1000 320 240)
                false false "./src/E2" true
                [1 # 2; 1 # 2]%Q
                [symmetric_pose;
                 gymapi.mkTransform (gymapi.mkVec3 0 0 0.01) gymapi.identity]
                [0; 1]%nat [0; 0]%nat [0; 0]%nat
                [gymapi.mkTransform (gymapi.mkVec3 0 0 0.01) gymapi.identity;
                 symmetric_pose].

(** What [reset_env] draws: for each environment a planar offset within
    the configured range and a yaw within a full turn, and the pose is
    composed from them. *)
Definition draws_within_ranges (self : DataGenEnv.t) (w : World) : Prop :=
  let range := Q2R (DataGenEnv.object_rand_pose_range self) in
  exists poses w',
    DataGenEnv.reset_env self w = (Ok poses, w') /\
    forall e t, nth_error poses e = Some t ->
      exists t_stable ux uy yaw,
        nth_error (DataGenEnv.cur_object_stable_poses self) e = Some t_stable /\
        (- range <= ux <= range)%R /\
        (- range <= uy <= range)%R /\
        (0 <= yaw < 2 * PI)%R /\
        t = DataGenEnv.compose (gymapi.p t_stable) (gymapi.r t_stable)
                               (gymapi.mkVec3 ux uy 0.0021)
                               (scipy.from_euler_z yaw).


(** Every pose [reset_env] writes has an orientation of magnitude 1. *)
Definition writes_unit_orientations (self : DataGenEnv.t) (w : World) : Prop :=
  exists poses w',
    DataGenEnv.reset_env self w = (Ok poses, w') /\
    written_transforms (trace w') =
      written_transforms (trace w) ++ combine (DataGenEnv.envs self) poses /\
    forall t, In t poses -> gymapi.magnitude (gymapi.r t) = 1%R.

(** Lines 81-82: the directory of the object's dataset, [src/<object>]
    under the directory of the script. *)
Definition run_save_dir (args : DataGenEnv.Args) (cfg : DataGenEnv.Config)
    : string :=
  os_path.join (DataGenEnv.arg_script_dir args ++ "/src")%string
               (DataGenEnv.cfg_target_object cfg).

(** [self] as [__init__] has filled it when it calls [_create_envs]. *)
Definition init_self (args : DataGenEnv.Args) (cfg : DataGenEnv.Config)
    : DataGenEnv.t :=
  DataGenEnv.mk
    (DataGenEnv.cfg_FILE_ZERO_PADDING_NUM cfg) (DataGenEnv.cfg_num_envs cfg)
    (DataGenEnv.cfg_num_iters cfg) (DataGenEnv.cfg_object_rand_pose_range cfg)
    (DataGenEnv.cfg_min_stable_pose_prob cfg)
    (DataGenEnv.cfg_max_num_stable_pose cfg)
    (make_camera_matrix (DataGenEnv.cfg_fx cfg) (DataGenEnv.cfg_fy cfg)
                        (DataGenEnv.cfg_cx cfg) (DataGenEnv.cfg_cy cfg))
    (DataGenEnv.arg_headless args) (DataGenEnv.arg_save_results args)
    (run_save_dir args cfg)
    (negb (DataGenEnv.arg_headless args))
    [] [] [] [] [] [].

(** The calls of [__init__] before [_create_envs]: the engine is acquired,
    the dataset directory is made and the configuration is dumped into it,
    the simulation and the ground are created, and unless the run is
    headless the viewer is created, its camera aimed, and the two keys
    subscribed. *)
Definition init_prelude (args : DataGenEnv.Args) (cfg : DataGenEnv.Config)
    : list event :=
  [acquire_gym;
   makedirs (run_save_dir args cfg);
   dump_config (os_path.join (run_save_dir args cfg) "config_yaml");
   create_sim; add_ground] ++
  (if DataGenEnv.arg_headless args then []
   else [create_viewer; viewer_camera_look_at;
         subscribe_viewer_keyboard_event "QUIT";
         subscribe_viewer_keyboard_event "toggle_viewer_sync"]).

(** The asset file [_create_envs] loads (lines 180-184). *)
Definition object_asset_file (cfg : DataGenEnv.Config) : string :=
  (DataGenEnv.cfg_target_dataset cfg ++ "/" ++ DataGenEnv.cfg_target_object cfg
   ++ "/" ++ DataGenEnv.cfg_target_object cfg ++ ".urdf")%string.

(** The retained poses of a run, as transforms. *)
Definition catalog_of (as_quat : DataGenEnv.matrix -> gymapi.Quat)
    (cfg : DataGenEnv.Config) (assets : DataGenEnv.Assets)
    : list gymapi.Transform :=
  map (DataGenEnv.to_transform as_quat)
      (snd (filter_catalog (DataGenEnv.cfg_min_stable_pose_prob cfg)
                           (DataGenEnv.cfg_max_num_stable_pose cfg)
                           (DataGenEnv.stable_prob assets)
                           (DataGenEnv.stable_poses assets))).

(** How scene construction ends: well whenever the catalog has a pose or
    no environment is requested, and in the [ValueError] of the index draw
    otherwise. *)
Definition construction_outcome (as_quat : DataGenEnv.matrix -> gymapi.Quat)
    (args : DataGenEnv.Args) (cfg : DataGenEnv.Config)
    (assets : DataGenEnv.Assets) (s : nat -> Q) : Prop :=
  let out := DataGenEnv.__init__ as_quat args cfg assets (initial_world s) in
  (catalog_of as_quat cfg assets <> [] \/ DataGenEnv.cfg_num_envs cfg = 0%nat ->
   exists env w', out = (Ok env, w') /\ constructed env) /\
  (catalog_of as_quat cfg assets = [] /\ (0 < DataGenEnv.cfg_num_envs cfg)%nat ->
   exists w', out = (Raised (ValueError "high <= 0"), w')).

(** The calls, file writes and printed lines of a scene construction that
    ends well: the prelude, the load of the asset, the line announcing the
    environments, then for each environment in index order its
    creation, its actor at the canonical pose given to it, the
    segmentation tag 1, its camera and the camera's mount, and last the
    preparation of the simulation; every canonical pose is a pose of the
    retained catalog. *)
Definition construction_calls (as_quat : DataGenEnv.matrix -> gymapi.Quat)
    (args : DataGenEnv.Args) (cfg : DataGenEnv.Config)
    (assets : DataGenEnv.Assets) (s : nat -> Q) : Prop :=
  exists env w',
    DataGenEnv.__init__ as_quat args cfg assets (initial_world s) = (Ok env, w') /\
    constructed env /\
    DataGenEnv.object_stable_poses env = catalog_of as_quat cfg assets /\
    (forall t, In t (DataGenEnv.cur_object_stable_poses env) ->
       In t (catalog_of as_quat cfg assets)) /\
    trace w' =
      init_prelude args cfg ++
      load_asset (object_asset_file cfg) ::
      print_creating (DataGenEnv.cfg_num_envs cfg) ::
      flat_map (construction_events (DataGenEnv.camera_matrix env))
               (combine (py.range (DataGenEnv.cfg_num_envs cfg))
                        (DataGenEnv.cur_object_stable_poses env)) ++
      [prepare_sim].

(** What visualize.py does with the files a run of the loop of the driver
    has written into an empty data directory under [root]: it shows one
    figure per sample, up to 100, and ends well only if the run wrote at
    least 100 samples; otherwise it dies on the pose file of the first
    sample that was not written. *)
Definition visualize_after_run (self : DataGenEnv.t) (shown : nat)
    (w : World) (root : string) : Prop :=
  let written := (DataGenEnv.num_iters self * DataGenEnv.num_envs self)%nat in
  visualize.main (saved_paths (trace (snd (run_iterations self shown w)))) root =
  (py.range (Nat.min written 100),
   if (100 <=? written)%nat then visualize.Done
   else visualize.FileNotFoundError (visualize.path_of root "pose" written)).


(* ------------------------------------------------------------------ *)
(** ** The pose randomizer, draw by draw *)

(** What [reset_env] does: it ends without an exception with one pose per
    environment, each written to its environment's object. The round of
    environment [e] starts at the unit sample [c] that follows the draws of
    the environments before it; [p_random] is the offset of the draws [c]
    and [c + 1] over [[-range, range]] at height 0.0021, [q_random] the yaw
    rotation of the last draw of the round, over [[0, 2 pi]]; the position
    written is [q_random.rotate(p_stable) + p_random] and the orientation
    [normalize(q_random * q_stable)], the random rotation on the left. *)
Definition composed_poses_written (self : DataGenEnv.t) (w : World) : Prop :=
  let range := Q2R (DataGenEnv.object_rand_pose_range self) in
  exists poses w',
    DataGenEnv.reset_env self w = (Ok poses, w') /\
    List.length poses = DataGenEnv.num_envs self /\
    written_transforms (trace w') =
      written_transforms (trace w) ++ combine (DataGenEnv.envs self) poses /\
    forall e t, nth_error poses e = Some t ->
      exists t_stable,
        nth_error (DataGenEnv.cur_object_stable_poses self) e = Some t_stable /\
        let c := (cursor w + draws_before self e)%nat in
        let last := (c + reset_draws t_stable - 1)%nat in
        let p_random :=
          gymapi.mkVec3 (- range + (range - - range) * Q2R (samples w c))
                        (- range + (range - - range) * Q2R (samples w (S c)))
                        0.0021 in
        let q_random :=
          scipy.from_euler_z (0 + (2 * PI - 0) * Q2R (samples w last)) in
        gymapi.p t = gymapi.add (gymapi.rotate q_random (gymapi.p t_stable))
                                p_random /\
        gymapi.r t = gymapi.normalize (gymapi.mul q_random (gymapi.r t_stable)).

(** The numbers a C float can hold, the range of the exponent apart: an
    integer below 2^24 in magnitude, scaled by a power of two. *)
Definition float32 (v : R) : Prop :=
  exists (m : Z) (a b : nat),
    (Z.abs m < 2 ^ 24)%Z /\ v = (IZR m * 2 ^ a / 2 ^ b)%R.

(** A scene a run can hold: [gymapi.Quat] stores four C floats, so the
    scalar part of every canonical orientation is one. *)
Definition holds_floats (self : DataGenEnv.t) : Prop :=
  forall t_stable, In t_stable (DataGenEnv.cur_object_stable_poses self) ->
    float32 (gymapi.w (gymapi.r t_stable)).

(** What [reset_env] does about symmetric poses on a scene a run can hold:
    no canonical pose passes the test of line 290; every environment takes
    three unit samples, and its pose is composed with the yaw of the third,
    drawn over the full turn. *)
Definition yaw_over_full_turn (self : DataGenEnv.t) (w : World) : Prop :=
  let range := Q2R (DataGenEnv.object_rand_pose_range self) in
  (forall t_stable, In t_stable (DataGenEnv.cur_object_stable_poses self) ->
     DataGenEnv.is_symmetric (gymapi.r t_stable) = false) /\
  exists poses w',
    DataGenEnv.reset_env self w = (Ok poses, w') /\
    List.length poses = DataGenEnv.num_envs self /\
    cursor w' = (cursor w + 3 * DataGenEnv.num_envs self)%nat /\
    forall e t, nth_error poses e = Some t ->
      exists t_stable,
        nth_error (DataGenEnv.cur_object_stable_poses self) e = Some t_stable /\
        let c := (cursor w + 3 * e)%nat in
        let p_random :=
          gymapi.mkVec3 (- range + (range - - range) * Q2R (samples w c))
                        (- range + (range - - range) * Q2R (samples w (S c)))
                        0.0021 in
        let yaw := (0 + (2 * PI - 0) * Q2R (samples w (S (S c))))%R in
        t = DataGenEnv.compose (gymapi.p t_stable) (gymapi.r t_stable)
                               p_random (scipy.from_euler_z yaw).

(* ------------------------------------------------------------------ *)
(** ** File names, character by character *)

(** [digits] is [index] zero-padded to [pad] characters: a string of
    decimal digits that reads as [index] and has [pad] characters, or as
    many as [index] has digits when these are more. *)
Definition zero_padded (pad index : nat) (digits : string) : Prop :=
  parse_nat digits = Some index /\
  String.length digits =
    Nat.max pad (String.length (NilEmpty.string_of_uint (Nat.to_uint index))).

(** [path] is the file of role [role] of the sample of global index
    [index]: [<save_dir>/data/<role>_<padded index>.npy]. *)
Definition names_sample (save_dir role : string) (pad index : nat)
    (path : string) : Prop :=
  exists digits,
    zero_padded pad index digits /\
    path = (save_dir ++ "/data/" ++ role ++ "_" ++ digits ++ ".npy")%string.

(** [paths] are the files of the samples [indices], sample by sample: for
    each index the image, the mask and the pose, and nothing else. *)
Fixpoint names_triples (save_dir : string) (pad : nat) (indices : list nat)
    (paths : list string) : Prop :=
  match indices, paths with
  | [], [] => True
  | index :: indices', image :: mask :: pose :: paths' =>
      names_sample save_dir "image" pad index image /\
      names_sample save_dir "mask" pad index mask /\
      names_sample save_dir "pose" pad index pose /\
      names_triples save_dir pad indices' paths'
  | _, _ => False
  end.

(** The export contract of [step] and of the loop that calls it: iteration
    [n] writes the triples of the samples [n * num_envs + e], [e] in
    environment order, and no other file; the whole loop writes those of
    the samples [0 .. num_iters * num_envs - 1], in order, three files per
    sample, no file twice. *)
Definition exports_indexed_triples (self : DataGenEnv.t) (w : World) : Prop :=
  let N := DataGenEnv.num_envs self in
  let pad := DataGenEnv.FILE_ZERO_PADDING_NUM self in
  let save_dir := DataGenEnv.save_dir self in
  (forall n, exists w' paths,
     DataGenEnv.step self n w = (Ok tt, w') /\
     saved_paths (trace w') = saved_paths (trace w) ++ paths /\
     names_triples save_dir pad (map (fun e => n * N + e)%nat (py.range N))
                   paths) /\
  (forall shown, exists w' paths,
     run_iterations self shown w = (Ok tt, w') /\
     saved_paths (trace w') = saved_paths (trace w) ++ paths /\
     names_triples save_dir pad (py.range (DataGenEnv.num_iters self * N))
                   paths /\
     List.length paths = (3 * (DataGenEnv.num_iters self * N))%nat /\
     NoDup paths).

(** The files of the example scene: two environments, three iterations, a
    padding width of 5. *)
Definition example_files : list string :=
  ["./src/E2/data/image_00000.npy"; "./src/E2/data/mask_00000.npy";
   "./src/E2/data/pose_00000.npy";
   "./src/E2/data/image_00001.npy"; "./src/E2/data/mask_00001.npy";
   "./src/E2/data/pose_00001.npy";
   "./src/E2/data/image_00002.npy"; "./src/E2/data/mask_00002.npy";
   "./src/E2/data/pose_00002.npy";
   "./src/E2/data/image_00003.npy"; "./src/E2/data/mask_00003.npy";
   "./src/E2/data/pose_00003.npy";
   "./src/E2/data/image_00004.npy"; "./src/E2/data/mask_00004.npy";
   "./src/E2/data/pose_00004.npy";
   "./src/E2/data/image_00005.npy"; "./src/E2/data/mask_00005.npy";
   "./src/E2/data/pose_00005.npy"]%string.
(* ------------------------------------------------------------------ *)
(** * Lemmas on lists and arrays *)

Lemma Qlt_bool_iff (a b : Q) : np.Qlt_bool a b = true <-> (a < b)%Q.
Proof.
  unfold np.Qlt_bool. rewrite negb_true_iff.
  split; intro H.
  - apply Qnot_le_lt. intro Hle. apply Qle_bool_iff in Hle. congruence.
  - destruct (Qle_bool b a) eqn:E; [|reflexivity].
    apply Qle_bool_iff in E. exfalso. exact (Qlt_not_le _ _ H E).
Qed.

Lemma select_greater (a : list Q) (c : Q) :
  np.select a (np.greater a c) = filter (fun v => np.Qlt_bool c v) a.
Proof.
  unfold np.greater.
  induction a as [|v a IH]; simpl; [reflexivity|].
  rewrite IH. destruct (np.Qlt_bool c v); reflexivity.
Qed.

Lemma slice_to_is_firstn {A : Type} (a : list A) (stop : Z) :
  exists k, py.slice_to a stop = firstn k a.
Proof.
  unfold py.slice_to. destruct (0 <=? stop)%Z; eexists; reflexivity.
Qed.

Lemma slice_to_nonneg {A : Type} (a : list A) (stop : Z) :
  (0 <= stop)%Z -> py.slice_to a stop = firstn (Z.to_nat stop) a.
Proof.
  intro H. unfold py.slice_to.
  destruct (Z.leb_spec 0 stop); [reflexivity|lia].
Qed.

Lemma slice_to_length {A : Type} (a : list A) (n : nat) :
  py.slice_to a (Z.of_nat n) = firstn n a.
Proof. rewrite slice_to_nonneg by lia. now rewrite Nat2Z.id. Qed.

Lemma In_firstn {A : Type} (k : nat) (l : list A) (v : A) :
  In v (firstn k l) -> In v l.
Proof.
  revert l; induction k as [|k IH]; intros [|u l]; simpl; try tauto.
  intros [H|H]; [now left|right; now apply IH].
Qed.

Lemma retained_prob_firstn (min_prob : Q) (max_num : Z) (probs : list Q) :
  (0 <= max_num)%Z ->
  retained_prob min_prob max_num probs =
  firstn (Z.to_nat max_num) (filter (fun v => np.Qlt_bool min_prob v) probs).
Proof.
  intro H. unfold retained_prob.
  now rewrite select_greater, slice_to_nonneg.
Qed.

Lemma retained_prob_above (min_prob : Q) (max_num : Z) (probs : list Q) (v : Q) :
  In v (retained_prob min_prob max_num probs) ->
  In v probs /\ (min_prob < v)%Q.
Proof.
  unfold retained_prob. rewrite select_greater.
  destruct (slice_to_is_firstn
              (filter (fun v => np.Qlt_bool min_prob v) probs) max_num) as [k ->].
  intro H. apply In_firstn, filter_In in H.
  destruct H as [H1 H2]. split; [assumption|now apply Qlt_bool_iff].
Qed.

Lemma sum_divide (l : list Q) (s : Q) :
  (np.sum (np.divide l s) == np.sum l / s)%Q.
Proof.
  unfold np.sum, np.divide.
  induction l as [|v l IH]; simpl.
  - unfold Qdiv. ring.
  - rewrite IH. unfold Qdiv. ring.
Qed.

Lemma length_divide (l : list Q) (s : Q) :
  List.length (np.divide l s) = List.length l.
Proof. apply length_map. Qed.

Lemma sum_positive (l : list Q) :
  l <> [] -> (forall v, In v l -> (0 < v)%Q) -> (0 < np.sum l)%Q.
Proof.
  induction l as [|v l IH]; [congruence|]. intros _ Hpos. simpl.
  destruct l as [|u l].
  - simpl. rewrite Qplus_0_r. apply Hpos. now left.
  - assert (0 < v)%Q by (apply Hpos; now left).
    assert (0 < np.sum (u :: l))%Q.
    { apply IH; [discriminate|]. intros x Hx. apply Hpos. now right. }
    unfold np.sum in *. simpl in *.
    apply Qlt_trans with (0 + (u + fold_right Qplus 0 l))%Q.
    + now rewrite Qplus_0_l.
    + apply Qplus_lt_le_compat; [assumption|apply Qle_refl].
Qed.

Lemma filter_descending_prefix (c : Q) (l : list Q) :
  descending l ->
  filter (fun v => np.Qlt_bool c v) l =
  firstn (List.length (filter (fun v => np.Qlt_bool c v) l)) l.
Proof.
  induction 1 as [|v l Hs IH Hall]; simpl; [reflexivity|].
  destruct (np.Qlt_bool c v) eqn:E; simpl.
  - now rewrite <- IH.
  - assert (Hnil : filter (fun u => np.Qlt_bool c u) l = []).
    { clear IH Hs. induction l as [|u l IHl]; simpl; [reflexivity|].
      inversion Hall as [|? ? Hu Hrest]; subst.
      destruct (np.Qlt_bool c u) eqn:Eu.
      - apply Qlt_bool_iff in Eu.
        assert (c < v)%Q by (eapply Qlt_le_trans; eassumption).
        apply Qlt_bool_iff in H. congruence.
      - now apply IHl. }
    now rewrite Hnil.
Qed.

Lemma firstn_firstn_min {A : Type} (i j : nat) (l : list A) :
  firstn i (firstn j l) = firstn (Nat.min i j) l.
Proof. apply firstn_firstn. Qed.

Lemma nth_error_firstn_lt {A : Type} (k i : nat) (l : list A) :
  (i < k)%nat -> nth_error (firstn k l) i = nth_error l i.
Proof.
  revert i l; induction k as [|k IH]; intros i l Hi; [lia|].
  destruct l as [|v l]; [reflexivity|].
  destruct i as [|i]; simpl; [reflexivity|]. apply IH. lia.
Qed.

(** On a descending array the retained probabilities are a prefix of the
    array. *)
Lemma retained_prob_prefix (min_prob : Q) (max_num : Z) (probs : list Q) :
  descending probs ->
  retained_prob min_prob max_num probs =
  firstn (List.length (retained_prob min_prob max_num probs)) probs.
Proof.
  intro Hd. unfold retained_prob. rewrite select_greater.
  destruct (slice_to_is_firstn
              (filter (fun v => np.Qlt_bool min_prob v) probs) max_num) as [k ->].
  rewrite (filter_descending_prefix min_prob Hd) at 1.
  rewrite firstn_firstn. rewrite length_firstn.
  reflexivity.
Qed.

(* ------------------------------------------------------------------ *)
(** * The stable-pose catalog *)

Lemma retained_prob_length_le (min_prob : Q) (max_num : Z) (probs : list Q) :
  (List.length (retained_prob min_prob max_num probs) <= List.length probs)%nat.
Proof.
  unfold retained_prob. rewrite select_greater.
  destruct (slice_to_is_firstn
              (filter (fun v => np.Qlt_bool min_prob v) probs) max_num) as [k ->].
  rewrite length_firstn.
  pose proof (filter_length_le (fun v => np.Qlt_bool min_prob v) probs). lia.
Qed.

Lemma retained_sum_positive (min_prob : Q) (max_num : Z) (probs : list Q) :
  (0 <= min_prob)%Q ->
  retained_prob min_prob max_num probs <> [] ->
  (0 < np.sum (retained_prob min_prob max_num probs))%Q.
Proof.
  intros Hmin Hne. apply sum_positive; [assumption|].
  intros v Hv. apply retained_prob_above in Hv.
  eapply Qle_lt_trans; [exact Hmin|apply Hv].
Qed.

(** C6 (as amended). For every input catalog, parallel arrays sorted by
    descending probability as the stable-pose files are, whose filtering
    retains at least one entry, provided [max_num_stable_pose] is not
    negative and the retained probabilities do not sum to zero: the
    renormalised probabilities sum to 1, the retained pose array and
    probability array have the same positive length, at most
    [max_num_stable_pose], and the pose and the probability at index [i]
    both come from entry [i] of the input. *)
Theorem filtered_catalog_invariant :
  forall (P : Type) (min_prob : Q) (max_num : Z) (probs : list Q)
         (poses : list P),
    descending probs ->
    List.length poses = List.length probs ->
    (0 <= max_num)%Z ->
    ~ (np.sum (retained_prob min_prob max_num probs) == 0)%Q ->
    retained_prob min_prob max_num probs <> [] ->
    catalog_invariant min_prob max_num probs poses.
Proof.
  intros P min_prob max_num probs poses Hd Hlen Hmax Hsum Hne.
  unfold catalog_invariant, filter_catalog. cbn [fst snd].
  set (raw := retained_prob min_prob max_num probs) in *.
  assert (Hraw : (List.length raw <= List.length probs)%nat)
    by apply retained_prob_length_le.
  assert (Hpos : (0 < List.length raw)%nat).
  { destruct raw; [congruence|simpl; lia]. }
  rewrite slice_to_length.
  rewrite !length_divide, length_firstn.
  split; [|split; [|split; [|split]]].
  - rewrite sum_divide. field. exact Hsum.
  - lia.
  - assumption.
  - subst raw. rewrite retained_prob_firstn by assumption.
    rewrite length_firstn. clear - Hmax. lia.
  - intros i Hi.
    assert (Hpre : nth_error raw i = nth_error probs i).
    { pose proof (retained_prob_prefix min_prob max_num Hd) as Hp.
      fold raw in Hp. rewrite Hp at 1. now apply nth_error_firstn_lt. }
    destruct (nth_error probs i) as [v|] eqn:Ev.
    2:{ apply nth_error_None in Ev. lia. }
    destruct (nth_error poses i) as [q|] eqn:Eq.
    2:{ apply nth_error_None in Eq. lia. }
    exists i, v, q. repeat split; try assumption.
    + rewrite nth_error_firstn_lt by assumption. assumption.
    + unfold np.divide. rewrite nth_error_map, Hpre. reflexivity.
Qed.

(** The two provisos are needed: where the invariant holds, the maximum
    is positive and the retained probabilities do not sum to zero. *)
Lemma catalog_invariant_provisos {P : Type} (min_prob : Q) (max_num : Z)
    (probs : list Q) (poses : list P) :
  catalog_invariant min_prob max_num probs poses ->
  (0 < max_num)%Z /\
  ~ (np.sum (retained_prob min_prob max_num probs) == 0)%Q.
Proof.
  unfold catalog_invariant, filter_catalog. cbn [fst snd].
  intros (Hsum & _ & Hpos & Hmax & _). split; [lia|].
  intro H0. rewrite sum_divide, H0 in Hsum.
  unfold Qdiv in Hsum. rewrite Qmult_0_l in Hsum. discriminate.
Qed.

Lemma descending_example : descending [1 # 2; 3 # 10; 1 # 5]%Q.
Proof.
  unfold descending.
  repeat (constructor; repeat (constructor; try (unfold Qle; simpl; lia))).
Qed.

Lemma descending_zeros : descending [0; 0]%Q.
Proof.
  unfold descending.
  repeat (constructor; repeat (constructor; try (unfold Qle; simpl; lia))).
Qed.

Lemma filtered_catalog_invariant_witness :
  catalog_invariant (- (1 # 10)) 2 [1 # 2; 3 # 10; 1 # 5]%Q
    [translation 0 0 0.01; translation 0 0 0.02; translation 0 0 0.03].
Proof.
  apply filtered_catalog_invariant.
  - exact descending_example.
  - reflexivity.
  - lia.
  - vm_compute. discriminate.
  - vm_compute. discriminate.
Defined.

(** C6, the counterexample: two catalogs of parallel arrays in descending
    order from which the filter retains entries and on which the invariant
    fails. With a maximum size of -1 the slice of line 202 drops the last
    retained entry only, and two entries stay, more than the maximum. With
    probabilities that are all zero and a negative minimum, both entries
    are retained and their sum is zero, so the division of line 203 does
    not give probabilities that sum to 1. *)
Lemma catalog_invariant_fails_in_domain :
  (descending [1 # 2; 3 # 10; 1 # 5]%Q /\
   retained_prob (1 # 10) (-1) [1 # 2; 3 # 10; 1 # 5]%Q = [1 # 2; 3 # 10]%Q /\
   ~ catalog_invariant (1 # 10) (-1) [1 # 2; 3 # 10; 1 # 5]%Q
       [translation 0 0 0.01; translation 0 0 0.02; translation 0 0 0.03]) /\
  (descending [0; 0]%Q /\
   retained_prob (- (1 # 10)) 5 [0; 0]%Q = [0; 0]%Q /\
   ~ catalog_invariant (- (1 # 10)) 5 [0; 0]%Q
       [translation 0 0 0.01; translation 0 0 0.02]).
Proof.
  split; (split; [|split]).
  - exact descending_example.
  - reflexivity.
  - unfold catalog_invariant. intros (_ & _ & _ & H & _).
    vm_compute in H. apply H. reflexivity.
  - exact descending_zeros.
  - reflexivity.
  - unfold catalog_invariant. intros (H & _).
    vm_compute in H. discriminate.
Qed.

(** Why the arrays must be parallel: with fewer poses than retained
    probabilities the slice of line 204 keeps what poses there are, and
    the two arrays differ in length. *)
Lemma catalog_invariant_fails_unequal_lengths :
  retained_prob (1 # 10) 5 [1 # 2; 3 # 10; 1 # 5]%Q <> [] /\
  ~ catalog_invariant (1 # 10) 5 [1 # 2; 3 # 10; 1 # 5]%Q
      [translation 0 0 0.01].
Proof.
  split; [vm_compute; discriminate|].
  unfold catalog_invariant. intros (_ & H & _).
  vm_compute in H. discriminate.
Qed.

(** Why the input must be sorted: on a catalog that is not in descending
    order the mask of line 202 keeps entries 1 and 2 while the slice of
    line 204 keeps poses 0 and 1, so the pose at index 0 is paired with the
    probability of another entry. *)
Lemma catalog_invariant_fails_unsorted :
  retained_prob (1 # 10) 5 [1 # 20; 1 # 2; 9 # 20]%Q <> [] /\
  ~ catalog_invariant (1 # 10) 5 [1 # 20; 1 # 2; 9 # 20]%Q
      [translation 0 0 0.01; translation 0 0 0.02; translation 0 0 0.03].
Proof.
  split; [vm_compute; discriminate|].
  unfold catalog_invariant. intros (_ & _ & _ & _ & H).
  destruct (H 0%nat) as (j & v & q & Hp & Hq & Hq' & Hv).
  { vm_compute. lia. }
  cbn in Hq'. injection Hq' as <-.
  destruct j as [|[|[|j]]]; cbn in Hp, Hq.
  - injection Hp as <-. vm_compute in Hv. discriminate.
  - injection Hq as Hq. unfold translation in Hq.
    assert (E : (0.02 = 0.01)%R) by congruence. lra.
  - injection Hq as Hq.
    assert (E : (0.03 = 0.01)%R) by congruence. lra.
  - destruct j; discriminate.
Qed.

(** C7 (as amended). The filter keeps exactly the entries whose probability
    is strictly above [min_stable_pose_prob], in their order, so an entry
    whose probability equals the minimum is dropped; it then keeps the first
    [max_num_stable_pose] of them, and only then renormalises by their
    sum. *)
Theorem filter_keeps_strictly_above_minimum :
  forall (P : Type) (min_prob : Q) (max_num : Z) (probs : list Q)
         (poses : list P),
    (0 <= max_num)%Z ->
    let above := filter (fun v => np.Qlt_bool min_prob v) probs in
    let raw := retained_prob min_prob max_num probs in
    (forall v, In v above <-> In v probs /\ (min_prob < v)%Q) /\
    raw = firstn (Z.to_nat max_num) above /\
    (forall v, In v raw -> ~ (v == min_prob)%Q) /\
    fst (filter_catalog min_prob max_num probs poses) =
    map (fun v => (v / np.sum raw)%Q) raw.
Proof.
  intros P min_prob max_num probs poses Hmax above raw.
  split; [|split; [|split]].
  - intro v. unfold above. rewrite filter_In, Qlt_bool_iff. tauto.
  - now apply retained_prob_firstn.
  - intros v Hv Heq. apply retained_prob_above in Hv.
    destruct Hv as [_ Hv]. rewrite Heq in Hv. exact (Qlt_irrefl _ Hv).
  - reflexivity.
Qed.

Lemma filter_keeps_strictly_above_minimum_witness :
  let above := filter (fun v => np.Qlt_bool (1 # 10) v) [1 # 2; 3 # 10; 1 # 10; 1 # 10]%Q in
  let raw := retained_prob (1 # 10) 1 [1 # 2; 3 # 10; 1 # 10; 1 # 10]%Q in
  (forall v, In v above <-> In v [1 # 2; 3 # 10; 1 # 10; 1 # 10]%Q /\ (1 # 10 < v)%Q) /\
  raw = firstn (Z.to_nat 1) above /\
  (forall v, In v raw -> ~ (v == 1 # 10)%Q) /\
  fst (filter_catalog (1 # 10) 1 [1 # 2; 3 # 10; 1 # 10; 1 # 10]%Q [0; 1; 2; 3]%nat) =
  map (fun v => (v / np.sum raw)%Q) raw.
Proof.
  apply (@filter_keeps_strictly_above_minimum nat (1 # 10) 1
           [1 # 2; 3 # 10; 1 # 10; 1 # 10]%Q [0; 1; 2; 3]%nat).
  lia.
Defined.

(** C7, the counterexample: with two entries of probability exactly the
    minimum, the filter in the words of the specification keeps both and
    line 202 keeps none. *)
Lemma filter_drops_entry_equal_to_minimum :
  spec_retained_prob (1 # 2) 5 [1 # 2; 1 # 2]%Q = [1 # 2; 1 # 2]%Q /\
  retained_prob (1 # 2) 5 [1 # 2; 1 # 2]%Q = [] /\
  retained_prob (1 # 2) 5 [1 # 2; 1 # 2]%Q <>
  spec_retained_prob (1 # 2) 5 [1 # 2; 1 # 2]%Q.
Proof.
  split; [reflexivity|]. split; [reflexivity|]. vm_compute. discriminate.
Qed.

(* ------------------------------------------------------------------ *)
(** * The camera model *)

(** [int()] cuts toward zero: it is the quotient of the numerator by the
    denominator. *)
Lemma int_truncates (v : Q) : py.int v = Z.quot (Qnum v) (Zpos (Qden v)).
Proof.
  unfold py.int. destruct v as [n d]. cbn [Qnum Qden].
  destruct (Qle_bool 0 (n # d)) eqn:E.
  - apply Qle_bool_iff in E. unfold Qle in E. cbn in E.
    unfold Qfloor. rewrite Z.quot_div_nonneg; lia.
  - assert (Hn : (n < 0)%Z).
    { destruct (Z.lt_ge_cases n 0) as [H|H]; [assumption|].
      assert (Qle_bool 0 (n # d) = true); [|congruence].
      apply Qle_bool_iff. unfold Qle. cbn. lia. }
    unfold Qceiling, Qfloor. cbn.
    rewrite <- (Z.opp_involutive n) at 2. rewrite Z.quot_opp_l by lia.
    rewrite Z.quot_div_nonneg; lia.
Qed.

Lemma int_of_integer (v : Q) (k : Z) : (v == inject_Z k)%Q -> py.int v = k.
Proof.
  intro H. unfold py.int.
  rewrite (Qfloor_comp _ _ H), (Qceiling_comp _ _ H), Qfloor_Z, Qceiling_Z.
  now destruct (Qle_bool 0 v).
Qed.

(** C8. For every camera intrinsics (fx, fy, cx, cy), the camera model
    derives the integer pixel width from 2*cx and the integer pixel height
    from 2*cy, each made an integer by [int()], that is cut toward zero, so
    that they are 2*cx and 2*cy whenever these are whole numbers; the
    horizontal field of view is 2*atan2(cx, fx) converted to degrees. For
    fx = fy = 1000, cx = 320, cy = 240 this gives width 640, height 480 and
    2*atan(320/1000) in degrees. *)
Theorem camera_props_from_intrinsics :
  forall fx fy cx cy : Q,
    let props := make_camera_props (make_camera_matrix fx fy cx cy) in
    gymapi.width props = Z.quot (Qnum (cx * 2)) (Zpos (Qden (cx * 2))) /\
    gymapi.height props = Z.quot (Qnum (cy * 2)) (Zpos (Qden (cy * 2))) /\
    (forall k, (cx * 2 == inject_Z k)%Q -> gymapi.width props = k) /\
    (forall k, (cy * 2 == inject_Z k)%Q -> gymapi.height props = k) /\
    gymapi.horizontal_fov props =
      (2 * np.arctan2 (Q2R cx) (Q2R fx) * 180 / PI)%R /\
    let example := make_camera_props (make_camera_matrix 1000 1000 320 240) in
    gymapi.width example = 640%Z /\
    gymapi.height example = 480%Z /\
    gymapi.horizontal_fov example = (2 * atan (320 / 1000) * 180 / PI)%R.
Proof.
  intros fx fy cx cy props. subst props.
  unfold make_camera_props, make_camera_matrix, entry.
  cbn [nth gymapi.width gymapi.height gymapi.horizontal_fov].
  split; [|split; [|split; [|split; [|split; [|split; [|split]]]]]].
  - apply int_truncates.
  - apply int_truncates.
  - intros k Hk. now apply int_of_integer.
  - intros k Hk. now apply int_of_integer.
  - reflexivity.
  - reflexivity.
  - reflexivity.
  - unfold np.arctan2.
    assert (H1000 : Q2R 1000 = 1000%R) by (unfold Q2R; cbn; lra).
    assert (H320 : Q2R 320 = 320%R) by (unfold Q2R; cbn; lra).
    rewrite H1000, H320.
    destruct (Rlt_dec 0 1000) as [_|H]; [reflexivity|exfalso; lra].
Qed.

(* ------------------------------------------------------------------ *)
(** * Reasoning about programs *)

(** The loop rule for [for k in range(n)]: an invariant of the rounds done,
    of what they produced and of the world carries over the whole loop, and
    the loop ends without an exception. *)
Lemma for_range_invariant {B : Type} (n : nat) (f : nat -> M B)
    (Inv : nat -> list B -> World -> Prop) (w0 : World) :
  Inv 0%nat [] w0 ->
  (forall k bs w, (k < n)%nat -> Inv k bs w ->
     exists b w', f k w = (Ok b, w') /\ Inv (S k) (bs ++ [b]) w') ->
  exists bs w', forM (py.range n) f w0 = (Ok bs, w') /\ Inv n bs w'.
Proof.
  intros H0 Hstep.
  assert (G : forall m k bs w, (k + m = n)%nat -> Inv k bs w ->
            exists bs' w', forM (seq k m) f w = (Ok bs', w') /\
                           Inv n (bs ++ bs') w').
  { induction m as [|m IH]; intros k bs w Hk Hinv.
    - exists [], w. rewrite app_nil_r. replace n with k by lia.
      split; [reflexivity|assumption].
    - destruct (Hstep k bs w) as (b & w1 & Hf & Hinv1); [lia|assumption|].
      destruct (IH (S k) (bs ++ [b]) w1) as (bs' & w2 & Hloop & Hinv2);
        [lia|assumption|].
      exists (b :: bs'), w2. split.
      + cbn [seq forM]. unfold bind at 1. rewrite Hf.
        unfold bind at 1. rewrite Hloop. reflexivity.
      + rewrite <- app_assoc in Hinv2. exact Hinv2. }
  destruct (G n 0%nat [] w0) as (bs & w' & H1 & H2); [lia|assumption|].
  exists bs, w'. split; assumption.
Qed.

Lemma preserves_ret (Pr : list event -> Prop) {A : Type} (a : A) :
  preserves Pr (ret a).
Proof. intros w H. exact H. Qed.

Lemma preserves_raise (Pr : list event -> Prop) {A : Type} (e : exn) :
  preserves Pr (@raise A e).
Proof. intros w H. exact H. Qed.

Lemma preserves_bind (Pr : list event -> Prop) {A B : Type} (m : M A)
    (k : A -> M B) :
  preserves Pr m -> (forall a, preserves Pr (k a)) -> preserves Pr (bind m k).
Proof.
  intros Hm Hk w H. unfold bind. specialize (Hm w H).
  destruct (m w) as [[a|e] w1]; cbn in *; [now apply Hk|assumption].
Qed.

Lemma preserves_next_sample (Pr : list event -> Prop) :
  preserves Pr next_sample.
Proof. intros w H. exact H. Qed.

Lemma preserves_getitem (Pr : list event -> Prop) {A : Type} (l : list A)
    (i : nat) :
  preserves Pr (getitem l i).
Proof. intros w H. unfold getitem. now destruct (nth_error l i). Qed.

Lemma preserves_getitem_int (Pr : list event -> Prop) {A : Type}
    (l : list A) (i : Z) :
  preserves Pr (getitem_int l i).
Proof.
  unfold getitem_int.
  destruct (0 <=? i)%Z; [apply preserves_getitem|].
  destruct (_ <=? i)%Z; [apply preserves_getitem|apply preserves_raise].
Qed.

Lemma preserves_randint (Pr : list event -> Prop) (high : Z) :
  preserves Pr (np_random.randint high).
Proof.
  unfold np_random.randint. destruct (high <=? 0)%Z.
  - apply preserves_raise.
  - apply preserves_bind; [apply preserves_next_sample|].
    intro u. apply preserves_ret.
Qed.

Lemma preserves_forM (Pr : list event -> Prop) {A B : Type} (l : list A)
    (f : A -> M B) :
  (forall a, preserves Pr (f a)) -> preserves Pr (forM l f).
Proof.
  intro Hf. induction l as [|a l IH]; cbn [forM].
  - apply preserves_ret.
  - apply preserves_bind; [apply Hf|]. intro b.
    apply preserves_bind; [apply IH|]. intro bs. apply preserves_ret.
Qed.

(* ------------------------------------------------------------------ *)
(** * The generator *)

Lemma Qfloor_iff (v : Q) (j : Z) :
  Qfloor v = j <-> (inject_Z j <= v)%Q /\ (v < inject_Z (j + 1))%Q.
Proof.
  split.
  - intros <-. split; [apply Qfloor_le|apply Qlt_floor].
  - intros [H1 H2].
    apply Qfloor_resp_le in H1. rewrite Qfloor_Z in H1.
    assert (H3 : (inject_Z (Qfloor v) < inject_Z (j + 1))%Q).
    { eapply Qle_lt_trans; [apply Qfloor_le|exact H2]. }
    rewrite <- Zlt_Qlt in H3. lia.
Qed.

Lemma inject_Z_pos (n : Z) : (0 < n)%Z -> (0 < inject_Z n)%Q.
Proof. intro H. change 0%Q with (inject_Z 0). now rewrite <- Zlt_Qlt. Qed.

Lemma Qle_div_iff (a b c : Q) :
  (0 < c)%Q -> (a / c <= b)%Q <-> (a <= b * c)%Q.
Proof.
  intro Hc.
  assert (E : (a / c * c == a)%Q).
  { field. intro H0. rewrite H0 in Hc. exact (Qlt_irrefl _ Hc). }
  rewrite <- (Qmult_le_r (a / c) b c Hc). now rewrite E.
Qed.

Lemma Qlt_div_iff (a b c : Q) :
  (0 < c)%Q -> (b < a / c)%Q <-> (b * c < a)%Q.
Proof.
  intro Hc.
  assert (E : (a / c * c == a)%Q).
  { field. intro H0. rewrite H0 in Hc. exact (Qlt_irrefl _ Hc). }
  rewrite <- (Qmult_lt_r b (a / c) c Hc). now rewrite E.
Qed.

(** A unit sample stands for an integer of the range. *)
Lemma randint_of_sample_range (high : Z) (u : Q) :
  (0 < high)%Z -> (0 <= u)%Q -> (u < 1)%Q ->
  (0 <= np_random.randint_of_sample high u < high)%Z.
Proof.
  intros Hh H0 H1. unfold np_random.randint_of_sample.
  pose proof (inject_Z_pos Hh) as Hq.
  split.
  - rewrite <- (Qfloor_Z 0). apply Qfloor_resp_le.
    apply Qmult_le_0_compat; [assumption|now apply Qlt_le_weak].
  - assert (H : (inject_Z (Qfloor (u * inject_Z high)) < inject_Z high)%Q).
    { eapply Qle_lt_trans; [apply Qfloor_le|].
      rewrite <- (Qmult_1_l (inject_Z high)) at 2.
      now apply Qmult_lt_compat_r. }
    now rewrite <- Zlt_Qlt in H.
Qed.

(** The unit samples that stand for [j] are those of the interval
    [[j/high, (j+1)/high)]. *)
Lemma randint_preimage (high : Z) (u : Q) (j : Z) :
  (0 < high)%Z ->
  np_random.randint_of_sample high u = j <->
  (inject_Z j / inject_Z high <= u)%Q /\
  (u < inject_Z (j + 1) / inject_Z high)%Q.
Proof.
  intro Hh. pose proof (inject_Z_pos Hh) as Hq.
  unfold np_random.randint_of_sample.
  rewrite Qfloor_iff, (Qle_div_iff _ _ Hq), (Qlt_div_iff _ _ Hq). tauto.
Qed.

(** That interval has length [1/high]: the mass of [j] under
    [randint(high)]. *)
Lemma randint_mass_interval (high j : Z) :
  (0 < high)%Z -> (0 <= j < high)%Z ->
  (np_random.randint_mass high j ==
   inject_Z (j + 1) / inject_Z high - inject_Z j / inject_Z high)%Q.
Proof.
  intros Hh Hj. pose proof (inject_Z_pos Hh) as Hq.
  unfold np_random.randint_mass.
  destruct (Z.leb_spec 0 j); [|lia]. destruct (Z.ltb_spec j high); [|lia].
  cbn [andb]. rewrite inject_Z_plus. field.
  intro Hz. rewrite Hz in Hq. exact (Qlt_irrefl _ Hq).
Qed.

(* ------------------------------------------------------------------ *)
(** * Scene construction *)

Lemma getitem_int_in_range {A : Type} (l : list A) (i : Z) (w : World) :
  (0 <= i < Z.of_nat (List.length l))%Z ->
  exists a, nth_error l (Z.to_nat i) = Some a /\ getitem_int l i w = (Ok a, w).
Proof.
  intro Hi. unfold getitem_int, getitem.
  destruct (Z.leb_spec 0 i); [|lia].
  destruct (nth_error l (Z.to_nat i)) as [a|] eqn:E.
  - exists a. split; reflexivity.
  - apply nth_error_None in E. lia.
Qed.

(** One round of the loop of [_create_envs] when the catalog has a pose:
    it consumes one unit sample and places the pose that sample stands
    for. *)
Lemma create_envs_body_ok (cm : list (list Q)) (poses : list gymapi.Transform)
    (e : nat) (w : World) :
  poses <> [] ->
  (0 <= samples w (cursor w))%Q -> (samples w (cursor w) < 1)%Q ->
  let i := np_random.randint_of_sample (Z.of_nat (List.length poses))
                                       (samples w (cursor w)) in
  exists pose,
    nth_error poses (Z.to_nat i) = Some pose /\
    DataGenEnv.create_envs_body cm poses e w =
    (Ok (e, pose, O, O),
     mkWorld (samples w) (S (cursor w))
             (trace w ++ [create_env e; create_actor e pose;
                          set_rigid_body_segmentation_id e 1;
                          create_camera_sensor e (make_camera_props cm);
                          set_camera_transform e])).
Proof.
  intros Hne H0 H1 i.
  assert (Hlen : (0 < Z.of_nat (List.length poses))%Z).
  { destruct poses; [congruence|cbn [List.length]; lia]. }
  pose proof (randint_of_sample_range Hlen H0 H1) as Hi. fold i in Hi.
  unfold DataGenEnv.create_envs_body, np_random.randint.
  destruct (Z.leb_spec (Z.of_nat (List.length poses)) 0); [lia|].
  set (w1 := mkWorld (samples w) (S (cursor w)) (trace w ++ [create_env e])).
  destruct (getitem_int_in_range poses w1 Hi) as (pose & Hnth & Hget).
  exists pose. split; [assumption|].
  unfold bind at 1. cbn [emit].
  unfold bind at 1. unfold bind at 1. cbn [next_sample samples cursor trace].
  cbn [ret]. fold i. unfold bind at 1. fold w1. rewrite Hget.
  cbv [bind emit ret]. cbn [samples cursor trace w1].
  repeat rewrite <- app_assoc. reflexivity.
Qed.

Lemma nth_error_snoc {A : Type} (l : list A) (a : A) :
  nth_error (l ++ [a]) (List.length l) = Some a.
Proof. rewrite nth_error_app2 by lia. now rewrite Nat.sub_diag. Qed.

(** [_create_envs] on a catalog with at least one pose: it ends without an
    exception, having consumed one unit sample per environment, and the
    canonical pose of environment [e] is the retained pose the [e]-th of
    these samples stands for. *)
Lemma create_envs_ok (as_quat : DataGenEnv.matrix -> gymapi.Quat)
    (self : DataGenEnv.t) (urdf : string) (assets : DataGenEnv.Assets)
    (w : World) :
  unit_samples (samples w) ->
  let cat := filter_catalog (DataGenEnv.min_stable_pose_prob self)
                            (DataGenEnv.max_num_stable_pose self)
                            (DataGenEnv.stable_prob assets)
                            (DataGenEnv.stable_poses assets) in
  let poses := map (DataGenEnv.to_transform as_quat) (snd cat) in
  poses <> [] ->
  exists self' w',
    DataGenEnv._create_envs as_quat self urdf assets w = (Ok self', w') /\
    samples w' = samples w /\
    cursor w' = (cursor w + DataGenEnv.num_envs self)%nat /\
    DataGenEnv.num_envs self' = DataGenEnv.num_envs self /\
    DataGenEnv.object_stable_prob self' = fst cat /\
    DataGenEnv.object_stable_poses self' = poses /\
    DataGenEnv.envs self' =
      DataGenEnv.envs self ++ py.range (DataGenEnv.num_envs self) /\
    List.length (DataGenEnv.object_handles self') =
      (List.length (DataGenEnv.object_handles self) + DataGenEnv.num_envs self)%nat /\
    List.length (DataGenEnv.camera_handles self') =
      (List.length (DataGenEnv.camera_handles self) + DataGenEnv.num_envs self)%nat /\
    List.length (DataGenEnv.cur_object_stable_poses self') =
      DataGenEnv.num_envs self /\
    forall e, (e < DataGenEnv.num_envs self)%nat ->
      nth_error (DataGenEnv.cur_object_stable_poses self') e =
      nth_error poses
        (Z.to_nat (np_random.randint_of_sample
                     (Z.of_nat (List.length poses))
                     (samples w (cursor w + e)%nat))).
Proof.
  intros Hu cat poses Hne.
  unfold DataGenEnv._create_envs. unfold bind at 1. cbn [emit].
  fold cat. destruct cat as [probs' poses'] eqn:Ecat. cbn [snd fst] in *.
  fold poses.
  unfold bind at 1. cbn [emit samples cursor trace].
  set (w0 := mkWorld (samples w) (cursor w) _).
  set (body := DataGenEnv.create_envs_body (DataGenEnv.camera_matrix self) poses).
  set (pick := fun e : nat =>
         nth_error poses
           (Z.to_nat (np_random.randint_of_sample
                        (Z.of_nat (List.length poses))
                        (samples w (cursor w + e)%nat)))).
  destruct (@for_range_invariant _ (DataGenEnv.num_envs self) body
    (fun k rounds w1 =>
       samples w1 = samples w /\
       cursor w1 = (cursor w + k)%nat /\
       List.length rounds = k /\
       map (fun x => fst (fst (fst x))) rounds = seq 0 k /\
       forall e, (e < k)%nat ->
         nth_error (map (fun x => snd (fst (fst x))) rounds) e = pick e) w0)
    as (rounds & w' & Hrun & Hs & Hc & Hl & He & Hp).
  - cbn. repeat split; try lia.
  - intros k rounds w1 Hk (Hs & Hc & Hl & He & Hp).
    destruct (@create_envs_body_ok (DataGenEnv.camera_matrix self) poses k w1 Hne)
      as (pose & Hnth & Hbody).
    { rewrite Hs. apply Hu. }
    { rewrite Hs. apply Hu. }
    eexists. eexists. split; [exact Hbody|].
    cbn [samples cursor trace]. rewrite !length_app, !map_app, seq_S.
    cbn [List.length map fst snd]. rewrite He.
    repeat split; try lia; try assumption; try reflexivity.
    intros e Hlt. destruct (Nat.eq_dec e k) as [->|Hneq].
    + rewrite <- Hl at 1. rewrite <- (length_map (fun x => snd (fst (fst x)))).
      rewrite nth_error_snoc. unfold pick. rewrite <- Hc, <- Hs. now rewrite Hnth.
    + rewrite nth_error_app1 by (rewrite length_map; lia). apply Hp. lia.
  - unfold bind. rewrite Hrun. cbn [ret].
    eexists. eexists. split; [reflexivity|].
    cbn [DataGenEnv.num_envs DataGenEnv.object_stable_prob
         DataGenEnv.object_stable_poses DataGenEnv.envs
         DataGenEnv.object_handles DataGenEnv.camera_handles
         DataGenEnv.cur_object_stable_poses].
    rewrite !length_app, !length_map, He, Hl.
    repeat split; try assumption; try reflexivity.
Qed.

(** C1 (as amended). For every environment created at scene-construction
    time, the canonical stable pose is obtained by exactly one draw of the
    generator, and that draw selects each index of the filtered catalog
    with the same probability, one over the size of the catalog: the draw is
    uniform, and the renormalised probabilities take no part in it. *)
Theorem canonical_pose_is_one_uniform_draw :
  forall (as_quat : DataGenEnv.matrix -> gymapi.Quat) (self : DataGenEnv.t)
         (urdf : string) (assets : DataGenEnv.Assets) (w : World),
    unit_samples (samples w) ->
    map (DataGenEnv.to_transform as_quat)
        (snd (filter_catalog (DataGenEnv.min_stable_pose_prob self)
                             (DataGenEnv.max_num_stable_pose self)
                             (DataGenEnv.stable_prob assets)
                             (DataGenEnv.stable_poses assets))) <> [] ->
    uniform_pose_draws as_quat self urdf assets w.
Proof.
  intros as_quat self urdf assets w Hu Hne. unfold uniform_pose_draws.
  destruct (@create_envs_ok as_quat self urdf assets w Hu Hne)
    as (self' & w' & Hrun & _ & Hc & _ & Hprob & Hposes & _ & _ & _ & Hlen & Hpick).
  set (poses := map (DataGenEnv.to_transform as_quat) _) in *.
  assert (Hn : (0 < Z.of_nat (List.length poses))%Z).
  { destruct poses; [congruence|cbn [List.length]; lia]. }
  pose proof (inject_Z_pos Hn) as Hq.
  exists self', w'. repeat (split; [assumption|]). split.
  - intros e He.
    pose proof (randint_of_sample_range Hn (proj1 (Hu (cursor w + e)%nat))
                  (proj2 (Hu (cursor w + e)%nat))) as Hr.
    set (z := np_random.randint_of_sample _ _) in *.
    exists (Z.to_nat z). split; [lia|]. split; [now apply Hpick|].
    intros j Hj. rewrite <- (randint_preimage _ _ Hn). fold z. lia.
  - intros j Hj. split.
    + rewrite inject_Z_plus. field. intro H0. rewrite H0 in Hq.
      exact (Qlt_irrefl _ Hq).
    + unfold placement_mass. rewrite randint_mass_interval by lia.
      rewrite inject_Z_plus. field. intro H0. rewrite H0 in Hq.
      exact (Qlt_irrefl _ Hq).
Qed.

Lemma half_samples_unit : unit_samples half_samples.
Proof. intro k. unfold half_samples, Qle, Qlt. cbn. lia. Qed.

Lemma canonical_pose_is_one_uniform_draw_witness :
  uniform_pose_draws example_as_quat (example_self (1 # 10)) "E2.urdf"
                     example_assets (initial_world half_samples).
Proof.
  apply canonical_pose_is_one_uniform_draw.
  - exact half_samples_unit.
  - cbn. discriminate.
Defined.

(** C1, the counterexample: on the catalog (1/2, 3/10, 1/5) the first pose
    is placed with probability 1/3, not with its probability 1/2. *)
Lemma placement_is_not_weighted :
  let cat := filter_catalog (1 # 10) 10 (DataGenEnv.stable_prob example_assets)
                            (DataGenEnv.stable_poses example_assets) in
  (nth 0 (fst cat) 0 == 1 # 2)%Q /\
  (placement_mass (snd cat) 0 == 1 # 3)%Q /\
  ~ weighted_by_probability (fst cat) (snd cat).
Proof.
  cbv zeta. split; [reflexivity|]. split; [reflexivity|].
  intro H. specialize (H 0%nat).
  assert (Hlt : (0 < List.length (snd (filter_catalog (1 # 10) 10
                   (DataGenEnv.stable_prob example_assets)
                   (DataGenEnv.stable_poses example_assets))))%nat).
  { vm_compute. lia. }
  specialize (H Hlt). revert H. vm_compute. discriminate.
Qed.

(** [_create_envs] on a catalog the filter has emptied: the first round of
    the loop creates its environment and then dies in [randint(0)]. *)
Lemma create_envs_empty_catalog (as_quat : DataGenEnv.matrix -> gymapi.Quat)
    (self : DataGenEnv.t) (urdf : string) (assets : DataGenEnv.Assets)
    (w : World) :
  retained_prob (DataGenEnv.min_stable_pose_prob self)
                (DataGenEnv.max_num_stable_pose self)
                (DataGenEnv.stable_prob assets) = [] ->
  (0 < DataGenEnv.num_envs self)%nat ->
  DataGenEnv._create_envs as_quat self urdf assets w =
  (Raised (ValueError "high <= 0"),
   mkWorld (samples w) (cursor w)
           (trace w ++ [load_asset urdf;
                        print_creating (DataGenEnv.num_envs self);
                        create_env 0])).
Proof.
  intros Hempty Hn.
  unfold DataGenEnv._create_envs, filter_catalog. rewrite Hempty.
  cbn [List.length Z.of_nat]. unfold py.slice_to at 1. cbn [Z.leb Z.compare Z.to_nat firstn map].
  destruct (DataGenEnv.num_envs self) as [|n]; [lia|].
  unfold py.range. cbn [seq forM].
  unfold DataGenEnv.create_envs_body, np_random.randint.
  cbn [List.length Z.of_nat Z.leb Z.compare].
  cbv [bind emit raise]. cbn [samples cursor trace].
  rewrite <- !app_assoc. reflexivity.
Qed.

(** [__init__] is its prelude, then [_create_envs], then the preparation
    of the simulation. *)
Lemma init_unfold (as_quat : DataGenEnv.matrix -> gymapi.Quat)
    (args : DataGenEnv.Args) (cfg : DataGenEnv.Config)
    (assets : DataGenEnv.Assets) (w : World) :
  DataGenEnv.__init__ as_quat args cfg assets w =
  (self' <- DataGenEnv._create_envs as_quat (init_self args cfg)
              (object_asset_file cfg) assets ;;
   emit prepare_sim ;; ret self')
    (mkWorld (samples w) (cursor w) (trace w ++ init_prelude args cfg)).
Proof.
  unfold DataGenEnv.__init__, DataGenEnv._create_viewer, init_self,
    init_prelude, object_asset_file, run_save_dir.
  destruct (DataGenEnv.arg_headless args).
  - do 6 (unfold bind at 1; cbn [emit ret]).
    cbn [samples cursor trace negb]. rewrite <- !app_assoc. reflexivity.
  - do 10 (unfold bind at 1; cbn [emit ret]).
    cbn [samples cursor trace negb]. rewrite <- !app_assoc. reflexivity.
Qed.

Lemma created_envs_init_prelude (args : DataGenEnv.Args)
    (cfg : DataGenEnv.Config) :
  created_envs (init_prelude args cfg) = [] /\
  created_actors (init_prelude args cfg) = [].
Proof.
  unfold init_prelude. destruct (DataGenEnv.arg_headless args); split; reflexivity.
Qed.

Lemma init_empty_catalog (as_quat : DataGenEnv.matrix -> gymapi.Quat)
    (args : DataGenEnv.Args) (cfg : DataGenEnv.Config)
    (assets : DataGenEnv.Assets) (w : World) :
  retained_prob (DataGenEnv.cfg_min_stable_pose_prob cfg)
                (DataGenEnv.cfg_max_num_stable_pose cfg)
                (DataGenEnv.stable_prob assets) = [] ->
  (0 < DataGenEnv.cfg_num_envs cfg)%nat ->
  exists w',
    DataGenEnv.__init__ as_quat args cfg assets w =
      (Raised (ValueError "high <= 0"), w') /\
    created_envs (trace w') = created_envs (trace w) ++ [0%nat] /\
    created_actors (trace w') = created_actors (trace w).
Proof.
  intros Hempty Hn. rewrite init_unfold. unfold bind at 1.
  rewrite create_envs_empty_catalog by assumption.
  eexists. split; [reflexivity|]. cbn [trace samples cursor].
  destruct (created_envs_init_prelude args cfg) as [He Ha].
  unfold created_envs, created_actors in *.
  rewrite !flat_map_app, He, Ha. cbn. rewrite !app_nil_r. split; reflexivity.
Qed.

Lemma main_empty_catalog (as_quat : DataGenEnv.matrix -> gymapi.Quat)
    (args : DataGenEnv.Args) (cfg : DataGenEnv.Config)
    (assets : DataGenEnv.Assets) (s : nat -> Q) :
  retained_prob (DataGenEnv.cfg_min_stable_pose_prob cfg)
                (DataGenEnv.cfg_max_num_stable_pose cfg)
                (DataGenEnv.stable_prob assets) = [] ->
  (0 < DataGenEnv.cfg_num_envs cfg)%nat ->
  aborts_in_first_env (main as_quat args cfg assets (initial_world s)).
Proof.
  intros Hempty Hn.
  destruct (@init_empty_catalog as_quat args cfg assets (initial_world s)
              Hempty Hn) as (w' & Hrun & Henvs & Hactors).
  unfold aborts_in_first_env, main, bind. rewrite Hrun. cbn [fst snd].
  split; [reflexivity|]. split; assumption.
Qed.

(** C4 (as amended). If no entry of the catalog survives the filter and at
    least one environment is requested, the program fails fatally: the draw
    of a pose index over the empty catalog raises while environment 0 is
    being built, after the engine has created that environment and before
    any object actor exists. *)
Theorem empty_catalog_aborts_in_first_env :
  forall (as_quat : DataGenEnv.matrix -> gymapi.Quat)
         (args : DataGenEnv.Args) (cfg : DataGenEnv.Config)
         (assets : DataGenEnv.Assets) (s : nat -> Q),
    retained_prob (DataGenEnv.cfg_min_stable_pose_prob cfg)
                  (DataGenEnv.cfg_max_num_stable_pose cfg)
                  (DataGenEnv.stable_prob assets) = [] ->
    (0 < DataGenEnv.cfg_num_envs cfg)%nat ->
    aborts_in_first_env (main as_quat args cfg assets (initial_world s)).
Proof. exact main_empty_catalog. Qed.

Lemma empty_catalog_aborts_in_first_env_witness :
  aborts_in_first_env
    (main example_as_quat example_args (example_cfg (1 # 2)) example_assets
          (initial_world half_samples)).
Proof.
  apply empty_catalog_aborts_in_first_env.
  - reflexivity.
  - cbn. lia.
Defined.

(** C4, the counterexample: with a minimum of 1/2 no entry of the catalog
    (1/2, 3/10, 1/5) is retained; the run aborts, and by then one
    environment has been created. *)
Lemma empty_catalog_abort_follows_env_creation :
  let out := main example_as_quat example_args (example_cfg (1 # 2))
                  example_assets (initial_world half_samples) in
  retained_prob (1 # 2) 10 (DataGenEnv.stable_prob example_assets) = [] /\
  fst out = Raised (ValueError "high <= 0") /\
  created_envs (trace (snd out)) <> [].
Proof.
  cbv zeta. split; [reflexivity|].
  destruct (@main_empty_catalog example_as_quat example_args
              (example_cfg (1 # 2)) example_assets half_samples)
    as (Hraise & Henvs & _).
  - reflexivity.
  - cbn. lia.
  - split; [exact Hraise|]. rewrite Henvs. discriminate.
Qed.

(* ------------------------------------------------------------------ *)
(** * The pose randomizer *)

Lemma getitem_some {A : Type} (l : list A) (i : nat) (a : A) (w : World) :
  nth_error l i = Some a -> getitem l i w = (Ok a, w).
Proof. intro H. unfold getitem. now rewrite H. Qed.

(** One round of the loop of [reset_env]. *)
Lemma reset_env_body_ok (self : DataGenEnv.t) (e env oh : nat)
    (t_stable : gymapi.Transform) (w : World) :
  nth_error (DataGenEnv.envs self) e = Some env ->
  nth_error (DataGenEnv.object_handles self) e = Some oh ->
  nth_error (DataGenEnv.cur_object_stable_poses self) e = Some t_stable ->
  let t := reset_pose self t_stable (samples w) (cursor w) in
  DataGenEnv.reset_env_body self e w =
  (Ok t,
   mkWorld (samples w) (cursor w + reset_draws t_stable)
           (trace w ++ [set_rigid_transform env t;
                        set_rigid_linear_velocity env (gymapi.mkVec3 0 0 0);
                        set_rigid_angular_velocity env (gymapi.mkVec3 0 0 0);
                        set_actor_rigid_body_properties env])).
Proof.
  intros Henv Hoh Hst t.
  unfold DataGenEnv.reset_env_body.
  unfold bind at 1. rewrite (getitem_some _ _ w Henv).
  unfold bind at 1. rewrite (getitem_some _ _ w Hoh).
  unfold bind at 1. rewrite (getitem_some _ _ w Hst).
  subst t. unfold reset_pose, reset_draws.
  destruct (DataGenEnv.is_symmetric (gymapi.r t_stable));
    cbv [bind np_random.uniform next_sample emit ret];
    cbn [samples cursor trace];
    repeat rewrite <- app_assoc; cbn [app];
    repeat f_equal; lia.
Qed.

Lemma combine_snoc {A B : Type} (l : list A) (l' : list B) (a : A) (b : B) :
  List.length l = List.length l' ->
  combine (l ++ [a]) (l' ++ [b]) = combine l l' ++ [(a, b)].
Proof.
  revert l'; induction l as [|u l IH]; intros [|v l'] H; cbn in *;
    try discriminate; [reflexivity|].
  f_equal. apply IH. lia.
Qed.

Lemma firstn_succ_nth {A : Type} (l : list A) (k : nat) (a : A) :
  nth_error l k = Some a -> firstn (S k) l = firstn k l ++ [a].
Proof.
  revert l; induction k as [|k IH]; intros [|u l] H; cbn in *;
    try discriminate.
  - now injection H as ->.
  - f_equal. now apply IH.
Qed.

Lemma constructed_lookup (self : DataGenEnv.t) (e : nat) :
  constructed self -> (e < DataGenEnv.num_envs self)%nat ->
  exists oh ch t_stable,
    nth_error (DataGenEnv.envs self) e = Some e /\
    nth_error (DataGenEnv.object_handles self) e = Some oh /\
    nth_error (DataGenEnv.camera_handles self) e = Some ch /\
    nth_error (DataGenEnv.cur_object_stable_poses self) e = Some t_stable.
Proof.
  intros (H1 & H2 & H3 & H4 & H5) He.
  destruct (nth_error (DataGenEnv.object_handles self) e) as [oh|] eqn:E2.
  2:{ apply nth_error_None in E2. lia. }
  destruct (nth_error (DataGenEnv.camera_handles self) e) as [ch|] eqn:E3.
  2:{ apply nth_error_None in E3. lia. }
  destruct (nth_error (DataGenEnv.cur_object_stable_poses self) e)
    as [t_stable|] eqn:E4.
  2:{ apply nth_error_None in E4. lia. }
  exists oh, ch, t_stable. repeat split; try reflexivity.
  rewrite H5. unfold py.range.
  rewrite nth_error_nth' with (d := 0%nat) by (rewrite length_seq; lia).
  now rewrite seq_nth.
Qed.

(** [reset_env] on a constructed scene. *)
Lemma reset_env_ok (self : DataGenEnv.t) (w : World) :
  constructed self ->
  exists poses w',
    DataGenEnv.reset_env self w = (Ok poses, w') /\
    samples w' = samples w /\
    List.length poses = DataGenEnv.num_envs self /\
    written_transforms (trace w') =
      written_transforms (trace w) ++ combine (DataGenEnv.envs self) poses /\
    saved_paths (trace w') = saved_paths (trace w) /\
    forall e t, nth_error poses e = Some t ->
      exists t_stable c,
        nth_error (DataGenEnv.cur_object_stable_poses self) e = Some t_stable /\
        t = reset_pose self t_stable (samples w) c.
Proof.
  intro Hc. unfold DataGenEnv.reset_env.
  destruct (@for_range_invariant _ (DataGenEnv.num_envs self)
    (DataGenEnv.reset_env_body self)
    (fun k poses w1 =>
       samples w1 = samples w /\
       List.length poses = k /\
       written_transforms (trace w1) =
         written_transforms (trace w) ++
         combine (firstn k (DataGenEnv.envs self)) poses /\
       saved_paths (trace w1) = saved_paths (trace w) /\
       forall e t, nth_error poses e = Some t ->
         exists t_stable c,
           nth_error (DataGenEnv.cur_object_stable_poses self) e = Some t_stable /\
           t = reset_pose self t_stable (samples w) c) w)
    as (poses & w1 & Hrun & Hs & Hl & Hw & Hp & Hposes).
  - cbn. rewrite app_nil_r. repeat split; try reflexivity.
    intros [|e] t H; discriminate.
  - intros k poses w1 Hk (Hs & Hl & Hw & Hp & Hposes).
    destruct (constructed_lookup Hc Hk) as (oh & ch & t_stable & H1 & H2 & _ & H4).
    eexists. eexists. split; [exact (@reset_env_body_ok self k k oh t_stable w1 H1 H2 H4)|].
    cbn [samples cursor trace].
    unfold written_transforms, saved_paths in *.
    rewrite !flat_map_app. cbn [flat_map app]. rewrite app_nil_r.
    rewrite length_app. cbn [List.length].
    rewrite (@firstn_succ_nth _ _ _ _ H1).
    rewrite combine_snoc.
    2:{ rewrite length_firstn. destruct Hc as (Hc1 & _). lia. }
    rewrite Hw, Hp, app_assoc.
    repeat split; try assumption; try lia; try reflexivity.
    { cbn [app]. now rewrite app_nil_r. }
    intros e t Ht.
    destruct (Nat.lt_ge_cases e (List.length poses)) as [Hlt|Hge].
    + rewrite nth_error_app1 in Ht by assumption. now apply Hposes.
    + rewrite nth_error_app2 in Ht by assumption.
      destruct (e - List.length poses)%nat as [|d] eqn:Ed.
      * cbn in Ht. injection Ht as <-.
        assert (e = k) by lia. subst e.
        exists t_stable, (cursor w1). rewrite Hs. split; [assumption|reflexivity].
      * destruct d; discriminate.
  - unfold bind at 1. rewrite Hrun.
    destruct Hc as (Hc1 & Hrest).
    rewrite <- Hc1, firstn_all in Hw.
    destruct (DataGenEnv.viewer self).
    + unfold bind. cbn [emit ret]. eexists. eexists.
      split; [reflexivity|]. cbn [samples trace].
      unfold written_transforms, saved_paths in *.
      rewrite !flat_map_app. cbn [flat_map]. rewrite !app_nil_r.
      repeat split; assumption.
    + unfold bind. cbn [ret]. eexists. eexists.
      split; [reflexivity|].
      repeat split; assumption.
Qed.

(** A yaw rotation leaves the height of a point alone. *)
Lemma rotate_yaw_preserves_z (yaw : R) (v : gymapi.Vec3) :
  gymapi.z (gymapi.rotate (scipy.from_euler_z yaw) v) = gymapi.z v.
Proof.
  unfold gymapi.rotate, gymapi.mul, gymapi.conjugate, scipy.from_euler_z.
  cbn [gymapi.x gymapi.y gymapi.z gymapi.qx gymapi.qy gymapi.qz gymapi.w].
  pose proof (sin2_cos2 (yaw / 2)) as H. unfold Rsqr in H.
  transitivity (gymapi.z v * (sin (yaw / 2) * sin (yaw / 2) +
                              cos (yaw / 2) * cos (yaw / 2)))%R.
  - ring.
  - rewrite H. ring.
Qed.

Lemma magnitude_identity : gymapi.magnitude gymapi.identity = 1%R.
Proof.
  unfold gymapi.magnitude, gymapi.identity.
  cbn [gymapi.qx gymapi.qy gymapi.qz gymapi.w].
  replace (0 * 0 + 0 * 0 + 0 * 0 + 1 * 1)%R with 1%R by ring.
  apply sqrt_1.
Qed.

(** The composition of lines 297-299 on the inputs of the worked example:
    nothing to rotate, an offset of (1, 0, 0.0021), no yaw. *)
Lemma compose_identity_example :
  DataGenEnv.pose_type_conversion
    [DataGenEnv.compose (gymapi.mkVec3 0 0 0) gymapi.identity
                        (gymapi.mkVec3 1 0 0.0021) gymapi.identity] =
  [[1; 0; 0.0021; 0; 0; 0; 1]%R].
Proof.
  unfold DataGenEnv.pose_type_conversion, DataGenEnv.compose. cbn [map].
  cbn [gymapi.p gymapi.r]. unfold gymapi.normalize.
  replace (gymapi.mul gymapi.identity gymapi.identity) with gymapi.identity.
  2:{ unfold gymapi.mul, gymapi.identity.
      cbn [gymapi.qx gymapi.qy gymapi.qz gymapi.w]. f_equal; ring. }
  rewrite magnitude_identity.
  unfold gymapi.add, gymapi.rotate, gymapi.mul, gymapi.conjugate, gymapi.identity.
  cbn [gymapi.x gymapi.y gymapi.z gymapi.qx gymapi.qy gymapi.qz gymapi.w].
  repeat (f_equal; try lra).
Qed.

Lemma example_scene_constructed : constructed example_scene.
Proof. repeat split. Qed.

(** C10. For every environment and every iteration, the z-component of the
    position the pose randomizer writes is the z-component of the
    environment's canonical position plus 0.0021. *)
Theorem reset_env_height_offset :
  forall (self : DataGenEnv.t) (w : World),
    constructed self -> height_offset_fixed self w.
Proof.
  intros self w Hc.
  destruct (reset_env_ok w Hc)
    as (poses & w' & Hrun & _ & Hl & Hw & _ & Hposes).
  exists poses, w'. repeat (split; [assumption|]).
  intros e t t_stable Ht Hst.
  destruct (Hposes e t Ht) as (t_stable' & c & Hst' & ->).
  assert (t_stable' = t_stable) by congruence. subst t_stable'.
  unfold reset_pose, DataGenEnv.compose. cbn [gymapi.p].
  unfold gymapi.add. cbn [gymapi.z].
  now rewrite rotate_yaw_preserves_z.
Qed.

Lemma reset_env_height_offset_witness :
  height_offset_fixed example_scene (initial_world half_samples).
Proof.
  apply reset_env_height_offset. repeat split.
Defined.

(* ------------------------------------------------------------------ *)
(** * File names *)

Lemma string_app_inv_head (a b c : string) :
  (a ++ b = a ++ c)%string -> b = c.
Proof.
  induction a as [|ch a IH]; cbn; intro H; [assumption|].
  injection H as H. now apply IH.
Qed.

Lemma string_length_app (a b : string) :
  String.length (a ++ b) = (String.length a + String.length b)%nat.
Proof. induction a as [|ch a IH]; cbn; [reflexivity|now rewrite IH]. Qed.

Lemma string_app_inv_tail (a b c : string) :
  (a ++ c = b ++ c)%string -> a = b.
Proof.
  revert b; induction a as [|ch a IH]; intros [|ch' b] H; cbn in H.
  - reflexivity.
  - apply (f_equal String.length) in H. cbn in H.
    rewrite string_length_app in H. lia.
  - apply (f_equal String.length) in H. cbn in H.
    rewrite string_length_app in H. lia.
  - injection H as -> H. f_equal. now apply IH.
Qed.

Lemma length_zeros (n : nat) : String.length (py.zeros n) = n.
Proof. induction n as [|n IH]; cbn; [reflexivity|now rewrite IH]. Qed.

Lemma uint_of_zeros (n : nat) (s : string) :
  NilEmpty.uint_of_string (py.zeros n ++ s) =
  option_map (Nat.iter n D0) (NilEmpty.uint_of_string s).
Proof.
  induction n as [|n IH]; cbn [py.zeros append NilEmpty.uint_of_string Nat.iter nat_rect].
  - now destruct (NilEmpty.uint_of_string s).
  - rewrite IH. now destruct (NilEmpty.uint_of_string s).
Qed.

Lemma of_uint_leading_zeros (n : nat) (d : uint) :
  Nat.of_uint (Nat.iter n D0 d) = Nat.of_uint d.
Proof.
  induction n as [|n IH]; [reflexivity|].
  cbn [Nat.iter nat_rect]. exact IH.
Qed.

(** A zero-padded index reads back as the index. *)
Lemma parse_format_0d (pad index : nat) :
  parse_nat (py.format_0d pad index) = Some index.
Proof.
  unfold parse_nat, py.format_0d, py.str.
  rewrite uint_of_zeros, NilEmpty.usu. cbn [option_map].
  now rewrite of_uint_leading_zeros, DecimalNat.Unsigned.of_to.
Qed.

Lemma length_format_0d (pad index : nat) :
  String.length (py.format_0d pad index) =
  Nat.max pad (String.length (py.str index)).
Proof.
  unfold py.format_0d. rewrite string_length_app, length_zeros. lia.
Qed.

Lemma format_0d_inj (pad a b : nat) :
  py.format_0d pad a = py.format_0d pad b -> a = b.
Proof.
  intro H. apply (f_equal parse_nat) in H.
  rewrite !parse_format_0d in H. now injection H.
Qed.

(** The files of two samples meet only if the samples are the same. *)
Lemma sample_files_inj (save_dir : string) (pad a b : nat) (path : string) :
  In path (sample_files save_dir pad a) ->
  In path (sample_files save_dir pad b) -> a = b.
Proof.
  unfold sample_files, DataGenEnv.data_path, DataGenEnv.file_suffix.
  intros Ha Hb. cbn [In] in Ha, Hb.
  destruct Ha as [Ha|[Ha|[Ha|[]]]]; destruct Hb as [Hb|[Hb|[Hb|[]]]];
    rewrite <- Ha in Hb; apply string_app_inv_head in Hb;
    cbn in Hb; try discriminate;
    injection Hb as Hb; apply string_app_inv_tail in Hb;
    symmetry; exact (format_0d_inj _ _ _ Hb).
Qed.

Lemma sample_files_NoDup (save_dir : string) (pad a : nat) :
  NoDup (sample_files save_dir pad a).
Proof.
  unfold sample_files, DataGenEnv.data_path.
  repeat constructor; cbn [In]; intro H;
    repeat (destruct H as [H|H]; [apply string_app_inv_head in H; cbn in H; discriminate|]);
    exact H.
Qed.

Lemma NoDup_flat_map_disjoint {A B : Type} (f : A -> list B) (l : list A) :
  NoDup l ->
  (forall a, NoDup (f a)) ->
  (forall a b v, In v (f a) -> In v (f b) -> a = b) ->
  NoDup (flat_map f l).
Proof.
  intros Hl Hf Hinj. induction Hl as [|a l Hnotin Hl IH]; cbn [flat_map].
  - constructor.
  - apply NoDup_app; [apply Hf|assumption|].
    intros v Hv Hin. apply in_flat_map in Hin. destruct Hin as (b & Hb & Hvb).
    assert (a = b) by (eapply Hinj; eassumption). subst b. contradiction.
Qed.

Lemma length_flat_map_const {A B : Type} (f : A -> list B) (l : list A) (c : nat) :
  (forall a, List.length (f a) = c) ->
  List.length (flat_map f l) = (c * List.length l)%nat.
Proof.
  intro H. induction l as [|a l IH]; cbn [flat_map List.length]; [lia|].
  rewrite length_app, H, IH. lia.
Qed.

Lemma flat_map_shift_from {B : Type} (f : nat -> list B) (a b n : nat) :
  flat_map (fun e => f (a + e)%nat) (seq b n) = flat_map f (seq (a + b) n).
Proof.
  revert b. induction n as [|n IH]; intro b; cbn [seq flat_map]; [reflexivity|].
  rewrite IH. now rewrite Nat.add_succ_r.
Qed.

Lemma flat_map_shift {B : Type} (f : nat -> list B) (a n : nat) :
  flat_map (fun e => f (a + e)%nat) (seq 0 n) = flat_map f (seq a n).
Proof. rewrite flat_map_shift_from. now rewrite Nat.add_0_r. Qed.

(* ------------------------------------------------------------------ *)
(** * Capture and export *)

Lemma saved_paths_app (tr tr' : list event) :
  saved_paths (tr ++ tr') = saved_paths tr ++ saved_paths tr'.
Proof. apply flat_map_app. Qed.

Lemma get_camera_image_ok (self : DataGenEnv.t) (w : World) :
  constructed self ->
  exists depth_images segmasks w',
    DataGenEnv.get_camera_image self w = (Ok (depth_images, segmasks), w') /\
    List.length depth_images = DataGenEnv.num_envs self /\
    List.length segmasks = DataGenEnv.num_envs self /\
    saved_paths (trace w') = saved_paths (trace w).
Proof.
  intro Hc. unfold DataGenEnv.get_camera_image.
  unfold bind at 1. cbn [emit].
  match goal with
  | |- context [bind (forM _ ?f) _ ?w0] =>
      destruct (@for_range_invariant _ (DataGenEnv.num_envs self) f
        (fun k images w1 =>
           List.length images = k /\
           saved_paths (trace w1) = saved_paths (trace w)) w0)
        as (images & w1 & Hrun & Hl & Hp)
  end.
  - split; [reflexivity|]. cbn [trace]. rewrite saved_paths_app. cbn.
    now rewrite app_nil_r.
  - intros k images w1 Hk (Hl & Hp).
    destruct (constructed_lookup Hc Hk) as (oh & ch & t_stable & H1 & _ & H3 & _).
    unfold bind at 1. rewrite (getitem_some _ _ w1 H1).
    unfold bind at 1. rewrite (getitem_some _ _ w1 H3).
    cbv [bind emit ret]. cbn [samples cursor trace].
    eexists. eexists. split; [reflexivity|].
    cbn [trace]. rewrite length_app, !saved_paths_app. cbn.
    rewrite !app_nil_r. split; [lia|assumption].
  - unfold bind at 1. rewrite Hrun. cbn [ret].
    exists (map fst images), (map snd images), w1.
    rewrite !length_map. repeat split; assumption.
Qed.

Lemma getitem_in_range {A : Type} (l : list A) (i : nat) (w : World) :
  (i < List.length l)%nat -> exists a, getitem l i w = (Ok a, w).
Proof.
  intro H. unfold getitem.
  destruct (nth_error l i) as [a|] eqn:E.
  - now exists a.
  - apply nth_error_None in E. lia.
Qed.

(** The export loop of [step]. *)
Lemma save_loop_ok (self : DataGenEnv.t) (n_step : nat)
    (depth_images segmasks : list ndarray) (object_poses : list (list R))
    (w : World) :
  List.length depth_images = DataGenEnv.num_envs self ->
  List.length segmasks = DataGenEnv.num_envs self ->
  List.length object_poses = DataGenEnv.num_envs self ->
  exists done w',
    forM (py.range (DataGenEnv.num_envs self))
         (DataGenEnv.save_body self n_step depth_images segmasks object_poses) w =
      (Ok done, w') /\
    saved_paths (trace w') =
      saved_paths (trace w) ++
      flat_map (fun e => sample_files (DataGenEnv.save_dir self)
                           (DataGenEnv.FILE_ZERO_PADDING_NUM self)
                           (n_step * DataGenEnv.num_envs self + e)%nat)
               (py.range (DataGenEnv.num_envs self)).
Proof.
  intros Hd Hs Hp.
  destruct (@for_range_invariant _ (DataGenEnv.num_envs self)
    (DataGenEnv.save_body self n_step depth_images segmasks object_poses)
    (fun k (_ : list unit) w1 =>
       saved_paths (trace w1) =
         saved_paths (trace w) ++
         flat_map (fun e => sample_files (DataGenEnv.save_dir self)
                              (DataGenEnv.FILE_ZERO_PADDING_NUM self)
                              (n_step * DataGenEnv.num_envs self + e)%nat)
                  (seq 0 k)) w)
    as (done & w1 & Hrun & Hinv).
  - cbn. now rewrite app_nil_r.
  - intros k done w1 Hk Hinv.
    unfold DataGenEnv.save_body.
    destruct (@getitem_in_range _ depth_images k w1) as (image & Hi); [lia|].
    unfold bind at 1. rewrite Hi.
    unfold bind at 1. cbn [emit].
    match goal with |- context [bind (getitem segmasks k) _ ?w2] =>
      destruct (@getitem_in_range _ segmasks k w2) as (mask & Hm); [lia|]
    end.
    unfold bind at 1. rewrite Hm.
    unfold bind at 1. cbn [emit].
    match goal with |- context [bind (getitem object_poses k) _ ?w2] =>
      destruct (@getitem_in_range _ object_poses k w2) as (pose & Hpose); [lia|]
    end.
    unfold bind at 1. rewrite Hpose. cbn [emit samples cursor trace].
    eexists. eexists. split; [reflexivity|].
    cbn [trace]. rewrite !saved_paths_app, Hinv, seq_S, flat_map_app.
    cbn [saved_paths flat_map sample_files app Nat.add].
    rewrite <- !app_assoc. reflexivity.
  - exists done, w1. split; assumption.
Qed.

(** One iteration with persistence enabled. *)
Lemma step_ok (self : DataGenEnv.t) (n_step : nat) (w : World) :
  constructed self ->
  DataGenEnv.save_results self = true ->
  exists w',
    DataGenEnv.step self n_step w = (Ok tt, w') /\
    saved_paths (trace w') =
      saved_paths (trace w) ++
      flat_map (fun e => sample_files (DataGenEnv.save_dir self)
                           (DataGenEnv.FILE_ZERO_PADDING_NUM self)
                           (n_step * DataGenEnv.num_envs self + e)%nat)
               (py.range (DataGenEnv.num_envs self)).
Proof.
  intros Hc Hsave. unfold DataGenEnv.step.
  destruct (reset_env_ok w Hc)
    as (poses & w1 & Hreset & _ & Hl & _ & Hp1 & _).
  unfold bind at 1. rewrite Hreset.
  unfold bind at 1. cbn [emit]. unfold bind at 1. cbn [emit].
  unfold bind at 1. cbn [emit]. unfold bind at 1. cbn [emit].
  match goal with |- context [bind (DataGenEnv.get_camera_image self) _ ?w2] =>
    destruct (@get_camera_image_ok self w2 Hc)
      as (depth_images & segmasks & w3 & Hcam & Hd & Hs & Hp3)
  end.
  unfold bind at 1. rewrite Hcam. rewrite Hsave.
  unfold bind at 1. cbn [emit].
  match goal with |- context [bind (forM _ _) _ ?w4] =>
    destruct (@save_loop_ok self n_step depth_images segmasks
                (DataGenEnv.pose_type_conversion poses) w4 Hd Hs)
      as (done & w5 & Hloop & Hp5)
  end.
  { unfold DataGenEnv.pose_type_conversion. now rewrite length_map. }
  unfold bind at 1. rewrite Hloop. unfold bind. cbn [ret].
  exists w5. split; [reflexivity|].
  rewrite Hp5. cbn [trace]. rewrite saved_paths_app, Hp3.
  cbn [trace]. rewrite !saved_paths_app, Hp1. cbn.
  now rewrite !app_nil_r.
Qed.

(** The loop of the driver with persistence enabled. *)
Lemma run_iterations_ok (self : DataGenEnv.t) (shown : nat) (w : World) :
  constructed self ->
  DataGenEnv.save_results self = true ->
  exists w',
    run_iterations self shown w = (Ok tt, w') /\
    saved_paths (trace w') =
      saved_paths (trace w) ++
      flat_map (sample_files (DataGenEnv.save_dir self)
                             (DataGenEnv.FILE_ZERO_PADDING_NUM self))
               (py.range (DataGenEnv.num_iters self * DataGenEnv.num_envs self)).
Proof.
  intros Hc Hsave. unfold run_iterations.
  match goal with
  | |- context [bind (forM _ ?f) _ w] =>
      destruct (@for_range_invariant _ (DataGenEnv.num_iters self) f
        (fun k (_ : list unit) w1 =>
           saved_paths (trace w1) =
             saved_paths (trace w) ++
             flat_map (sample_files (DataGenEnv.save_dir self)
                                    (DataGenEnv.FILE_ZERO_PADDING_NUM self))
                      (seq 0 (k * DataGenEnv.num_envs self))) w)
        as (done & w1 & Hrun & Hinv)
  end.
  - cbn. now rewrite app_nil_r.
  - intros k done w1 Hk Hinv.
    destruct (@step_ok self k w1 Hc Hsave) as (w2 & Hstep & Hp2).
    unfold bind. rewrite Hstep. cbn [emit].
    eexists. eexists. split; [reflexivity|].
    cbn [trace]. rewrite saved_paths_app, Hp2, Hinv. cbn [saved_paths flat_map].
    rewrite app_nil_r, <- app_assoc. f_equal.
    unfold py.range.
    rewrite (flat_map_shift
               (sample_files (DataGenEnv.save_dir self)
                             (DataGenEnv.FILE_ZERO_PADDING_NUM self))).
    rewrite <- flat_map_app, <- seq_app. f_equal. f_equal. cbn. lia.
  - unfold bind at 1. rewrite Hrun. cbn [ret]. exists w1. split; [reflexivity|].
    exact Hinv.
Qed.

(** The path [step] builds for a role and an index is the role's file of
    that index, zero-padded. *)
Lemma names_sample_data_path (save_dir role : string) (pad index : nat) :
  names_sample save_dir role pad index
    (DataGenEnv.data_path save_dir role (DataGenEnv.file_suffix pad index)).
Proof.
  exists (py.format_0d pad index). split; [split|reflexivity].
  - apply parse_format_0d.
  - apply length_format_0d.
Qed.

Lemma names_triples_sample_files (save_dir : string) (pad : nat)
    (g : nat -> nat) (l : list nat) :
  names_triples save_dir pad (map g l)
    (flat_map (fun e => sample_files save_dir pad (g e)) l).
Proof.
  induction l as [|a l IH]; cbn [map flat_map]; [exact I|].
  unfold sample_files at 1. cbn [app names_triples].
  split; [apply names_sample_data_path|].
  split; [apply names_sample_data_path|].
  split; [apply names_sample_data_path|exact IH].
Qed.

(** The files the loop of the driver writes for the example scene. *)
Lemma example_scene_files :
  saved_paths
    (trace (snd (run_iterations example_scene 2 (initial_world half_samples)))) =
  example_files.
Proof.
  destruct (@run_iterations_ok example_scene 2 (initial_world half_samples))
    as (w' & Hrun & Hp); [repeat split|reflexivity|].
  rewrite Hrun. cbn [snd]. rewrite Hp. reflexivity.
Qed.

(** C9. When persistence is enabled, iteration [n] writes for every
    environment [e] exactly three files, of roles image, mask and pose,
    each named by its role and the global index [n * num_envs + e] in
    decimal, zero-padded to the configured width; the [num_iters]
    iterations of the driver's loop write [num_iters * num_envs] sample
    triples, of the consecutive global indices from 0 on, every file once.
    With two environments, three iterations and a width of 5 the files are
    image_00000.npy, mask_00000.npy, pose_00000.npy, and so on up to
    pose_00005.npy. *)
Theorem step_exports_indexed_triples :
  forall (self : DataGenEnv.t) (w : World),
    constructed self ->
    DataGenEnv.save_results self = true ->
    exports_indexed_triples self w /\
    saved_paths
      (trace (snd (run_iterations example_scene 2 (initial_world half_samples)))) =
    example_files.
Proof.
  intros self w Hc Hsave. split; [|exact example_scene_files].
  unfold exports_indexed_triples. split.
  - intro n. destruct (@step_ok self n w Hc Hsave) as (w' & Hstep & Hp).
    exists w'. eexists. split; [exact Hstep|]. split; [exact Hp|].
    apply (names_triples_sample_files (DataGenEnv.save_dir self)
             (DataGenEnv.FILE_ZERO_PADDING_NUM self)
             (fun e => (n * DataGenEnv.num_envs self + e)%nat)).
  - intro shown.
    destruct (@run_iterations_ok self shown w Hc Hsave) as (w' & Hrun & Hp).
    exists w'. eexists. split; [exact Hrun|]. split; [exact Hp|].
    split; [|split].
    + pose proof (names_triples_sample_files (DataGenEnv.save_dir self)
                    (DataGenEnv.FILE_ZERO_PADDING_NUM self) (fun e => e)
                    (py.range (DataGenEnv.num_iters self *
                               DataGenEnv.num_envs self))) as H.
      rewrite map_id in H. exact H.
    + rewrite length_flat_map_const with (c := 3%nat) by reflexivity.
      unfold py.range. now rewrite length_seq.
    + apply NoDup_flat_map_disjoint.
      * apply seq_NoDup.
      * intro a. apply sample_files_NoDup.
      * intros a b v. apply sample_files_inj.
Qed.

Lemma step_exports_indexed_triples_witness :
  exports_indexed_triples example_scene (initial_world half_samples) /\
  saved_paths
    (trace (snd (run_iterations example_scene 2 (initial_world half_samples)))) =
  example_files.
Proof.
  apply step_exports_indexed_triples; [repeat split|reflexivity].
Defined.

(* ------------------------------------------------------------------ *)
(** * The driver *)

Lemma preserves_emit_construction (e : event) :
  construction_event e -> preserves no_iteration (emit e).
Proof.
  intros He w [H1 H2]. unfold no_iteration, simulate_calls in *.
  cbn [emit snd trace]. rewrite filter_app, length_app, saved_paths_app, H1, H2.
  destruct e; cbn in *; try contradiction; split; reflexivity.
Qed.

Lemma create_envs_body_quiet (cm : list (list Q))
    (poses : list gymapi.Transform) (e : nat) :
  preserves no_iteration (DataGenEnv.create_envs_body cm poses e).
Proof.
  unfold DataGenEnv.create_envs_body.
  repeat first
    [ apply preserves_bind; [|intro]
    | apply preserves_ret
    | apply preserves_randint
    | apply preserves_getitem_int
    | apply preserves_emit_construction; exact I ].
Qed.

(** Scene construction starts no iteration, however it ends. *)
Lemma init_quiet (as_quat : DataGenEnv.matrix -> gymapi.Quat)
    (args : DataGenEnv.Args) (cfg : DataGenEnv.Config)
    (assets : DataGenEnv.Assets) :
  preserves no_iteration (DataGenEnv.__init__ as_quat args cfg assets).
Proof.
  unfold DataGenEnv.__init__, DataGenEnv._create_viewer, DataGenEnv._create_envs.
  destruct (DataGenEnv.arg_headless args);
    repeat first
      [ apply create_envs_body_quiet
      | apply preserves_forM; intro
      | apply preserves_bind; [|intro]
      | apply preserves_ret
      | apply preserves_emit_construction; exact I
      | match goal with
        | |- preserves _ (let '(_, _) := ?c in _) => destruct c
        end ].
Qed.

Lemma load_config_file_raises :
  load_name "config_file" = raise (NameError "config_file").
Proof. reflexivity. Qed.

(** The run ends in an exception before the loop of the driver. *)
Lemma main_raises_before_loop
    (as_quat : DataGenEnv.matrix -> gymapi.Quat)
    (args : DataGenEnv.Args) (cfg : DataGenEnv.Config)
    (assets : DataGenEnv.Assets) (s : nat -> Q) :
  exists e w',
    main as_quat args cfg assets (initial_world s) = (Raised e, w') /\
    simulate_calls (trace w') = 0%nat /\
    saved_paths (trace w') = [] /\
    forall env w1,
      DataGenEnv.__init__ as_quat args cfg assets (initial_world s) = (Ok env, w1) ->
      e = NameError "config_file" /\ w' = w1.
Proof.
  assert (Hq : no_iteration
                 (trace (snd (DataGenEnv.__init__ as_quat args cfg assets
                                (initial_world s))))).
  { apply init_quiet. split; reflexivity. }
  unfold main. unfold bind at 1.
  destruct (DataGenEnv.__init__ as_quat args cfg assets (initial_world s))
    as [[env|e] w1]; cbn [snd] in Hq; destruct Hq as [Hq1 Hq2].
  - exists (NameError "config_file"), w1.
    rewrite load_config_file_raises. unfold bind, raise.
    split; [reflexivity|]. split; [assumption|]. split; [assumption|].
    intros env' w1' H. injection H as _ <-. split; reflexivity.
  - exists e, w1.
    split; [reflexivity|]. split; [assumption|]. split; [assumption|].
    intros env w1' H. discriminate.
Qed.

(** C3, the code on every input: the script never completes an iteration.
    Whatever the configuration, the run ends in an exception before the
    first iteration: either scene construction raised, or line 422 reads
    the unbound name [config_file]; no simulation step is taken and no
    sample is written. *)
Theorem main_never_iterates :
  forall (as_quat : DataGenEnv.matrix -> gymapi.Quat)
         (args : DataGenEnv.Args) (cfg : DataGenEnv.Config)
         (assets : DataGenEnv.Assets) (s : nat -> Q),
  exists e w',
    main as_quat args cfg assets (initial_world s) = (Raised e, w') /\
    simulate_calls (trace w') = 0%nat /\
    saved_paths (trace w') = [] /\
    forall env w1,
      DataGenEnv.__init__ as_quat args cfg assets (initial_world s) = (Ok env, w1) ->
      e = NameError "config_file" /\ w' = w1.
Proof. exact main_raises_before_loop. Qed.

(** [_create_envs] leaves the configuration of [self] as it found it. *)
Lemma create_envs_keeps_config (as_quat : DataGenEnv.matrix -> gymapi.Quat)
    (self self' : DataGenEnv.t) (urdf : string) (assets : DataGenEnv.Assets)
    (w w' : World) :
  DataGenEnv._create_envs as_quat self urdf assets w = (Ok self', w') ->
  DataGenEnv.num_iters self' = DataGenEnv.num_iters self /\
  DataGenEnv.save_results self' = DataGenEnv.save_results self /\
  DataGenEnv.save_dir self' = DataGenEnv.save_dir self /\
  DataGenEnv.FILE_ZERO_PADDING_NUM self' = DataGenEnv.FILE_ZERO_PADDING_NUM self.
Proof.
  unfold DataGenEnv._create_envs. unfold bind at 1. cbn [emit].
  destruct (filter_catalog _ _ _ _) as [a b].
  unfold bind. cbn [emit].
  destruct (forM _ _ _) as [[rounds|ex] w2]; [|discriminate].
  cbn [ret]. intro H. injection H as <- _. repeat split.
Qed.

(** The end of [__init__], from [_create_envs] on, when the catalog has a
    pose. *)
Lemma create_envs_then_prepare (as_quat : DataGenEnv.matrix -> gymapi.Quat)
    (self : DataGenEnv.t) (urdf : string) (assets : DataGenEnv.Assets)
    (w : World) :
  unit_samples (samples w) ->
  map (DataGenEnv.to_transform as_quat)
      (snd (filter_catalog (DataGenEnv.min_stable_pose_prob self)
                           (DataGenEnv.max_num_stable_pose self)
                           (DataGenEnv.stable_prob assets)
                           (DataGenEnv.stable_poses assets))) <> [] ->
  DataGenEnv.envs self = [] ->
  DataGenEnv.object_handles self = [] ->
  DataGenEnv.camera_handles self = [] ->
  exists env w1,
    (self' <- DataGenEnv._create_envs as_quat self urdf assets ;;
     emit prepare_sim ;; ret self') w = (Ok env, w1) /\
    constructed env /\
    DataGenEnv.num_envs env = DataGenEnv.num_envs self /\
    DataGenEnv.num_iters env = DataGenEnv.num_iters self /\
    DataGenEnv.save_results env = DataGenEnv.save_results self.
Proof.
  intros Hu Hne He0 Ho0 Hc0.
  destruct (@create_envs_ok as_quat self urdf assets w Hu Hne)
    as (env & w1 & Hrun & _ & _ & Hn & _ & _ & He & Ho & Hcam & Hcur & _).
  destruct (create_envs_keeps_config _ _ _ _ _ Hrun) as (Hi & Hsr & _).
  unfold bind at 1. rewrite Hrun. unfold bind. cbn [emit ret].
  eexists. eexists. split; [reflexivity|].
  rewrite He0 in He. rewrite Ho0 in Ho. rewrite Hc0 in Hcam.
  cbn [List.length app Nat.add] in *.
  unfold constructed. rewrite Hn, He, Ho, Hcam, Hcur.
  unfold py.range. rewrite !app_nil_l, length_seq.
  repeat split; assumption.
Qed.

(** Scene construction on a catalog with at least one pose. *)
Lemma init_ok (as_quat : DataGenEnv.matrix -> gymapi.Quat)
    (args : DataGenEnv.Args) (cfg : DataGenEnv.Config)
    (assets : DataGenEnv.Assets) (s : nat -> Q) :
  unit_samples s ->
  map (DataGenEnv.to_transform as_quat)
      (snd (filter_catalog (DataGenEnv.cfg_min_stable_pose_prob cfg)
                           (DataGenEnv.cfg_max_num_stable_pose cfg)
                           (DataGenEnv.stable_prob assets)
                           (DataGenEnv.stable_poses assets))) <> [] ->
  exists env w1,
    DataGenEnv.__init__ as_quat args cfg assets (initial_world s) = (Ok env, w1) /\
    constructed env /\
    DataGenEnv.num_envs env = DataGenEnv.cfg_num_envs cfg /\
    DataGenEnv.num_iters env = DataGenEnv.cfg_num_iters cfg /\
    DataGenEnv.save_results env = DataGenEnv.arg_save_results args.
Proof.
  intros Hu Hne. rewrite init_unfold.
  match goal with
  | |- context [bind (DataGenEnv._create_envs as_quat ?self ?urdf assets) _ ?w0] =>
      destruct (@create_envs_then_prepare as_quat self urdf assets w0 Hu Hne
                  eq_refl eq_refl eq_refl)
        as (env & w1 & Hrun & Hc & Hn & Hi & Hsr)
  end.
  exists env, w1. split; [exact Hrun|].
  split; [exact Hc|]. split; [exact Hn|]. split; [exact Hi|exact Hsr].
Qed.

(** C3, the code at the failing input: four environments, two iterations,
    persistence enabled, a catalog of three poses. Scene construction ends
    well, and the run dies at line 422. *)
Lemma main_example_raises_NameError :
  exists w',
    main example_as_quat example_args (example_cfg (1 # 10)) example_assets
         (initial_world half_samples) =
      (Raised (NameError "config_file"), w') /\
    simulate_calls (trace w') = 0%nat /\
    saved_paths (trace w') = [].
Proof.
  destruct (main_raises_before_loop example_as_quat example_args
              (example_cfg (1 # 10)) example_assets half_samples)
    as (e & w' & Hmain & H1 & H2 & Hname).
  destruct (@init_ok example_as_quat example_args (example_cfg (1 # 10))
              example_assets half_samples half_samples_unit)
    as (env & w1 & Hinit & _).
  { cbn. discriminate. }
  destruct (Hname env w1 Hinit) as [-> _].
  exists w'. repeat split; assumption.
Qed.

(* ------------------------------------------------------------------ *)
(** * The calls of one iteration *)

Lemma combine_seq_snoc {B : Type} (k : nat) (l : list B) (b : B) :
  List.length l = k ->
  combine (seq 0 (S k)) (l ++ [b]) = combine (seq 0 k) l ++ [(k, b)].
Proof.
  intro H. rewrite seq_S. cbn [Nat.add].
  apply combine_snoc. now rewrite length_seq.
Qed.

Lemma list_sum_snoc (l : list nat) (a : nat) :
  list_sum (l ++ [a]) = (list_sum l + a)%nat.
Proof. rewrite list_sum_app. cbn. lia. Qed.

(** [reset_env] on a constructed scene, call by call. *)
Lemma reset_env_trace (self : DataGenEnv.t) (w : World) :
  constructed self ->
  exists poses w',
    DataGenEnv.reset_env self w = (Ok poses, w') /\
    List.length poses = DataGenEnv.num_envs self /\
    samples w' = samples w /\
    cursor w' = (cursor w + draws_before self (DataGenEnv.num_envs self))%nat /\
    trace w' =
      trace w ++
      flat_map reset_events (combine (py.range (DataGenEnv.num_envs self)) poses) ++
      (if DataGenEnv.viewer self then [clear_lines] else []) /\
    forall e t, nth_error poses e = Some t ->
      exists t_stable,
        nth_error (DataGenEnv.cur_object_stable_poses self) e = Some t_stable /\
        t = reset_pose self t_stable (samples w) (cursor w + draws_before self e).
Proof.
  intro Hc. unfold DataGenEnv.reset_env.
  destruct (@for_range_invariant _ (DataGenEnv.num_envs self)
    (DataGenEnv.reset_env_body self)
    (fun k poses w1 =>
       samples w1 = samples w /\
       List.length poses = k /\
       cursor w1 = (cursor w + draws_before self k)%nat /\
       trace w1 = trace w ++ flat_map reset_events (combine (seq 0 k) poses) /\
       forall e t, nth_error poses e = Some t ->
         exists t_stable,
           nth_error (DataGenEnv.cur_object_stable_poses self) e = Some t_stable /\
           t = reset_pose self t_stable (samples w)
                          (cursor w + draws_before self e)) w)
    as (poses & w1 & Hrun & Hs & Hl & Hcur & Htr & Hposes).
  - cbn. rewrite app_nil_r. unfold draws_before. cbn.
    repeat split; try lia. intros [|e] t H; discriminate.
  - intros k poses w1 Hk (Hs & Hl & Hcur & Htr & Hposes).
    destruct (constructed_lookup Hc Hk) as (oh & ch & t_stable & H1 & H2 & _ & H4).
    eexists. eexists.
    split; [exact (@reset_env_body_ok self k k oh t_stable w1 H1 H2 H4)|].
    cbn [samples cursor trace].
    rewrite length_app. cbn [List.length].
    rewrite (@combine_seq_snoc _ k poses _ Hl), flat_map_app. cbn [flat_map].
    rewrite app_nil_r, Htr, <- app_assoc.
    unfold draws_before in *.
    rewrite (@firstn_succ_nth _ _ _ _ H4), map_app. cbn [map].
    rewrite list_sum_snoc.
    split; [assumption|]. split; [lia|]. split; [lia|].
    split; [unfold reset_events; cbn [fst snd]; reflexivity|].
    intros e t Ht.
    destruct (Nat.lt_ge_cases e (List.length poses)) as [Hlt|Hge].
    + rewrite nth_error_app1 in Ht by assumption. now apply Hposes.
    + rewrite nth_error_app2 in Ht by assumption.
      destruct (e - List.length poses)%nat as [|d] eqn:Ed.
      * cbn in Ht. injection Ht as <-.
        assert (e = k) by lia. subst e.
        exists t_stable. rewrite Hs, Hcur. split; [assumption|reflexivity].
      * destruct d; discriminate.
  - unfold bind at 1. rewrite Hrun.
    destruct (DataGenEnv.viewer self).
    + unfold bind. cbn [emit ret]. eexists. eexists.
      split; [reflexivity|]. cbn [samples cursor trace].
      rewrite Htr, <- app_assoc. repeat split; assumption.
    + unfold bind. cbn [ret]. eexists. eexists.
      split; [reflexivity|]. rewrite Htr, app_nil_r.
      repeat split; assumption.
Qed.

(* ------------------------------------------------------------------ *)
(** * The pose randomizer, draw by draw *)

(** The composition of lines 297-299 with a yaw of a half turn: the point
    (1, 0, 0) is turned to (-1, 0, 0) before the offset is added, and the
    orientation is the yaw itself. *)
Lemma compose_half_turn_example :
  DataGenEnv.pose_type_conversion
    [DataGenEnv.compose (gymapi.mkVec3 1 0 0) gymapi.identity
                        (gymapi.mkVec3 0 0 0.0021) (gymapi.mkQuat 0 0 1 0)] =
  [[-1; 0; 0.0021; 0; 0; 1; 0]%R].
Proof.
  unfold DataGenEnv.pose_type_conversion, DataGenEnv.compose. cbn [map].
  cbn [gymapi.p gymapi.r]. unfold gymapi.normalize.
  replace (gymapi.mul (gymapi.mkQuat 0 0 1 0) gymapi.identity)
    with (gymapi.mkQuat 0 0 1 0).
  2:{ unfold gymapi.mul, gymapi.identity.
      cbn [gymapi.qx gymapi.qy gymapi.qz gymapi.w]. f_equal; ring. }
  replace (gymapi.magnitude (gymapi.mkQuat 0 0 1 0)) with 1%R.
  2:{ unfold gymapi.magnitude. cbn [gymapi.qx gymapi.qy gymapi.qz gymapi.w].
      replace (0 * 0 + 0 * 0 + 1 * 1 + 0 * 0)%R with 1%R by ring.
      symmetry. apply sqrt_1. }
  unfold gymapi.add, gymapi.rotate, gymapi.mul, gymapi.conjugate.
  cbn [gymapi.x gymapi.y gymapi.z gymapi.qx gymapi.qy gymapi.qz gymapi.w].
  repeat (f_equal; try lra).
Qed.

(** C5. For every environment and iteration, the pose written to the
    object is composed from the canonical pose (p_stable, q_stable) and the
    random draws of the environment's round (p_random from its first two
    draws, q_random from its last) as position =
    q_random.rotate(p_stable) + p_random and orientation =
    normalize(q_random * q_stable), the random rotation on the left; with
    p_stable = (0,0,0), q_stable = identity, p_random = (1,0,0.0021) and
    q_random = identity the pose as a 7-vector is (1,0,0.0021,0,0,0,1), and
    with p_stable = (1,0,0), p_random = (0,0,0.0021) and q_random the half
    turn (0,0,1,0) it is (-1,0,0.0021,0,0,1,0). *)
Theorem reset_env_composes_poses :
  forall (self : DataGenEnv.t) (w : World),
    constructed self ->
    composed_poses_written self w /\
    DataGenEnv.pose_type_conversion
      [DataGenEnv.compose (gymapi.mkVec3 0 0 0) gymapi.identity
                          (gymapi.mkVec3 1 0 0.0021) gymapi.identity] =
    [[1; 0; 0.0021; 0; 0; 0; 1]%R] /\
    DataGenEnv.pose_type_conversion
      [DataGenEnv.compose (gymapi.mkVec3 1 0 0) gymapi.identity
                          (gymapi.mkVec3 0 0 0.0021) (gymapi.mkQuat 0 0 1 0)] =
    [[-1; 0; 0.0021; 0; 0; 1; 0]%R].
Proof.
  intros self w Hc.
  split; [|split; [exact compose_identity_example|exact compose_half_turn_example]].
  destruct (reset_env_ok w Hc)
    as (poses & w' & Hrun & _ & Hl & Hw & _ & _).
  destruct (reset_env_trace w Hc)
    as (poses2 & w2 & Hrun2 & _ & _ & _ & _ & Hposes).
  rewrite Hrun in Hrun2. injection Hrun2 as <- <-.
  exists poses, w'. repeat (split; [assumption|]).
  intros e t Ht. destruct (Hposes e t Ht) as (t_stable & Hst & ->).
  exists t_stable. split; [exact Hst|]. cbv zeta.
  set (c := (cursor w + draws_before self e)%nat).
  unfold reset_pose, DataGenEnv.compose, reset_draws. cbn [gymapi.p gymapi.r].
  destruct (DataGenEnv.is_symmetric (gymapi.r t_stable)).
  - replace (c + 4 - 1)%nat with (S (S (S c))) by lia. split; reflexivity.
  - replace (c + 3 - 1)%nat with (S (S c)) by lia. split; reflexivity.
Qed.

Lemma reset_env_composes_poses_witness :
  composed_poses_written example_scene (initial_world half_samples) /\
  DataGenEnv.pose_type_conversion
    [DataGenEnv.compose (gymapi.mkVec3 0 0 0) gymapi.identity
                        (gymapi.mkVec3 1 0 0.0021) gymapi.identity] =
  [[1; 0; 0.0021; 0; 0; 0; 1]%R] /\
  DataGenEnv.pose_type_conversion
    [DataGenEnv.compose (gymapi.mkVec3 1 0 0) gymapi.identity
                        (gymapi.mkVec3 0 0 0.0021) (gymapi.mkQuat 0 0 1 0)] =
  [[-1; 0; 0.0021; 0; 0; 1; 0]%R].
Proof.
  apply reset_env_composes_poses. repeat split.
Defined.

(* ------------------------------------------------------------------ *)
(** * The test for symmetric poses *)

(** The two literals of line 290, as Python reads them, are the decimals
    of the source up to the precision of a double. *)
Lemma literals_of_line_290 :
  (Rabs (DataGenEnv.literal_m0_706636 - (-0.706636)) < 1 / 10 ^ 16)%R /\
  (Rabs (DataGenEnv.literal_0_000685 - 0.000685) < 1 / 10 ^ 19)%R.
Proof.
  unfold DataGenEnv.literal_m0_706636, DataGenEnv.literal_0_000685.
  split; apply Rabs_def1; lra.
Qed.

(** An odd integer is the odd part of no smaller one. *)
Lemma odd_part_unique (m M p q : Z) :
  Z.odd M = true -> (Z.abs m < Z.abs M)%Z -> (0 <= p)%Z -> (0 <= q)%Z ->
  (m * 2 ^ p = M * 2 ^ q)%Z -> False.
Proof.
  intros Ho Hlt Hp Hq E.
  destruct (Z.le_gt_cases p q) as [H|H].
  - replace q with (p + (q - p))%Z in E by lia.
    rewrite Z.pow_add_r in E by lia.
    assert (H2 : (0 < 2 ^ p)%Z) by (apply Z.pow_pos_nonneg; lia).
    assert (H3 : (0 < 2 ^ (q - p))%Z) by (apply Z.pow_pos_nonneg; lia).
    assert (E' : (m = M * 2 ^ (q - p))%Z).
    { apply Z.mul_reg_r with (p := (2 ^ p)%Z); [lia|]. rewrite E. ring. }
    rewrite E', Z.abs_mul in Hlt.
    rewrite (Z.abs_eq (2 ^ (q - p))) in Hlt by lia. nia.
  - replace p with (q + Z.succ (p - q - 1))%Z in E by lia.
    rewrite Z.pow_add_r, Z.pow_succ_r in E by lia.
    assert (H2 : (0 < 2 ^ q)%Z) by (apply Z.pow_pos_nonneg; lia).
    assert (E' : (M = 2 * (m * 2 ^ (p - q - 1)))%Z).
    { apply Z.mul_reg_r with (p := (2 ^ q)%Z); [lia|]. rewrite <- E. ring. }
    rewrite E', Z.odd_mul in Ho. discriminate.
Qed.

(** A C float is no odd integer of 24 bits or more over a power of two:
    its mantissa is too short. *)
Lemma float32_not_odd_dyadic (M : Z) (K : nat) (v : R) :
  Z.odd M = true -> (2 ^ 24 <= Z.abs M)%Z ->
  float32 v -> v <> (IZR M / 2 ^ K)%R.
Proof.
  intros Ho Hb (m & a & b & Hm & ->) E.
  assert (Hb0 : (2 ^ b <> 0)%R) by (apply pow_nonzero; lra).
  assert (HK0 : (2 ^ K <> 0)%R) by (apply pow_nonzero; lra).
  assert (E2 : (IZR m * 2 ^ a * 2 ^ K = IZR M * 2 ^ b)%R).
  { replace (IZR m * 2 ^ a * 2 ^ K)%R
      with (IZR m * 2 ^ a / 2 ^ b * (2 ^ b * 2 ^ K))%R by (field; assumption).
    rewrite E. field. assumption. }
  rewrite !pow_IZR, <- !mult_IZR in E2. apply eq_IZR in E2.
  rewrite <- Z.mul_assoc, <- Z.pow_add_r in E2 by lia.
  apply (@odd_part_unique m M (Z.of_nat a + Z.of_nat K) (Z.of_nat b));
    try assumption; lia.
Qed.

(** Neither literal of line 290 is a C float: as doubles they have
    mantissas of 51 and 53 bits. *)
Lemma float32_is_no_literal (v : R) :
  float32 v ->
  v <> DataGenEnv.literal_m0_706636 /\ v <> DataGenEnv.literal_0_000685.
Proof.
  intro Hv. split.
  - replace DataGenEnv.literal_m0_706636
      with (IZR (-1591202813143289) / 2 ^ 51)%R
      by (unfold DataGenEnv.literal_m0_706636; lra).
    apply float32_not_odd_dyadic; [reflexivity|vm_compute; discriminate|exact Hv].
  - unfold DataGenEnv.literal_0_000685.
    apply float32_not_odd_dyadic; [reflexivity|vm_compute; discriminate|exact Hv].
Qed.

(** The test of line 290 fails on every quaternion of C floats. *)
Lemma float32_not_symmetric (q_stable : gymapi.Quat) :
  float32 (gymapi.w q_stable) -> DataGenEnv.is_symmetric q_stable = false.
Proof.
  intro Hv. destruct (float32_is_no_literal Hv) as [Ha Hb].
  unfold DataGenEnv.is_symmetric.
  destruct (Req_dec_T (gymapi.w q_stable) DataGenEnv.literal_m0_706636);
    [contradiction|].
  destruct (Req_dec_T (gymapi.w q_stable) DataGenEnv.literal_0_000685);
    [contradiction|reflexivity].
Qed.

Lemma list_sum_unmarked (l : list gymapi.Transform) :
  (forall t, In t l -> DataGenEnv.is_symmetric (gymapi.r t) = false) ->
  list_sum (map reset_draws l) = (3 * List.length l)%nat.
Proof.
  induction l as [|t l IH]; intro H; [reflexivity|].
  cbn [map List.length].
  change (list_sum (reset_draws t :: map reset_draws l))
    with (reset_draws t + list_sum (map reset_draws l))%nat.
  rewrite IH by (intros u Hu; apply H; now right).
  unfold reset_draws. rewrite (H t) by now left. lia.
Qed.

Lemma draws_before_unmarked (self : DataGenEnv.t) (e : nat) :
  (forall t, In t (DataGenEnv.cur_object_stable_poses self) ->
     DataGenEnv.is_symmetric (gymapi.r t) = false) ->
  (e <= List.length (DataGenEnv.cur_object_stable_poses self))%nat ->
  draws_before self e = (3 * e)%nat.
Proof.
  intros H He. unfold draws_before.
  rewrite list_sum_unmarked.
  - rewrite length_firstn. lia.
  - intros t Ht. apply H. eapply In_firstn. exact Ht.
Qed.

(** [reset_env] on a scene none of whose poses passes the test of
    line 290. *)
Lemma reset_env_unmarked (self : DataGenEnv.t) (w : World) :
  constructed self ->
  (forall t, In t (DataGenEnv.cur_object_stable_poses self) ->
     DataGenEnv.is_symmetric (gymapi.r t) = false) ->
  yaw_over_full_turn self w.
Proof.
  intros Hc Hno. unfold yaw_over_full_turn. split; [exact Hno|].
  destruct (reset_env_trace w Hc)
    as (poses & w' & Hrun & Hl & _ & Hcur & _ & Hposes).
  assert (Hlen : List.length (DataGenEnv.cur_object_stable_poses self) =
                 DataGenEnv.num_envs self) by apply Hc.
  exists poses, w'. split; [assumption|]. split; [assumption|]. split.
  - rewrite Hcur, draws_before_unmarked by (try assumption; lia). reflexivity.
  - intros e t Ht. destruct (Hposes e t Ht) as (t_stable & Hst & ->).
    exists t_stable. split; [exact Hst|]. cbv zeta.
    assert (He : (e < List.length poses)%nat).
    { apply nth_error_Some. rewrite Ht. discriminate. }
    rewrite draws_before_unmarked by (try assumption; lia).
    unfold reset_pose.
    rewrite (Hno t_stable) by (eapply nth_error_In; exact Hst).
    reflexivity.
Qed.

Lemma symmetric_pose_float32 : float32 (gymapi.w (gymapi.r symmetric_pose)).
Proof.
  exists 5884105%Z, 0%nat, 33%nat. split; [reflexivity|].
  unfold symmetric_pose. cbn [gymapi.r gymapi.w]. lra.
Qed.

Lemma symmetric_self_holds_floats : holds_floats symmetric_self.
Proof.
  intros t [<-|[]]. exact symmetric_pose_float32.
Qed.

(** The symmetric pose of the example, one environment, every unit sample
    1/2: the round takes three samples and the yaw is a half turn. *)
Lemma symmetric_self_reset :
  exists w',
    DataGenEnv.reset_env symmetric_self (initial_world half_samples) =
    (Ok [DataGenEnv.compose (gymapi.p symmetric_pose) (gymapi.r symmetric_pose)
                            (gymapi.mkVec3 0 0 0.0021)
                            (scipy.from_euler_z PI)], w') /\
    cursor w' = 3%nat.
Proof.
  unfold DataGenEnv.reset_env. cbn [DataGenEnv.num_envs symmetric_self].
  unfold py.range. cbn [seq forM].
  unfold bind at 1. unfold bind at 1.
  rewrite (@reset_env_body_ok symmetric_self 0 0 0 symmetric_pose
             (initial_world half_samples) eq_refl eq_refl eq_refl).
  cbv zeta. unfold reset_draws, reset_pose.
  rewrite (float32_not_symmetric _ symmetric_pose_float32).
  cbv [bind ret]. cbn [DataGenEnv.viewer symmetric_self].
  eexists. split.
  - cbn [samples cursor trace initial_world
         DataGenEnv.object_rand_pose_range symmetric_self half_samples].
    unfold half_samples.
    assert (E1 : Q2R (1 # 2) = (1 / 2)%R) by (unfold Q2R; cbn; lra).
    assert (E2 : Q2R (1 # 10) = (1 / 10)%R) by (unfold Q2R; cbn; lra).
    rewrite E1, E2.
    replace (- (1 / 10) + (1 / 10 - - (1 / 10)) * (1 / 2))%R with 0%R by lra.
    replace (0 + (2 * PI - 0) * (1 / 2))%R with PI by lra.
    reflexivity.
  - reflexivity.
Qed.

(** C2, what the code does in place of the claim. On every scene a run can
    hold, the scalar parts being C floats, no canonical pose passes the
    test of line 290, since neither literal is a C float: every
    environment takes three unit samples and its yaw is that of the draw
    over [0, 2 pi). So it is for the symmetric pose the second literal was
    written for: with every unit sample 1/2 its yaw is pi, beyond the
    quarter turn. *)
Theorem symmetric_poses_are_never_recognised :
  forall (self : DataGenEnv.t) (w : World),
    constructed self ->
    holds_floats self ->
    yaw_over_full_turn self w /\
    float32 (gymapi.w (gymapi.r symmetric_pose)) /\
    (exists w',
       DataGenEnv.reset_env symmetric_self (initial_world half_samples) =
       (Ok [DataGenEnv.compose (gymapi.p symmetric_pose)
                               (gymapi.r symmetric_pose)
                               (gymapi.mkVec3 0 0 0.0021)
                               (scipy.from_euler_z PI)], w') /\
       cursor w' = 3%nat) /\
    (PI / 2 < PI)%R.
Proof.
  intros self w Hc Hf.
  split; [|split; [exact symmetric_pose_float32|split; [exact symmetric_self_reset|]]].
  - apply reset_env_unmarked; [assumption|].
    intros t Ht. apply float32_not_symmetric. now apply Hf.
  - pose proof PI_RGT_0. lra.
Qed.

Lemma symmetric_poses_are_never_recognised_witness :
  yaw_over_full_turn symmetric_self (initial_world half_samples) /\
  float32 (gymapi.w (gymapi.r symmetric_pose)) /\
  (exists w',
     DataGenEnv.reset_env symmetric_self (initial_world half_samples) =
     (Ok [DataGenEnv.compose (gymapi.p symmetric_pose)
                             (gymapi.r symmetric_pose)
                             (gymapi.mkVec3 0 0 0.0021)
                             (scipy.from_euler_z PI)], w') /\
     cursor w' = 3%nat) /\
  (PI / 2 < PI)%R.
Proof.
  apply symmetric_poses_are_never_recognised.
  - repeat split.
  - exact symmetric_self_holds_floats.
Defined.

(** [get_camera_image] on a constructed scene, call by call. *)
Lemma get_camera_image_trace (self : DataGenEnv.t) (w : World) :
  constructed self ->
  exists w',
    DataGenEnv.get_camera_image self w =
      (Ok (map (fun e => depth_f32_negated (mkBuffer e IMAGE_DEPTH))
               (py.range (DataGenEnv.num_envs self)),
           map (fun e => mask_bool (mkBuffer e IMAGE_SEGMENTATION))
               (py.range (DataGenEnv.num_envs self))), w') /\
    samples w' = samples w /\ cursor w' = cursor w /\
    trace w' =
      trace w ++ render_all_camera_sensors ::
      flat_map camera_events (py.range (DataGenEnv.num_envs self)).
Proof.
  intro Hc. unfold DataGenEnv.get_camera_image.
  unfold bind at 1. cbn [emit].
  match goal with
  | |- context [bind (forM _ ?f) _ ?w0] =>
      destruct (@for_range_invariant _ (DataGenEnv.num_envs self) f
        (fun k images w1 =>
           images = map (fun e => (depth_f32_negated (mkBuffer e IMAGE_DEPTH),
                                   mask_bool (mkBuffer e IMAGE_SEGMENTATION)))
                        (seq 0 k) /\
           samples w1 = samples w /\ cursor w1 = cursor w /\
           trace w1 = trace w ++ render_all_camera_sensors ::
                      flat_map camera_events (seq 0 k)) w0)
        as (images & w1 & Hrun & Hi & Hs & Hcur & Htr)
  end.
  - cbn. repeat split; reflexivity.
  - intros k images w1 Hk (Hi & Hs & Hcur & Htr).
    destruct (constructed_lookup Hc Hk) as (oh & ch & t_stable & H1 & _ & H3 & _).
    unfold bind at 1. rewrite (getitem_some _ _ w1 H1).
    unfold bind at 1. rewrite (getitem_some _ _ w1 H3).
    cbv [bind emit ret]. cbn [samples cursor trace].
    eexists. eexists. split; [reflexivity|].
    cbn [samples cursor trace].
    rewrite seq_S, map_app, flat_map_app, Hi, Htr. cbn [map flat_map Nat.add].
    rewrite app_nil_r. unfold camera_events.
    repeat split; try assumption.
    rewrite <- !app_assoc. cbn [app]. reflexivity.
  - unfold bind at 1. rewrite Hrun. cbn [ret]. subst images.
    rewrite !map_map. cbn [fst snd].
    exists w1. repeat split; assumption.
Qed.

Lemma pose_type_conversion_map (poses : list gymapi.Transform) :
  DataGenEnv.pose_type_conversion poses = map pose_vector poses.
Proof. reflexivity. Qed.

Lemma nth_error_map_range {B : Type} (f : nat -> B) (n k : nat) :
  (k < n)%nat -> nth_error (map f (py.range n)) k = Some (f k).
Proof.
  intro H. unfold py.range. rewrite nth_error_map.
  rewrite nth_error_nth' with (d := 0%nat) by (rewrite length_seq; lia).
  now rewrite seq_nth.
Qed.

(** The export loop of [step], write by write. *)
Lemma save_loop_trace (self : DataGenEnv.t) (n_step : nat)
    (poses : list gymapi.Transform) (w : World) :
  List.length poses = DataGenEnv.num_envs self ->
  exists done w',
    forM (py.range (DataGenEnv.num_envs self))
         (DataGenEnv.save_body self n_step
            (map (fun e => depth_f32_negated (mkBuffer e IMAGE_DEPTH))
                 (py.range (DataGenEnv.num_envs self)))
            (map (fun e => mask_bool (mkBuffer e IMAGE_SEGMENTATION))
                 (py.range (DataGenEnv.num_envs self)))
            (DataGenEnv.pose_type_conversion poses)) w = (Ok done, w') /\
    samples w' = samples w /\ cursor w' = cursor w /\
    trace w' =
      trace w ++
      flat_map (save_events self n_step)
               (combine (py.range (DataGenEnv.num_envs self)) poses).
Proof.
  intro Hl.
  match goal with
  | |- context [forM _ ?f w] =>
      destruct (@for_range_invariant _ (DataGenEnv.num_envs self) f
        (fun k (_ : list unit) w1 =>
           samples w1 = samples w /\ cursor w1 = cursor w /\
           trace w1 =
             trace w ++
             flat_map (save_events self n_step)
                      (combine (seq 0 k) (firstn k poses))) w)
        as (done & w1 & Hrun & Hs & Hcur & Htr)
  end.
  - cbn. rewrite app_nil_r. repeat split.
  - intros k done w1 Hk (Hs & Hcur & Htr).
    destruct (nth_error poses k) as [t|] eqn:Et.
    2:{ apply nth_error_None in Et. lia. }
    unfold DataGenEnv.save_body.
    unfold bind at 1.
    rewrite (getitem_some _ _ w1 (nth_error_map_range _ Hk)).
    unfold bind at 1. cbn [emit].
    unfold bind at 1.
    match goal with |- context [getitem ?l k ?w2] =>
      rewrite (getitem_some l k w2 (nth_error_map_range _ Hk))
    end.
    unfold bind at 1. cbn [emit].
    unfold bind at 1.
    match goal with |- context [getitem ?l k ?w2] =>
      rewrite (@getitem_some _ l k (pose_vector t) w2)
    end.
    2:{ rewrite pose_type_conversion_map, nth_error_map, Et. reflexivity. }
    cbn [emit samples cursor trace].
    eexists. eexists. split; [reflexivity|].
    cbn [samples cursor trace].
    rewrite (@firstn_succ_nth _ _ _ _ Et).
    rewrite combine_seq_snoc.
    2:{ rewrite length_firstn. lia. }
    rewrite flat_map_app, Htr. cbn [flat_map].
    unfold save_events at 2. cbn [fst snd]. rewrite app_nil_r.
    repeat split; try assumption.
    rewrite <- !app_assoc. reflexivity.
  - assert (Hall : firstn (DataGenEnv.num_envs self) poses = poses)
      by (rewrite <- Hl; apply firstn_all).
    rewrite Hall in Htr. exists done, w1. repeat split; assumption.
Qed.

(** One iteration on a constructed scene, call by call. *)
Lemma step_trace (self : DataGenEnv.t) (n_step : nat) (w : World) :
  constructed self ->
  exists poses w',
    DataGenEnv.step self n_step w = (Ok tt, w') /\
    List.length poses = DataGenEnv.num_envs self /\
    samples w' = samples w /\
    cursor w' = (cursor w + draws_before self (DataGenEnv.num_envs self))%nat /\
    trace w' = trace w ++ step_events self n_step poses /\
    forall e t, nth_error poses e = Some t ->
      exists t_stable,
        nth_error (DataGenEnv.cur_object_stable_poses self) e = Some t_stable /\
        t = reset_pose self t_stable (samples w) (cursor w + draws_before self e).
Proof.
  intro Hc. unfold DataGenEnv.step.
  destruct (reset_env_trace w Hc)
    as (poses & w1 & Hreset & Hl & Hs1 & Hc1 & Ht1 & Hposes).
  unfold bind at 1. rewrite Hreset.
  unfold bind at 1. cbn [emit]. unfold bind at 1. cbn [emit].
  unfold bind at 1. cbn [emit]. unfold bind at 1. cbn [emit].
  match goal with |- context [bind (DataGenEnv.get_camera_image self) _ ?w2] =>
    destruct (@get_camera_image_trace self w2 Hc)
      as (w3 & Hcam & Hs3 & Hc3 & Ht3)
  end.
  unfold bind at 1. rewrite Hcam.
  cbn [samples cursor trace] in Hs3, Hc3, Ht3.
  unfold step_events.
  destruct (DataGenEnv.save_results self).
  - unfold bind at 1. cbn [emit].
    match goal with |- context [bind (forM _ _) _ ?w4] =>
      destruct (@save_loop_trace self n_step poses w4 Hl)
        as (done & w5 & Hloop & Hs5 & Hc5 & Ht5)
    end.
    unfold bind at 1. rewrite Hloop. unfold bind. cbn [ret].
    cbn [samples cursor trace] in Hs5, Hc5, Ht5.
    exists poses, w5. split; [reflexivity|]. split; [assumption|].
    split; [congruence|]. split; [congruence|]. split; [|assumption].
    rewrite Ht5, Ht3, Ht1. rewrite <- !app_assoc. cbn [app]. reflexivity.
  - cbn [ret]. exists poses, w3. split; [reflexivity|]. split; [assumption|].
    split; [congruence|]. split; [congruence|]. split; [|assumption].
    rewrite Ht3, Ht1. rewrite <- !app_assoc. cbn [app].
    rewrite app_nil_r. reflexivity.
Qed.

(* ------------------------------------------------------------------ *)
(** * What a trace shows of an iteration *)

Lemma flat_map_nil_on {A B C : Type} (f : B -> list C) (g : A -> list B)
    (l : list A) :
  (forall a, flat_map f (g a) = []) -> flat_map f (flat_map g l) = [].
Proof.
  intro H. induction l as [|a l IH]; cbn [flat_map]; [reflexivity|].
  now rewrite flat_map_app, H, IH.
Qed.

Lemma simulate_calls_app (tr tr' : list event) :
  simulate_calls (tr ++ tr') = (simulate_calls tr + simulate_calls tr')%nat.
Proof. unfold simulate_calls. now rewrite filter_app, length_app. Qed.

Lemma simulate_calls_flat_map {A : Type} (g : A -> list event) (l : list A) :
  (forall a, simulate_calls (g a) = 0%nat) ->
  simulate_calls (flat_map g l) = 0%nat.
Proof.
  intro H. induction l as [|a l IH]; cbn [flat_map]; [reflexivity|].
  now rewrite simulate_calls_app, H, IH.
Qed.

Lemma written_transforms_reset_events (l : list (nat * gymapi.Transform)) :
  written_transforms (flat_map reset_events l) = l.
Proof.
  unfold written_transforms.
  induction l as [|[e t] l IH]; cbn [flat_map]; [reflexivity|].
  rewrite flat_map_app, IH. reflexivity.
Qed.

Lemma saved_paths_save_events_from (self : DataGenEnv.t) (n_step : nat)
    (poses : list gymapi.Transform) (a : nat) :
  saved_paths (flat_map (save_events self n_step)
                 (combine (seq a (List.length poses)) poses)) =
  flat_map (fun e => sample_files (DataGenEnv.save_dir self)
                       (DataGenEnv.FILE_ZERO_PADDING_NUM self)
                       (n_step * DataGenEnv.num_envs self + e)%nat)
           (seq a (List.length poses)).
Proof.
  revert a. induction poses as [|t poses IH]; intro a;
    cbn [List.length seq combine flat_map]; [reflexivity|].
  rewrite saved_paths_app, IH. reflexivity.
Qed.

Lemma saved_paths_save_events (self : DataGenEnv.t) (n_step : nat)
    (poses : list gymapi.Transform) :
  List.length poses = DataGenEnv.num_envs self ->
  saved_paths (flat_map (save_events self n_step)
                 (combine (py.range (DataGenEnv.num_envs self)) poses)) =
  flat_map (fun e => sample_files (DataGenEnv.save_dir self)
                       (DataGenEnv.FILE_ZERO_PADDING_NUM self)
                       (n_step * DataGenEnv.num_envs self + e)%nat)
           (py.range (DataGenEnv.num_envs self)).
Proof.
  intro Hl. unfold py.range.
  pose proof (saved_paths_save_events_from self n_step poses 0) as H.
  rewrite Hl in H. exact H.
Qed.

(** What the trace shows of one iteration on a constructed scene. *)
Lemma step_observed (self : DataGenEnv.t) (n_step : nat) (w : World) :
  constructed self ->
  exists poses w',
    DataGenEnv.step self n_step w = (Ok tt, w') /\
    List.length poses = DataGenEnv.num_envs self /\
    samples w' = samples w /\
    cursor w' = (cursor w + draws_before self (DataGenEnv.num_envs self))%nat /\
    simulate_calls (trace w') = S (simulate_calls (trace w)) /\
    written_transforms (trace w') =
      written_transforms (trace w) ++
      combine (py.range (DataGenEnv.num_envs self)) poses /\
    progress_lines (trace w') = progress_lines (trace w) /\
    created_envs (trace w') = created_envs (trace w) /\
    created_actors (trace w') = created_actors (trace w) /\
    saved_paths (trace w') =
      saved_paths (trace w) ++
      (if DataGenEnv.save_results self
       then flat_map (fun e => sample_files (DataGenEnv.save_dir self)
                                 (DataGenEnv.FILE_ZERO_PADDING_NUM self)
                                 (n_step * DataGenEnv.num_envs self + e)%nat)
                     (py.range (DataGenEnv.num_envs self))
       else []) /\
    made_dirs (trace w') =
      made_dirs (trace w) ++
      (if DataGenEnv.save_results self
       then [(DataGenEnv.save_dir self ++ "/data")%string] else []).
Proof.
  intro Hc.
  destruct (step_trace n_step w Hc)
    as (poses & w' & Hrun & Hl & Hs & Hcur & Htr & _).
  exists poses, w'. repeat (split; [assumption|]).
  rewrite Htr. unfold step_events.
  pose proof (@saved_paths_save_events self n_step poses Hl) as Hsaved.
  pose proof (written_transforms_reset_events
                (combine (py.range (DataGenEnv.num_envs self)) poses)) as Hw.
  split.
  { assert (R1 : forall l, simulate_calls (flat_map reset_events l) = 0%nat)
      by (intro l; apply simulate_calls_flat_map; reflexivity).
    assert (R2 : forall l, simulate_calls (flat_map camera_events l) = 0%nat)
      by (intro l; apply simulate_calls_flat_map; reflexivity).
    assert (R3 : forall l, simulate_calls (flat_map (save_events self n_step) l) = 0%nat)
      by (intro l; apply simulate_calls_flat_map; reflexivity).
    rewrite !simulate_calls_app, R1, R2.
    destruct (DataGenEnv.viewer self), (DataGenEnv.save_results self);
      try (change (simulate_calls (makedirs ?p :: ?tr)) with (simulate_calls tr));
      rewrite ?R3; cbn; lia. }
  unfold written_transforms, progress_lines, created_envs, created_actors,
    made_dirs, saved_paths in *.
  rewrite !flat_map_app, Hw.
  destruct (DataGenEnv.viewer self), (DataGenEnv.save_results self);
    cbn [flat_map app]; rewrite ?Hsaved;
    repeat match goal with
      | |- context [flat_map ?f (flat_map ?g ?l)] =>
          rewrite (@flat_map_nil_on _ _ _ f g l) by reflexivity
      end;
    rewrite ?app_nil_r; repeat split; reflexivity.
Qed.

(** X1. One iteration on a constructed scene issues exactly these calls,
    in this order: for each environment the new transform, zero linear and
    angular velocity and the gravity flag; the clearing of debug lines when
    a viewer exists; simulate, fetch results, step graphics, draw viewer;
    one render of all cameras; for each environment the read of its depth
    and of its segmentation buffer; and, with persistence, the creation of
    the data directory and for each environment the image, mask and pose
    files, the pose file holding the 7-vector of the transform written to
    that same environment in this iteration. *)
Theorem step_issues_calls_in_order :
  forall (self : DataGenEnv.t) (n_step : nat) (w : World),
    constructed self ->
    exists poses w',
      DataGenEnv.step self n_step w = (Ok tt, w') /\
      List.length poses = DataGenEnv.num_envs self /\
      trace w' = trace w ++ step_events self n_step poses /\
      forall e t, nth_error poses e = Some t ->
        exists t_stable,
          nth_error (DataGenEnv.cur_object_stable_poses self) e = Some t_stable /\
          t = reset_pose self t_stable (samples w) (cursor w + draws_before self e).
Proof.
  intros self n_step w Hc.
  destruct (step_trace n_step w Hc)
    as (poses & w' & Hrun & Hl & _ & _ & Htr & Hposes).
  exists poses, w'. repeat split; assumption.
Qed.

Lemma step_issues_calls_in_order_witness :
  exists poses w',
    DataGenEnv.step example_scene 1 (initial_world half_samples) = (Ok tt, w') /\
    List.length poses = DataGenEnv.num_envs example_scene /\
    trace w' = trace (initial_world half_samples) ++ step_events example_scene 1 poses /\
    forall e t, nth_error poses e = Some t ->
      exists t_stable,
        nth_error (DataGenEnv.cur_object_stable_poses example_scene) e = Some t_stable /\
        t = reset_pose example_scene t_stable (samples (initial_world half_samples))
              (cursor (initial_world half_samples) + draws_before example_scene e).
Proof.
  apply step_issues_calls_in_order. repeat split.
Defined.

(** X2. Without [--save_results] an iteration on a constructed scene
    writes no file and creates no directory; it still writes one transform
    per environment and takes one simulation step. *)
Theorem step_without_persistence_writes_nothing :
  forall (self : DataGenEnv.t) (n_step : nat) (w : World),
    constructed self ->
    DataGenEnv.save_results self = false ->
    exists w',
      DataGenEnv.step self n_step w = (Ok tt, w') /\
      saved_paths (trace w') = saved_paths (trace w) /\
      made_dirs (trace w') = made_dirs (trace w) /\
      simulate_calls (trace w') = S (simulate_calls (trace w)) /\
      List.length (written_transforms (trace w')) =
        (List.length (written_transforms (trace w)) + DataGenEnv.num_envs self)%nat.
Proof.
  intros self n_step w Hc Hsave.
  destruct (step_observed n_step w Hc)
    as (poses & w' & Hrun & Hl & _ & _ & Hsim & Hw & _ & _ & _ & Hp & Hd).
  rewrite Hsave, app_nil_r in Hp, Hd.
  exists w'. repeat (split; [assumption|]).
  rewrite Hw, length_app, length_combine. unfold py.range.
  rewrite length_seq. lia.
Qed.

Lemma step_without_persistence_writes_nothing_witness :
  exists w',
    DataGenEnv.step quiet_scene 0 (initial_world half_samples) = (Ok tt, w') /\
    saved_paths (trace w') = saved_paths (trace (initial_world half_samples)) /\
    made_dirs (trace w') = made_dirs (trace (initial_world half_samples)) /\
    simulate_calls (trace w') = S (simulate_calls (trace (initial_world half_samples))) /\
    List.length (written_transforms (trace w')) =
      (List.length (written_transforms (trace (initial_world half_samples))) +
       DataGenEnv.num_envs quiet_scene)%nat.
Proof.
  apply step_without_persistence_writes_nothing; [repeat split|reflexivity].
Defined.

(** The loop of the driver on a constructed scene, with or without
    persistence. *)
Lemma run_iterations_observed (self : DataGenEnv.t) (shown : nat) (w : World) :
  constructed self ->
  exists w',
    run_iterations self shown w = (Ok tt, w') /\
    simulate_calls (trace w') =
      (simulate_calls (trace w) + DataGenEnv.num_iters self)%nat /\
    List.length (written_transforms (trace w')) =
      (List.length (written_transforms (trace w)) +
       DataGenEnv.num_iters self * DataGenEnv.num_envs self)%nat /\
    progress_lines (trace w') =
      progress_lines (trace w) ++
      map (fun i => (i, i * shown)%nat) (py.range (DataGenEnv.num_iters self)) /\
    created_envs (trace w') = created_envs (trace w) /\
    created_actors (trace w') = created_actors (trace w) /\
    cursor w' =
      (cursor w + DataGenEnv.num_iters self *
                  draws_before self (DataGenEnv.num_envs self))%nat.
Proof.
  intro Hc. unfold run_iterations.
  match goal with
  | |- context [bind (forM _ ?f) _ w] =>
      destruct (@for_range_invariant _ (DataGenEnv.num_iters self) f
        (fun k (_ : list unit) w1 =>
           simulate_calls (trace w1) = (simulate_calls (trace w) + k)%nat /\
           List.length (written_transforms (trace w1)) =
             (List.length (written_transforms (trace w)) +
              k * DataGenEnv.num_envs self)%nat /\
           progress_lines (trace w1) =
             progress_lines (trace w) ++
             map (fun i => (i, i * shown)%nat) (seq 0 k) /\
           created_envs (trace w1) = created_envs (trace w) /\
           created_actors (trace w1) = created_actors (trace w) /\
           cursor w1 =
             (cursor w + k * draws_before self (DataGenEnv.num_envs self))%nat) w)
        as (done & w1 & Hrun & Hinv)
  end.
  - cbn. rewrite app_nil_r. repeat split; lia.
  - intros k done w1 Hk (H1 & H2 & H3 & H4 & H5 & H6).
    destruct (step_observed k w1 Hc)
      as (poses & w2 & Hstep & Hl & _ & Hcur & Hsim & Hw & Hpr & He & Ha & _ & _).
    unfold bind. rewrite Hstep. cbn [emit].
    eexists. eexists. split; [reflexivity|].
    cbn [samples cursor trace].
    unfold written_transforms, progress_lines, created_envs, created_actors in *.
    rewrite simulate_calls_app, !flat_map_app, seq_S, map_app.
    cbn [flat_map map app Nat.add]. rewrite !app_nil_r.
    rewrite Hsim, H1, Hw, length_app, length_combine, H2, Hpr, H3, He, H4, Ha, H5,
      Hcur, H6.
    unfold py.range. rewrite length_seq, Hl, <- app_assoc.
    repeat split; try reflexivity; cbn; lia.
  - unfold bind at 1. rewrite Hrun. cbn [ret]. exists w1.
    split; [reflexivity|exact Hinv].
Qed.

(** X3. On a constructed scene the loop of the driver runs every one of
    its [num_iters] iterations, with or without persistence: it takes
    exactly [num_iters] simulation steps, writes [num_iters * num_envs]
    transforms, creates no environment and no actor, and after iteration
    [i] prints the count [i * shown] of the samples of the iterations before
    it, [shown] being the number of environments the script has read from
    the configuration. *)
Theorem run_iterations_runs_every_iteration :
  forall (self : DataGenEnv.t) (shown : nat) (w : World),
    constructed self ->
    exists w',
      run_iterations self shown w = (Ok tt, w') /\
      simulate_calls (trace w') =
        (simulate_calls (trace w) + DataGenEnv.num_iters self)%nat /\
      List.length (written_transforms (trace w')) =
        (List.length (written_transforms (trace w)) +
         DataGenEnv.num_iters self * DataGenEnv.num_envs self)%nat /\
      progress_lines (trace w') =
        progress_lines (trace w) ++
        map (fun i => (i, i * shown)%nat) (py.range (DataGenEnv.num_iters self)) /\
      created_envs (trace w') = created_envs (trace w) /\
      created_actors (trace w') = created_actors (trace w).
Proof.
  intros self shown w Hc.
  destruct (run_iterations_observed shown w Hc)
    as (w' & H0 & H1 & H2 & H3 & H4 & H5 & _).
  exists w'. repeat split; assumption.
Qed.

Lemma run_iterations_runs_every_iteration_witness :
  exists w',
    run_iterations quiet_scene 2 (initial_world half_samples) = (Ok tt, w') /\
    simulate_calls (trace w') =
      (simulate_calls (trace (initial_world half_samples)) +
       DataGenEnv.num_iters quiet_scene)%nat /\
    List.length (written_transforms (trace w')) =
      (List.length (written_transforms (trace (initial_world half_samples))) +
       DataGenEnv.num_iters quiet_scene * DataGenEnv.num_envs quiet_scene)%nat /\
    progress_lines (trace w') =
      progress_lines (trace (initial_world half_samples)) ++
      map (fun i => (i, i * 2)%nat) (py.range (DataGenEnv.num_iters quiet_scene)) /\
    created_envs (trace w') = created_envs (trace (initial_world half_samples)) /\
    created_actors (trace w') = created_actors (trace (initial_world half_samples)).
Proof.
  apply run_iterations_runs_every_iteration. repeat split.
Defined.

(* ------------------------------------------------------------------ *)
(** * What the pose randomizer draws *)

Lemma Q2R_unit (u : Q) :
  (0 <= u)%Q -> (u < 1)%Q -> (0 <= Q2R u < 1)%R.
Proof.
  intros H0 H1. split.
  - replace 0%R with (Q2R 0) by (unfold Q2R; cbn; lra). now apply Qle_Rle.
  - replace 1%R with (Q2R 1) by (unfold Q2R; cbn; lra). now apply Qlt_Rlt.
Qed.

Lemma uniform_value_bounds (low high u : R) :
  (low <= high)%R -> (0 <= u < 1)%R ->
  (low <= low + (high - low) * u <= high)%R.
Proof. intros H Hu. split; nra. Qed.

(** X4. On a constructed scene, with a generator of unit samples and a
    non-negative range, every pose [reset_env] returns is composed from a
    planar offset whose two coordinates lie within the configured range and
    a yaw in [0, 2 pi); this holds for every environment, marked symmetric
    or not. *)
Theorem reset_env_draws_within_ranges :
  forall (self : DataGenEnv.t) (w : World),
    constructed self ->
    unit_samples (samples w) ->
    (0 <= DataGenEnv.object_rand_pose_range self)%Q ->
    draws_within_ranges self w.
Proof.
  intros self w Hc Hu Hr. unfold draws_within_ranges.
  destruct (reset_env_trace w Hc) as (poses & w' & Hrun & _ & _ & _ & _ & Hposes).
  exists poses, w'. split; [assumption|].
  intros e t Ht. destruct (Hposes e t Ht) as (t_stable & Hst & ->).
  unfold reset_pose. cbv zeta.
  set (range := Q2R (DataGenEnv.object_rand_pose_range self)).
  assert (Hrange : (0 <= range)%R).
  { unfold range. replace 0%R with (Q2R 0) by (unfold Q2R; cbn; lra).
    now apply Qle_Rle. }
  do 4 eexists. split; [exact Hst|].
  split; [|split; [|split; [|reflexivity]]].
  - apply uniform_value_bounds; [lra|]. apply Q2R_unit; apply Hu.
  - apply uniform_value_bounds; [lra|]. apply Q2R_unit; apply Hu.
  - match goal with |- context [Q2R (samples w ?c)] =>
      pose proof (Q2R_unit (proj1 (Hu c)) (proj2 (Hu c))) as Hy
    end.
    pose proof PI_RGT_0. split; nra.
Qed.

Lemma reset_env_draws_within_ranges_witness :
  draws_within_ranges example_scene (initial_world half_samples).
Proof.
  apply reset_env_draws_within_ranges.
  - repeat split.
  - exact half_samples_unit.
  - unfold Qle. cbn. lia.
Defined.




(* ------------------------------------------------------------------ *)
(** * The geometry of a composed pose *)

(** X6. The position of a composed pose is the canonical position turned
    by the yaw about the vertical axis, plus the random offset: its
    coordinates are (x cos yaw - y sin yaw + ox, x sin yaw + y cos yaw + oy,
    z + oz). *)
Theorem composed_position_turns_about_z :
  forall (p_stable p_random : gymapi.Vec3) (q_stable : gymapi.Quat) (yaw : R),
    gymapi.p (DataGenEnv.compose p_stable q_stable p_random
                                 (scipy.from_euler_z yaw)) =
    gymapi.mkVec3
      (gymapi.x p_stable * cos yaw - gymapi.y p_stable * sin yaw + gymapi.x p_random)
      (gymapi.x p_stable * sin yaw + gymapi.y p_stable * cos yaw + gymapi.y p_random)
      (gymapi.z p_stable + gymapi.z p_random).
Proof.
  intros p_stable p_random q_stable yaw.
  unfold DataGenEnv.compose. cbn [gymapi.p].
  unfold gymapi.add, gymapi.rotate, gymapi.mul, gymapi.conjugate,
    scipy.from_euler_z.
  cbn [gymapi.x gymapi.y gymapi.z gymapi.qx gymapi.qy gymapi.qz gymapi.w].
  assert (Ec : cos yaw = (cos (yaw / 2) * cos (yaw / 2) -
                          sin (yaw / 2) * sin (yaw / 2))%R).
  { rewrite <- cos_2a. f_equal. field. }
  assert (Es : sin yaw = (2 * sin (yaw / 2) * cos (yaw / 2))%R).
  { rewrite <- sin_2a. f_equal. field. }
  rewrite Ec, Es.
  pose proof (sin2_cos2 (yaw / 2)) as H. unfold Rsqr in H.
  clear Ec Es.
  set (s := sin (yaw / 2)) in *. set (c := cos (yaw / 2)) in *.
  f_equal.
  - ring.
  - ring.
  - transitivity (gymapi.z p_stable * (s * s + c * c) + gymapi.z p_random)%R;
      [ring|rewrite H; ring].
Qed.

Lemma norm2_mul (a b : gymapi.Quat) :
  norm2 (gymapi.mul a b) = (norm2 a * norm2 b)%R.
Proof.
  unfold norm2, gymapi.mul.
  cbn [gymapi.qx gymapi.qy gymapi.qz gymapi.w]. ring.
Qed.

Lemma norm2_from_euler_z (yaw : R) : norm2 (scipy.from_euler_z yaw) = 1%R.
Proof.
  unfold norm2, scipy.from_euler_z.
  cbn [gymapi.qx gymapi.qy gymapi.qz gymapi.w].
  pose proof (sin2_cos2 (yaw / 2)) as H. unfold Rsqr in H.
  rewrite <- H. ring.
Qed.

(** Normalising a quaternion that is not zero gives one of magnitude 1. *)
Lemma magnitude_normalize (q : gymapi.Quat) :
  (0 < norm2 q)%R -> gymapi.magnitude (gymapi.normalize q) = 1%R.
Proof.
  intro Hq.
  assert (Hm : (0 < gymapi.magnitude q)%R) by (apply sqrt_lt_R0; exact Hq).
  assert (Hmm : (gymapi.magnitude q * gymapi.magnitude q = norm2 q)%R)
    by (apply sqrt_sqrt; unfold norm2 in *; lra).
  unfold gymapi.normalize. cbv zeta.
  set (m := gymapi.magnitude q) in *.
  unfold gymapi.magnitude at 1.
  cbn [gymapi.qx gymapi.qy gymapi.qz gymapi.w].
  replace (gymapi.qx q / m * (gymapi.qx q / m) +
           gymapi.qy q / m * (gymapi.qy q / m) +
           gymapi.qz q / m * (gymapi.qz q / m) +
           gymapi.w q / m * (gymapi.w q / m))%R
    with (norm2 q / (m * m))%R
    by (unfold norm2; field; lra).
  rewrite Hmm. replace (norm2 q / norm2 q)%R with 1%R by (field; lra).
  apply sqrt_1.
Qed.

(** X7. On a constructed scene whose canonical orientations are not the
    zero quaternion, every pose [reset_env] returns and writes to the
    engine has an orientation of magnitude exactly 1. *)
Theorem reset_env_writes_unit_orientations :
  forall (self : DataGenEnv.t) (w : World),
    constructed self ->
    (forall t_stable, In t_stable (DataGenEnv.cur_object_stable_poses self) ->
       (0 < norm2 (gymapi.r t_stable))%R) ->
    writes_unit_orientations self w.
Proof.
  intros self w Hc Hnz. unfold writes_unit_orientations.
  destruct (reset_env_ok w Hc)
    as (poses & w' & Hrun & _ & _ & Hw & _ & Hposes).
  exists poses, w'. split; [assumption|]. split; [assumption|].
  intros t Ht. apply In_nth_error in Ht. destruct Ht as (e & He).
  destruct (Hposes e t He) as (t_stable & c & Hst & ->).
  unfold reset_pose, DataGenEnv.compose. cbn [gymapi.r].
  apply magnitude_normalize.
  rewrite norm2_mul, norm2_from_euler_z, Rmult_1_l.
  apply Hnz. eapply nth_error_In. exact Hst.
Qed.

Lemma reset_env_writes_unit_orientations_witness :
  writes_unit_orientations example_scene (initial_world half_samples).
Proof.
  apply reset_env_writes_unit_orientations.
  - repeat split.
  - intros t_stable Hin. cbn in Hin.
    destruct Hin as [<-|[<-|[]]]; unfold norm2, symmetric_pose, gymapi.identity;
      cbn [gymapi.r gymapi.qx gymapi.qy gymapi.qz gymapi.w].
    + lra.
    + lra.
Defined.

(* ------------------------------------------------------------------ *)
(** * More on the catalog *)

Lemma sum_nonneg (l : list Q) :
  (forall v, In v l -> (0 <= v)%Q) -> (0 <= np.sum l)%Q.
Proof.
  induction l as [|u l IH]; intro H; cbn.
  - apply Qle_refl.
  - change 0%Q with (0 + 0)%Q. apply Qplus_le_compat.
    + apply H. now left.
    + apply IH. intros v Hv. apply H. now right.
Qed.

Lemma sum_bounds_entry (l : list Q) (v : Q) :
  (forall u, In u l -> (0 <= u)%Q) -> In v l -> (v <= np.sum l)%Q.
Proof.
  induction l as [|u l IH]; intros Hpos Hin; [contradiction|].
  cbn. destruct Hin as [->|Hin].
  - rewrite <- (Qplus_0_r v) at 1. apply Qplus_le_compat; [apply Qle_refl|].
    apply sum_nonneg. intros x Hx. apply Hpos. now right.
  - rewrite <- (Qplus_0_l v). apply Qplus_le_compat.
    + apply Hpos. now left.
    + apply IH; [|assumption]. intros x Hx. apply Hpos. now right.
Qed.

(** X8. With a non-negative minimum, every renormalised probability of the
    retained catalog is positive and at most 1. *)
Theorem renormalised_probabilities_in_unit_interval :
  forall (P : Type) (min_prob : Q) (max_num : Z) (probs : list Q)
         (poses : list P) (v : Q),
    (0 <= min_prob)%Q ->
    In v (fst (filter_catalog min_prob max_num probs poses)) ->
    (0 < v)%Q /\ (v <= 1)%Q.
Proof.
  intros P min_prob max_num probs poses v Hmin Hin.
  unfold filter_catalog in Hin. cbn [fst] in Hin.
  unfold np.divide in Hin. apply in_map_iff in Hin.
  destruct Hin as (u & <- & Hu).
  set (raw := retained_prob min_prob max_num probs) in *.
  assert (Hpos : forall x, In x raw -> (0 < x)%Q).
  { intros x Hx. apply retained_prob_above in Hx.
    eapply Qle_lt_trans; [exact Hmin|apply Hx]. }
  assert (Hu0 : (0 < u)%Q) by now apply Hpos.
  assert (Hle : (u <= np.sum raw)%Q).
  { apply sum_bounds_entry; [|assumption].
    intros x Hx. apply Qlt_le_weak. now apply Hpos. }
  assert (Hs : (0 < np.sum raw)%Q) by (eapply Qlt_le_trans; eassumption).
  split.
  - apply Qlt_shift_div_l; [assumption|]. now rewrite Qmult_0_l.
  - apply Qle_shift_div_r; [assumption|]. now rewrite Qmult_1_l.
Qed.

Lemma renormalised_probabilities_in_unit_interval_witness :
  (0 < nth 0 (fst (filter_catalog (1 # 10) 2 [1 # 2; 3 # 10; 1 # 5]%Q
                                  [0; 1; 2]%nat)) 0)%Q /\
  (nth 0 (fst (filter_catalog (1 # 10) 2 [1 # 2; 3 # 10; 1 # 5]%Q
                              [0; 1; 2]%nat)) 0 <= 1)%Q.
Proof.
  apply (@renormalised_probabilities_in_unit_interval nat (1 # 10) 2
           [1 # 2; 3 # 10; 1 # 5]%Q [0; 1; 2]%nat).
  - unfold Qle. cbn. lia.
  - vm_compute. left. reflexivity.
Defined.

Lemma descending_nth (l : list Q) (i j : nat) (a b : Q) :
  descending l -> (i <= j)%nat ->
  nth_error l i = Some a -> nth_error l j = Some b -> (b <= a)%Q.
Proof.
  intro Hd. revert i j. induction Hd as [|u l Hs IH Hall]; intros i j Hij Hi Hj.
  - destruct i; discriminate.
  - destruct i as [|i], j as [|j]; cbn in Hi, Hj.
    + injection Hi as <-. injection Hj as <-. apply Qle_refl.
    + injection Hi as <-. apply nth_error_In in Hj.
      rewrite Forall_forall in Hall. now apply Hall.
    + lia.
    + apply (IH i j); [lia|assumption|assumption].
Qed.

(** X9. On a catalog sorted by descending probability the filter keeps the
    most probable entries: every retained probability is at least as large
    as the probability of every entry that was not retained, and the poses
    kept are those of the retained entries, in the order of the input. *)
Theorem filter_keeps_most_probable :
  forall (P : Type) (min_prob : Q) (max_num : Z) (probs : list Q)
         (poses : list P),
    descending probs ->
    List.length poses = List.length probs ->
    let raw := retained_prob min_prob max_num probs in
    raw = firstn (List.length raw) probs /\
    snd (filter_catalog min_prob max_num probs poses) =
      firstn (List.length raw) poses /\
    forall i j kept dropped,
      nth_error raw i = Some kept ->
      (List.length raw <= j)%nat ->
      nth_error probs j = Some dropped ->
      (dropped <= kept)%Q.
Proof.
  intros P min_prob max_num probs poses Hd Hlen raw.
  pose proof (retained_prob_prefix min_prob max_num Hd) as Hpre. fold raw in Hpre.
  split; [exact Hpre|]. split.
  - unfold filter_catalog. cbn [snd]. fold raw. apply slice_to_length.
  - intros i j kept dropped Hi Hj Hdrop.
    assert (Hlt : (i < List.length raw)%nat).
    { apply nth_error_Some. congruence. }
    rewrite Hpre, nth_error_firstn_lt in Hi by assumption.
    apply (descending_nth Hd (i := i) (j := j)); [lia|assumption|assumption].
Qed.

Lemma filter_keeps_most_probable_witness :
  let raw := retained_prob (1 # 4) 5 [1 # 2; 3 # 10; 1 # 5]%Q in
  raw = firstn (List.length raw) [1 # 2; 3 # 10; 1 # 5]%Q /\
  snd (filter_catalog (1 # 4) 5 [1 # 2; 3 # 10; 1 # 5]%Q [0; 1; 2]%nat) =
    firstn (List.length raw) [0; 1; 2]%nat /\
  forall i j kept dropped,
    nth_error raw i = Some kept ->
    (List.length raw <= j)%nat ->
    nth_error [1 # 2; 3 # 10; 1 # 5]%Q j = Some dropped ->
    (dropped <= kept)%Q.
Proof.
  apply (@filter_keeps_most_probable nat (1 # 4) 5 [1 # 2; 3 # 10; 1 # 5]%Q
           [0; 1; 2]%nat).
  - exact descending_example.
  - reflexivity.
Defined.

(* ------------------------------------------------------------------ *)
(** * Scene construction, call by call *)

(** [_create_envs] with no environment to create. *)
Lemma create_envs_no_env (as_quat : DataGenEnv.matrix -> gymapi.Quat)
    (self : DataGenEnv.t) (urdf : string) (assets : DataGenEnv.Assets)
    (w : World) :
  DataGenEnv.num_envs self = 0%nat ->
  exists self',
    DataGenEnv._create_envs as_quat self urdf assets w =
      (Ok self', mkWorld (samples w) (cursor w)
                         (trace w ++ [load_asset urdf; print_creating 0])) /\
    DataGenEnv.num_envs self' = 0%nat /\
    DataGenEnv.envs self' = DataGenEnv.envs self /\
    DataGenEnv.object_handles self' = DataGenEnv.object_handles self /\
    DataGenEnv.camera_handles self' = DataGenEnv.camera_handles self /\
    DataGenEnv.cur_object_stable_poses self' = [].
Proof.
  intro Hn. unfold DataGenEnv._create_envs.
  unfold bind at 1. cbn [emit].
  destruct (filter_catalog _ _ _ _) as [a b].
  rewrite Hn. unfold py.range. cbn [seq forM].
  unfold bind. cbn [emit ret map samples cursor trace].
  rewrite !app_nil_r, <- !app_assoc.
  eexists. split; [reflexivity|].
  cbn [DataGenEnv.num_envs DataGenEnv.envs DataGenEnv.object_handles
       DataGenEnv.camera_handles DataGenEnv.cur_object_stable_poses].
  repeat split; assumption.
Qed.

(** [_create_envs] on a catalog without a pose, one environment or more
    requested. *)
Lemma create_envs_empty_poses (as_quat : DataGenEnv.matrix -> gymapi.Quat)
    (self : DataGenEnv.t) (urdf : string) (assets : DataGenEnv.Assets)
    (w : World) :
  snd (filter_catalog (DataGenEnv.min_stable_pose_prob self)
                      (DataGenEnv.max_num_stable_pose self)
                      (DataGenEnv.stable_prob assets)
                      (DataGenEnv.stable_poses assets)) = [] ->
  (0 < DataGenEnv.num_envs self)%nat ->
  DataGenEnv._create_envs as_quat self urdf assets w =
  (Raised (ValueError "high <= 0"),
   mkWorld (samples w) (cursor w)
           (trace w ++ [load_asset urdf;
                        print_creating (DataGenEnv.num_envs self);
                        create_env 0])).
Proof.
  intros Hempty Hn. unfold DataGenEnv._create_envs.
  destruct (filter_catalog _ _ _ _) as [a b]. cbn [snd] in Hempty. subst b.
  cbn [map].
  destruct (DataGenEnv.num_envs self) as [|n]; [lia|].
  unfold py.range. cbn [seq forM].
  unfold DataGenEnv.create_envs_body, np_random.randint.
  cbn [List.length Z.of_nat Z.leb Z.compare].
  cbv [bind emit raise]. cbn [samples cursor trace].
  rewrite <- !app_assoc. reflexivity.
Qed.

(** X10. With a generator of unit samples, scene construction ends well
    exactly when the retained catalog has a pose or no environment is
    requested, leaving one handle and one canonical pose per environment;
    on an empty catalog with at least one environment it raises the
    [ValueError] of the index draw. The construction raises no
    [IndexError]. *)
Theorem scene_construction_outcome :
  forall (as_quat : DataGenEnv.matrix -> gymapi.Quat)
         (args : DataGenEnv.Args) (cfg : DataGenEnv.Config)
         (assets : DataGenEnv.Assets) (s : nat -> Q),
    unit_samples s ->
    construction_outcome as_quat args cfg assets s.
Proof.
  intros as_quat args cfg assets s Hu. unfold construction_outcome. split.
  - intros [Hne|Hzero].
    + destruct (@init_ok as_quat args cfg assets s Hu Hne)
        as (env & w1 & Hrun & Hc & _).
      exists env, w1. split; assumption.
    + rewrite init_unfold.
      destruct (@create_envs_no_env as_quat (init_self args cfg)
                  (object_asset_file cfg) assets
                  (mkWorld (samples (initial_world s)) (cursor (initial_world s))
                           (trace (initial_world s) ++ init_prelude args cfg))
                  Hzero)
        as (env & Hrun & Hn & He & Ho & Hcam & Hcur).
      unfold bind at 1. rewrite Hrun. unfold bind. cbn [emit ret].
      eexists. eexists. split; [reflexivity|].
      unfold constructed. rewrite Hn, He, Ho, Hcam, Hcur. repeat split.
  - intros [Hempty Hn]. rewrite init_unfold.
    unfold catalog_of in Hempty. apply map_eq_nil in Hempty.
    unfold bind at 1.
    rewrite (@create_envs_empty_poses as_quat (init_self args cfg)
               (object_asset_file cfg) assets _ Hempty Hn).
    eexists. reflexivity.
Qed.

Lemma scene_construction_outcome_witness :
  construction_outcome example_as_quat example_args (example_cfg (1 # 10))
                       example_assets half_samples.
Proof.
  apply scene_construction_outcome. exact half_samples_unit.
Defined.

(** [_create_envs] on a catalog with a pose, call by call. *)
Lemma create_envs_trace (as_quat : DataGenEnv.matrix -> gymapi.Quat)
    (self : DataGenEnv.t) (urdf : string) (assets : DataGenEnv.Assets)
    (w : World) :
  unit_samples (samples w) ->
  let poses := map (DataGenEnv.to_transform as_quat)
                   (snd (filter_catalog (DataGenEnv.min_stable_pose_prob self)
                                        (DataGenEnv.max_num_stable_pose self)
                                        (DataGenEnv.stable_prob assets)
                                        (DataGenEnv.stable_poses assets))) in
  poses <> [] ->
  exists self' w',
    DataGenEnv._create_envs as_quat self urdf assets w = (Ok self', w') /\
    (forall t, In t (DataGenEnv.cur_object_stable_poses self') -> In t poses) /\
    DataGenEnv.camera_matrix self' = DataGenEnv.camera_matrix self /\
    trace w' =
      trace w ++ load_asset urdf ::
      print_creating (DataGenEnv.num_envs self) ::
      flat_map (construction_events (DataGenEnv.camera_matrix self))
               (combine (py.range (DataGenEnv.num_envs self))
                        (DataGenEnv.cur_object_stable_poses self')).
Proof.
  intros Hu poses Hne.
  unfold DataGenEnv._create_envs. unfold bind at 1. cbn [emit].
  destruct (filter_catalog _ _ _ _) as [probs' poses'] eqn:Ecat.
  cbn [snd] in poses. fold poses.
  unfold bind at 1. cbn [emit samples cursor trace].
  match goal with
  | |- context [bind (forM _ ?f) _ ?w0] =>
      destruct (@for_range_invariant _ (DataGenEnv.num_envs self) f
        (fun k rounds w1 =>
           samples w1 = samples w /\
           List.length rounds = k /\
           (forall t, In t (map (fun x => snd (fst (fst x))) rounds) -> In t poses) /\
           trace w1 =
             trace w ++ load_asset urdf ::
             print_creating (DataGenEnv.num_envs self) ::
             flat_map (construction_events (DataGenEnv.camera_matrix self))
                      (combine (seq 0 k)
                               (map (fun x => snd (fst (fst x))) rounds))) w0)
        as (rounds & w1 & Hrun & Hs & Hl & Hin & Htr)
  end.
  - cbn. rewrite <- app_assoc. repeat split; try reflexivity. intros t [].
  - intros k rounds w1 Hk (Hs & Hl & Hin & Htr).
    destruct (@create_envs_body_ok (DataGenEnv.camera_matrix self) poses k w1 Hne)
      as (pose & Hnth & Hbody).
    { rewrite Hs. apply Hu. }
    { rewrite Hs. apply Hu. }
    eexists. eexists. split; [exact Hbody|].
    cbn [samples cursor trace]. rewrite length_app, map_app. cbn [List.length map fst snd].
    rewrite combine_seq_snoc by (rewrite length_map; exact Hl).
    rewrite flat_map_app, Htr. cbn [flat_map]. rewrite app_nil_r.
    unfold construction_events at 2. cbn [fst snd].
    split; [assumption|]. split; [lia|]. split.
    + intros t Ht. apply in_app_or in Ht. destruct Ht as [Ht|[<-|[]]].
      * now apply Hin.
      * eapply nth_error_In. exact Hnth.
    + rewrite <- !app_assoc. reflexivity.
  - unfold bind at 1. rewrite Hrun. cbn [ret].
    eexists. eexists. split; [reflexivity|].
    cbn [DataGenEnv.cur_object_stable_poses DataGenEnv.camera_matrix].
    repeat split; assumption.
Qed.

(** X11. With a generator of unit samples and a retained catalog that has
    a pose, scene construction issues exactly these calls on the engine,
    writes to disk and printed lines: its prelude (the engine acquired, the
    dataset directory under the script's directory made, the configuration
    dumped into it, the simulation and the ground created, and unless
    headless the viewer created, its camera aimed and two keys subscribed),
    the load of the asset, the line announcing the environments, then for
    each environment in index order the creation of the environment, of its actor at the canonical pose given
    to it, the segmentation tag 1, the camera and the camera's mount, and
    last the preparation of the simulation. Every canonical pose is a pose
    of the retained catalog, and every camera has the same properties. *)
Theorem scene_construction_calls :
  forall (as_quat : DataGenEnv.matrix -> gymapi.Quat)
         (args : DataGenEnv.Args) (cfg : DataGenEnv.Config)
         (assets : DataGenEnv.Assets) (s : nat -> Q),
    unit_samples s ->
    catalog_of as_quat cfg assets <> [] ->
    construction_calls as_quat args cfg assets s.
Proof.
  intros as_quat args cfg assets s Hu Hne. unfold construction_calls.
  destruct (@init_ok as_quat args cfg assets s Hu Hne)
    as (env & w1 & Hinit & Hc & _).
  exists env, w1. split; [assumption|]. split; [assumption|].
  rewrite init_unfold in Hinit.
  set (w0 := mkWorld _ _ _) in Hinit.
  destruct (@create_envs_trace as_quat (init_self args cfg)
              (object_asset_file cfg) assets w0 Hu Hne)
    as (self' & w' & Hrun & Hin & Hcm & Htr).
  destruct (@create_envs_ok as_quat (init_self args cfg)
              (object_asset_file cfg) assets w0 Hu Hne)
    as (self2 & w2 & Hrun2 & _ & _ & _ & _ & Hposes & _).
  rewrite Hrun in Hrun2. injection Hrun2 as <- <-.
  unfold bind at 1 in Hinit. rewrite Hrun in Hinit.
  unfold bind in Hinit. cbn [emit ret] in Hinit.
  injection Hinit as <- <-.
  cbn [trace]. rewrite Htr, Hcm. subst w0. cbn [trace initial_world app].
  split; [exact Hposes|]. split; [exact Hin|].
  cbn [DataGenEnv.num_envs init_self DataGenEnv.camera_matrix].
  rewrite <- !app_assoc. reflexivity.
Qed.

Lemma scene_construction_calls_witness :
  construction_calls example_as_quat example_args (example_cfg (1 # 10))
                     example_assets half_samples.
Proof.
  apply scene_construction_calls.
  - exact half_samples_unit.
  - cbn. discriminate.
Defined.

(* ------------------------------------------------------------------ *)
(** * The camera extrinsic *)

(** X12. The camera extrinsic is the 4x4 transform whose rotation block
    has for columns the second and third columns of the mount rotation,
    negated, and then its first column (camera y and z negated become the
    first two axes, the optical axis x becomes the third), whose last
    column is the mount position (0, 0.16, 0.7) and whose last row is
    (0, 0, 0, 1). The conversion keeps the products of the rows of the
    rotation: the block is orthonormal whenever the mount rotation is. *)
Theorem camera_extr_permutes_axes :
  forall a b c d e f g h i : R,
    let rot := [[a; b; c]; [d; e; f]; [g; h; i]] in
    camera_extr rot =
      [[- b; - c; a; 0]; [- e; - f; d; 0.16]; [- h; - i; g; 0.7];
       [0; 0; 0; 1]]%R /\
    np_dot (rotation_block (camera_extr rot))
           (transpose (rotation_block (camera_extr rot))) =
    np_dot rot (transpose rot).
Proof.
  intros a b c d e f g h i rot. subst rot.
  assert (E : camera_extr [[a; b; c]; [d; e; f]; [g; h; i]] =
              [[- b; - c; a; 0]; [- e; - f; d; 0.16]; [- h; - i; g; 0.7];
               [0; 0; 0; 1]]%R).
  { unfold camera_extr, np_dot, np_eye, rot_convert, column, entry, cam_pose_p.
    cbn [map seq List.length hd nth combine fold_right fst snd Nat.ltb Nat.leb
         Nat.eqb andb gymapi.x gymapi.y gymapi.z].
    repeat (f_equal; try ring). }
  split; [exact E|]. rewrite E.
  unfold np_dot, transpose, rotation_block, column.
  cbn [map seq List.length hd nth combine fold_right fst snd firstn].
  repeat (f_equal; try ring).
Qed.

(* ------------------------------------------------------------------ *)
(** * visualize.py against the files of a run *)

Lemma string_app_assoc (a b c : string) :
  ((a ++ b) ++ c = a ++ (b ++ c))%string.
Proof. induction a as [|ch a IH]; cbn; [reflexivity|now rewrite IH]. Qed.

(** The path visualize.py reads for a role and an index is the path [step]
    writes for them with a padding of 5 under the same root. *)
Lemma visualize_path_is_data_path (root role : string) (idx : nat) :
  visualize.path_of root role idx =
  DataGenEnv.data_path (root ++ "/src/E2") role (DataGenEnv.file_suffix 5 idx).
Proof.
  unfold visualize.path_of, visualize.dir, visualize.file_name,
    DataGenEnv.data_path, DataGenEnv.file_suffix.
  rewrite !string_app_assoc. reflexivity.
Qed.

Lemma exists_file_iff (files : list string) (path : string) :
  visualize.exists_file files path = true <-> In path files.
Proof.
  unfold visualize.exists_file. rewrite existsb_exists. split.
  - intros (x & Hx & Heq). apply String.eqb_eq in Heq. now subst.
  - intro H. exists path. split; [assumption|apply String.eqb_refl].
Qed.

(** Two samples share a file only if their padded indices are the same
    string. *)
Lemma sample_files_same_name (save_dir : string) (pad pad' a b : nat)
    (path : string) :
  In path (sample_files save_dir pad a) ->
  In path (sample_files save_dir pad' b) ->
  py.format_0d pad a = py.format_0d pad' b.
Proof.
  unfold sample_files, DataGenEnv.data_path, DataGenEnv.file_suffix.
  intros Ha Hb. cbn [In] in Ha, Hb.
  destruct Ha as [Ha|[Ha|[Ha|[]]]]; destruct Hb as [Hb|[Hb|[Hb|[]]]];
    rewrite <- Ha in Hb; apply string_app_inv_head in Hb;
    cbn in Hb; try discriminate;
    injection Hb as Hb; apply string_app_inv_tail in Hb;
    symmetry; exact Hb.
Qed.

Lemma role_path_in_sample_files (root : string) (idx : nat) :
  In (visualize.path_of root "pose" idx) (sample_files (root ++ "/src/E2") 5 idx) /\
  In (visualize.path_of root "mask" idx) (sample_files (root ++ "/src/E2") 5 idx) /\
  In (visualize.path_of root "image" idx) (sample_files (root ++ "/src/E2") 5 idx).
Proof.
  rewrite !visualize_path_is_data_path. unfold sample_files. cbn [In]. tauto.
Qed.

(** A file of sample [idx] is among those of the first [m] samples exactly
    when [idx < m]. *)
Lemma written_iff_below (root role : string) (idx m : nat) :
  In (visualize.path_of root role idx) (sample_files (root ++ "/src/E2") 5 idx) ->
  In (visualize.path_of root role idx)
     (flat_map (sample_files (root ++ "/src/E2") 5) (py.range m)) <->
  (idx < m)%nat.
Proof.
  intro Hown. rewrite in_flat_map. unfold py.range. split.
  - intros (j & Hj & Hin). apply in_seq in Hj.
    assert (idx = j) by (eapply sample_files_inj; eassumption). lia.
  - intro H. exists idx. split; [apply in_seq; lia|assumption].
Qed.

(** The loop of visualize.py over the files of the first [m] samples. *)
Lemma visualize_loop_on_written (root : string) (m n a : nat) :
  (a <= m)%nat ->
  visualize.loop (flat_map (sample_files (root ++ "/src/E2") 5) (py.range m))
                 root (seq a n) =
  (seq a (Nat.min n (m - a)),
   if (a + n <=? m)%nat then visualize.Done
   else visualize.FileNotFoundError (visualize.path_of root "pose" m)).
Proof.
  revert a. induction n as [|n IH]; intros a Ha.
  - cbn [seq visualize.loop Nat.min]. destruct (Nat.leb_spec (a + 0) m); [reflexivity|lia].
  - cbn [seq visualize.loop].
    destruct (role_path_in_sample_files root a) as (Hp & Hm & Hi).
    destruct (Nat.eq_dec a m) as [->|Hneq].
    + assert (E : visualize.exists_file
                    (flat_map (sample_files (root ++ "/src/E2") 5) (py.range m))
                    (visualize.path_of root "pose" m) = false).
      { apply Bool.not_true_is_false. rewrite exists_file_iff.
        rewrite (@written_iff_below root "pose" m m Hp). lia. }
      rewrite E. cbn [negb]. rewrite Nat.sub_diag, Nat.min_0_r.
      destruct (Nat.leb_spec (m + S n) m); [lia|reflexivity].
    + assert (Hlt : (a < m)%nat) by lia.
      rewrite (proj2 (exists_file_iff _ _) (proj2 (@written_iff_below root "pose" a m Hp) Hlt)).
      rewrite (proj2 (exists_file_iff _ _) (proj2 (@written_iff_below root "mask" a m Hm) Hlt)).
      rewrite (proj2 (exists_file_iff _ _) (proj2 (@written_iff_below root "image" a m Hi) Hlt)).
      cbn [negb]. rewrite IH by lia.
      replace (Nat.min (S n) (m - a)) with (S (Nat.min n (m - S a))) by lia.
      cbn [seq].
      destruct (Nat.leb_spec (S a + n) m), (Nat.leb_spec (a + S n) m);
        try lia; reflexivity.
Qed.

(** X13. Run after the loop of the driver has written its samples into an
    empty data directory with a padding of 5 and the object E2,
    visualize.py shows one figure for each of the first 100 samples and
    ends well only if at least 100 samples were written; with fewer it
    shows one figure per written sample and then fails to find the pose
    file of index [num_iters * num_envs]. *)
Theorem visualize_reads_what_the_run_wrote :
  forall (self : DataGenEnv.t) (shown : nat) (w : World) (root : string),
    constructed self ->
    DataGenEnv.save_results self = true ->
    DataGenEnv.save_dir self = (root ++ "/src/E2")%string ->
    DataGenEnv.FILE_ZERO_PADDING_NUM self = 5%nat ->
    saved_paths (trace w) = [] ->
    visualize_after_run self shown w root.
Proof.
  intros self shown w root Hc Hsave Hdir Hpad Hempty.
  unfold visualize_after_run.
  destruct (run_iterations_ok shown w Hc Hsave) as (w' & Hrun & Hpaths).
  rewrite Hrun. cbn [snd]. rewrite Hpaths, Hempty, Hdir, Hpad, app_nil_l.
  cbv zeta. unfold visualize.main. rewrite visualize_loop_on_written by lia.
  rewrite Nat.sub_0_r, Nat.min_comm. cbn [Nat.add]. reflexivity.
Qed.

Lemma visualize_reads_what_the_run_wrote_witness :
  visualize_after_run example_scene 2 (initial_world half_samples) ".".
Proof.
  apply visualize_reads_what_the_run_wrote; try reflexivity. repeat split.
Defined.

(** X14. If the samples were written with a padding other than 5,
    visualize.py shows nothing: it fails to find the first file it asks
    for, the pose file of index 0 padded to 5 digits, however many samples
    were written. *)
Theorem visualize_needs_padding_5 :
  forall (root : string) (pad m : nat),
    pad <> 5%nat ->
    visualize.main (flat_map (sample_files (root ++ "/src/E2") pad) (py.range m))
                   root =
    ([], visualize.FileNotFoundError (visualize.path_of root "pose" 0)).
Proof.
  intros root pad m Hpad. unfold visualize.main. cbn [seq visualize.loop].
  assert (E : visualize.exists_file
                (flat_map (sample_files (root ++ "/src/E2") pad) (py.range m))
                (visualize.path_of root "pose" 0) = false).
  { apply Bool.not_true_is_false. rewrite exists_file_iff, in_flat_map.
    intros (j & _ & Hin).
    destruct (role_path_in_sample_files root 0) as (Hp & _).
    pose proof (@sample_files_same_name _ _ _ _ _ _ Hp Hin) as Hname.
    pose proof (f_equal parse_nat Hname) as Hparse.
    rewrite !parse_format_0d in Hparse. injection Hparse as <-.
    apply (f_equal String.length) in Hname.
    rewrite !length_format_0d in Hname. cbn in Hname. lia. }
  rewrite E. reflexivity.
Qed.

Lemma visualize_needs_padding_5_witness :
  visualize.main (flat_map (sample_files ("." ++ "/src/E2") 4) (py.range 8)) "." =
  ([], visualize.FileNotFoundError (visualize.path_of "." "pose" 0)).
Proof.
  apply visualize_needs_padding_5. lia.
Defined.
